(** * Assistant dialogs (gui/assistant_dialogs.py)

  A shallow embedding of the logic behind the three dialogs of
  [gui/assistant_dialogs.py]: the dictation handlers, the function
  selection, the knowledge-file list, profile loading and saving of
  [AssistantConfigDialog], and [ExportAssistantDialog.export_assistant].

  Widgets are records holding what the code reads back from them; a slot
  connected to a signal is called where Qt would emit the signal.  Python
  strings are [string], dicts keyed by strings are [gmap string _] unless
  the order of their items matters, in which case they are association
  lists. *)

From Stdlib Require Import Ascii.
From stdpp Require Import gmap strings list fin_maps.

(** ** Python strings *)

Module PyStr.

(** ["\n"] *)
Definition LF : string := String (Ascii.ascii_of_nat 10) "".

(** Truth value of a [str]: non-empty. *)
Definition truthy (s : string) : bool := negb (String.eqb s "").

(** [s[i:j]] for [0 <= i] and [0 <= j]. *)
Definition slice (i j : nat) (s : string) : string :=
  String.substring i (j - i) s.

(** [s.rfind(sub)]: the highest index at which [sub] starts in [s]. *)
Fixpoint rfind (sub s : string) : option nat :=
  match s with
  | EmptyString => if String.prefix sub "" then Some 0 else None
  | String _ s' =>
      match rfind sub s' with
      | Some i => Some (S i)
      | None => if String.prefix sub s then Some 0 else None
      end
  end.

(** The loop of [str.rsplit]: up to [maxcount] times, cut at the last
    occurrence of [sep] and push the piece after it in front of the
    pieces found so far; the rest of the string is the first piece. *)
Fixpoint rsplit_loop (sep : string) (maxcount : nat) (s : string)
    (pieces : list string) : list string :=
  match maxcount with
  | 0 => s :: pieces
  | S n =>
      match rfind sep s with
      | None => s :: pieces
      | Some pos =>
          rsplit_loop sep n (slice 0 pos s)
            (slice (pos + String.length sep) (String.length s) s :: pieces)
      end
  end.

(** [s.rsplit(sep, maxsplit)] for a non-empty [sep] (Python raises
    [ValueError] on an empty one; both callers test the separator for
    truth first). *)
Definition rsplit (sep : string) (maxsplit : nat) (s : string) : list string :=
  rsplit_loop sep maxsplit s [].

(** [l[0]] on the result of a split, which is never empty. *)
Definition item0 (l : list string) : string := hd "" l.

Fixpoint interleave (new s : string) : string :=
  match s with
  | EmptyString => new
  | String c s' => new +:+ String c (interleave new s')
  end.

(** Left-to-right scan of [str.replace]: [skip] characters of a match
    just replaced are still to be passed over. *)
Fixpoint replace_scan (old new : string) (skip : nat) (s : string) : string :=
  match s with
  | EmptyString => ""
  | String c s' =>
      match skip with
      | S k => replace_scan old new k s'
      | 0 =>
          if String.prefix old s
          then new +:+ replace_scan old new (String.length old - 1) s'
          else String c (replace_scan old new 0 s')
      end
  end.

(** [s.replace(old, new)]: every non-overlapping occurrence, from the
    left. *)
Definition replace (old new s : string) : string :=
  if String.eqb old "" then interleave new s else replace_scan old new 0 s.

Fixpoint last_char (s : string) : option Ascii.ascii :=
  match s with
  | EmptyString => None
  | String c EmptyString => Some c
  | String _ s' => last_char s'
  end.

(** [s.endswith("/")] *)
Definition endswith_sep (s : string) : bool :=
  match last_char s with
  | Some c => Ascii.eqb c "/"%char
  | None => false
  end.

(** [s] contains [sub]: [s = a + sub + b] for some [a], [b]. *)
Definition occurs (sub s : string) : Prop :=
  ∃ a b, s = a +:+ sub +:+ b.

(** [s = a + sub + b] is the split of [s] at the last occurrence of [sub]:
    no occurrence starts further to the right. *)
Definition last_occurrence (sub s a b : string) : Prop :=
  s = a +:+ sub +:+ b ∧
  ∀ a' b', s = a' +:+ sub +:+ b' → String.length a' ≤ String.length a.

(** *** What [open] and [str] do to text

  A character of a string stands for a code point below 256. *)

(** [s.isascii()] *)
Definition is_ascii (s : string) : bool :=
  forallb (λ c, Ascii.nat_of_ascii c <? 128) (String.list_ascii_of_string s).

Definition CR : Ascii.ascii := Ascii.ascii_of_nat 13.

(** Universal newlines, as a file opened in text mode is read: a
    carriage return, with the line feed that follows it if one does,
    becomes a line feed. *)
Fixpoint universal_newlines (s : string) : string :=
  match s with
  | EmptyString => ""
  | String c s' =>
      if Ascii.eqb c CR then
        String (Ascii.ascii_of_nat 10)
          match s' with
          | EmptyString => ""
          | String c' s'' =>
              if Ascii.eqb c' (Ascii.ascii_of_nat 10)
              then universal_newlines s'' else universal_newlines s'
          end
      else String c (universal_newlines s')
  end.

Definition contains (c : Ascii.ascii) (s : string) : bool :=
  existsb (Ascii.eqb c) (String.list_ascii_of_string s).

(** [str.isprintable] on one character, read as a code point below
    256. *)
Definition printable (c : Ascii.ascii) : bool :=
  let n := Ascii.nat_of_ascii c in
  (32 <=? n) && (n <? 127) || (161 <=? n) && negb (n =? 173).

Definition hex_digit (n : nat) : Ascii.ascii :=
  Ascii.ascii_of_nat (if n <? 10 then 48 + n else 87 + n).

(** One character inside [repr(s)], where [quote] is the quote chosen
    for [s]. *)
Definition escape (quote c : Ascii.ascii) : string :=
  let n := Ascii.nat_of_ascii c in
  if Ascii.eqb c quote || Ascii.eqb c "\"%char then String "\"%char (String c "")
  else if n =? 9 then "\t"
  else if n =? 10 then "\n"
  else if n =? 13 then "\r"
  else if printable c then String c ""
  else "\x" +:+ String (hex_digit (n / 16)) (String (hex_digit (n mod 16)) "").

(** [repr(s)]: in single quotes, or in double quotes when [s] holds a
    single quote and no double quote; the quote, the backslash and the
    characters that are not printable are escaped. *)
Definition repr (s : string) : string :=
  let single := Ascii.ascii_of_nat 39 in
  let double := Ascii.ascii_of_nat 34 in
  let quote := if contains single s && negb (contains double s)
               then double else single in
  String quote
    (foldr (λ c rest, escape quote c +:+ rest) (String quote "")
           (String.list_ascii_of_string s)).

End PyStr.

(** ** The file system seen through [os], [os.path], [shutil] and [open]

  POSIX paths as strings.  A path names a regular file exactly when it is
  a key of [files]; directories are a set of their own.  Paths are not
  normalised and there are no links: two paths name the same file exactly
  when they are the same string, which holds of the paths the export
  builds when the name of the profile is a file name ([is_name]).  The
  failures modelled are those of a path that is missing, that lies under
  a regular file, or where a directory stands for a file or a file for a
  directory; permissions, devices and encodings are outside the model. *)

Module Os.

Record FS := mkFS {
  dirs : gset string;
  files : gmap string string
}.

Inductive OSError :=
| FileNotFoundError (filename : string)
| FileExistsError (filename : string)
| NotADirectoryError (filename : string)
| IsADirectoryError (filename : string)
| SameFileError (src dst : string).

(** [os.path.join(a, p)] (posixpath). *)
Definition join (a p : string) : string :=
  if String.prefix "/" p then p
  else if negb (PyStr.truthy a) || PyStr.endswith_sep a then a +:+ p
  else a +:+ "/" +:+ p.

(** The prefixes of [pre + p] that end just before a separator of [p]. *)
Fixpoint cut_points (pre p : string) : list string :=
  match p with
  | EmptyString => []
  | String c p' =>
      (if Ascii.eqb c "/"%char then [pre] else [])
        ++ cut_points (pre +:+ String c "") p'
  end.

(** The directories above [p], from the top. *)
Definition ancestors (p : string) : list string :=
  filter (λ d, PyStr.truthy d && negb (PyStr.endswith_sep d) = true)
         (cut_points "" p).

(** A file name: one component of a path, other than "." and "..", and
    short enough for the 255 bytes a file system allows a name, of which
    a character may take two. *)
Definition is_name (s : string) : bool :=
  PyStr.truthy s && negb (String.eqb s ".") && negb (String.eqb s "..")
  && (String.length s <=? 127)
  && forallb (λ c, negb (Ascii.eqb c "/"%char) && negb (Ascii.eqb c Ascii.zero))
             (String.list_ascii_of_string s).

(** [os.path.isfile(p)], [os.path.isdir(p)], [os.path.exists(p)] *)
Definition is_file (p : string) (fs : FS) : bool :=
  bool_decide (is_Some (files fs !! p)).

Definition is_dir (p : string) (fs : FS) : bool :=
  bool_decide (p ∈ dirs fs).

Definition exists_ (p : string) (fs : FS) : bool :=
  is_dir p fs || is_file p fs.

(** Why a path that does not exist cannot be opened or made: a regular
    file stands above it, or a directory above it is missing. *)
Definition unreachable (p : string) (fs : FS) : option OSError :=
  if existsb (λ q, is_file q fs) (ancestors p) then Some (NotADirectoryError p)
  else if forallb (λ q, is_dir q fs) (ancestors p) then None
  else Some (FileNotFoundError p).

(** The first regular file on the way down to a directory to make, as
    [os.makedirs] meets it: [mkdir] fails on the path below it, or on the
    path itself when that is the file. *)
Fixpoint blocked (chain : list string) (fs : FS) : option OSError :=
  match chain with
  | [] => None
  | q :: rest =>
      if is_file q fs then
        Some match rest with
             | [] => FileExistsError q
             | child :: _ => NotADirectoryError child
             end
      else blocked rest fs
  end.

(** [os.makedirs(p, exist_ok=True)]: [p] and the directories above it
    exist afterwards, unless a regular file stands at one of them; then
    nothing is made. *)
Definition makedirs (p : string) (fs : FS) : FS + OSError :=
  match blocked (ancestors p ++ [p]) fs with
  | Some e => inr e
  | None => inl (mkFS (dirs fs ∪ list_to_set (ancestors p) ∪ {[ p ]}) (files fs))
  end.

(** The file at [p] holds [content]. *)
Definition put (p content : string) (fs : FS) : FS :=
  mkFS (dirs fs) (<[p := content]> (files fs)).

(** [open(p, "rb").read()] *)
Definition read_bytes (p : string) (fs : FS) : string + OSError :=
  match files fs !! p with
  | Some content => inl content
  | None =>
      inr (if is_dir p fs then IsADirectoryError p
           else if existsb (λ q, is_file q fs) (ancestors p)
           then NotADirectoryError p
           else FileNotFoundError p)
  end.

(** [open(p, "wb").write(content)] *)
Definition write_bytes (p content : string) (fs : FS) : FS + OSError :=
  if is_dir p fs then inr (IsADirectoryError p)
  else if is_file p fs then inl (put p content fs)
  else match unreachable p fs with
       | Some e => inr e
       | None => inl (put p content fs)
       end.

(** [shutil.copyfile(src, dst)] *)
Definition copyfile (src dst : string) (fs : FS) : FS + OSError :=
  if String.eqb src dst && exists_ src fs then inr (SameFileError src dst)
  else match read_bytes src fs with
       | inl content => write_bytes dst content fs
       | inr e => inr e
       end.

(** [open(p, "r").read()]: text mode reads with universal newlines.  The
    contents of a file are taken for text the locale decodes, which ASCII
    text is. *)
Definition read (p : string) (fs : FS) : string + OSError :=
  match read_bytes p fs with
  | inl content => inl (PyStr.universal_newlines content)
  | inr e => inr e
  end.

(** [open(p, "w").write(content)]: on POSIX text mode writes line feeds
    as they are. *)
Definition write (p content : string) (fs : FS) : FS + OSError :=
  write_bytes p content fs.

(** [str(e)] *)
Definition str (e : OSError) : string :=
  match e with
  | FileNotFoundError f =>
      "[Errno 2] No such file or directory: " +:+ PyStr.repr f
  | FileExistsError f => "[Errno 17] File exists: " +:+ PyStr.repr f
  | NotADirectoryError f => "[Errno 20] Not a directory: " +:+ PyStr.repr f
  | IsADirectoryError f => "[Errno 21] Is a directory: " +:+ PyStr.repr f
  | SameFileError src dst =>
      PyStr.repr src +:+ " and " +:+ PyStr.repr dst +:+ " are the same file"
  end.

End Os.

(** ** Qt widgets

  Each widget is the value the code reads back from it.  A setter emits
  its change signal only when the value changes; the connected slot is
  run by the dialog at that point. *)

Module Qt.

Inductive CheckState := Unchecked | PartiallyChecked | Checked.

(** The state a two-state check box reports after [setChecked(b)]. *)
Definition check_state (b : bool) : CheckState :=
  if b then Checked else Unchecked.

(** [QTextEdit] holding plain text, with the position of its text cursor
    (no selection). *)
Record TextEdit := mkTextEdit {
  toPlainText : string;
  position : nat
}.

(** Text that a [QTextEdit] hands back from [toPlainText] as [setText]
    got it.  [setText] guesses the format of its argument and takes for
    rich text only text that holds a tag or an entity; plain text is kept
    but for carriage returns and the separators beyond ASCII, which come
    back as line feeds or spaces.  So a text of tabs, line feeds and
    printable ASCII characters other than "<" and "&" is kept. *)
Definition keeps_text (s : string) : bool :=
  forallb
    (λ c, let n := Ascii.nat_of_ascii c in
          (32 <=? n) && (n <? 127) && negb (n =? 60) && negb (n =? 38)
          || (n =? 9) || (n =? 10))
    (String.list_ascii_of_string s).

(** [setPlainText(s)]: the text is replaced and the cursor returns to
    the start of the document. *)
Definition setPlainText (s : string) (_ : TextEdit) : TextEdit :=
  mkTextEdit s 0.

(** [insertPlainText(s)]: [s] is inserted at the cursor, which ends up
    behind it. *)
Definition insertPlainText (s : string) (e : TextEdit) : TextEdit :=
  let txt := toPlainText e in
  let pos := position e `min` String.length txt in
  mkTextEdit
    (PyStr.slice 0 pos txt +:+ s +:+ PyStr.slice pos (String.length txt) txt)
    (pos + String.length s).

(** [append(s)]: [s] becomes a new paragraph at the end of the document;
    the cursor stays where it is. *)
Definition append (s : string) (e : TextEdit) : TextEdit :=
  mkTextEdit
    (if PyStr.truthy (toPlainText e)
     then toPlainText e +:+ PyStr.LF +:+ s else s)
    (position e).

(** [moveCursor(QTextCursor.End)] *)
Definition moveCursor_End (e : TextEdit) : TextEdit :=
  mkTextEdit (toPlainText e) (String.length (toPlainText e)).

(** Editable [QComboBox]: [currentIndex] is [None] for Qt's [-1]. *)
Record ComboBox := mkComboBox {
  items : list string;
  currentIndex : option nat;
  currentText : string
}.

Definition setCurrentIndex (i : nat) (c : ComboBox) : ComboBox :=
  match items c !! i with
  | Some s => mkComboBox (items c) (Some i) s
  | None => mkComboBox (items c) None ""
  end.

Fixpoint index_of (s : string) (l : list string) : option nat :=
  match l with
  | [] => None
  | x :: l' => if String.eqb x s then Some 0 else S <$> index_of s l'
  end.

(** [findText(s)]: [None] for Qt's [-1]. *)
Definition findText (s : string) (c : ComboBox) : option nat :=
  index_of s (items c).

(** [addItem(s)]: the first item of an empty box becomes the current
    one. *)
Definition addItem (s : string) (c : ComboBox) : ComboBox :=
  match items c, currentIndex c with
  | [], None => mkComboBox [s] (Some 0) s
  | _, _ => mkComboBox (items c ++ [s]) (currentIndex c) (currentText c)
  end.

Definition count (c : ComboBox) : nat := length (items c).

(** An item of a [QListWidget]. *)
Record ListItem := mkListItem {
  text : string;
  isSelected : bool
}.

Inductive Icon := Information | Warning | Critical.

(** A [QMessageBox] shown to the user. *)
Record MessageBox := mkMessageBox {
  icon : Icon;
  title : string;
  body : string
}.

End Qt.

(** ** Function configurations *)

Module FunctionConfig.

(** Modelled from the spec: the document [get_full_spec()] returns, of
    which the dialog reads [f['function']['name']]; the rest of the
    invocation schema is carried along as it is.  Class [FunctionConfig]
    of [azure.ai.assistant.management.function_config_manager] is not
    part of the sources; the spec gives a capability a name and a full
    specification, and its category is the key it is listed under. *)
Record FullSpec := mkFullSpec {
  function_name : string;
  function_schema : string
}.

Record t := mk {
  name : string;
  schema : string
}.

Definition get_full_spec (fc : t) : FullSpec :=
  mkFullSpec (name fc) (schema fc).

(** [fc == f] for a configuration object and a specification document:
    the two are never the same object and the class has no equality
    with a dict, so Python answers [False]. *)
Definition eq_spec (fc : t) (f : FullSpec) : bool := false.

End FunctionConfig.

(** ** Stored profiles *)

Module AssistantConfig.

(** Modelled from the spec: the persisted profile document, with the
    fields the spec lists for it.  The dialog writes it as a dict in
    [save_configuration] and reads it back as the object
    [AssistantConfigManager.get_config] returns, which is not part of
    the sources. *)
Record t := mk {
  name : string;
  instructions : string;
  model : string;
  assistant_id : string;
  knowledge_files : gmap string (option string);
  selected_functions : list FunctionConfig.FullSpec;
  knowledge_retrieval : bool;
  code_interpreter : bool;
  output_folder_path : string;
  ai_client_type : string;
  assistant_type : string
}.

End AssistantConfig.

(** ** Python exceptions raised inside the dialog *)

Inductive Exception :=
| KeyError (key : string)
| AttributeError (attribute : string).

(** ** AssistantConfigDialog *)

Module AssistantConfigDialog.
Import FunctionConfig(FullSpec).

(** A check box of a function section, with the configuration its
    [stateChanged] slot was connected with. *)
Record CheckBox := mkCheckBox {
  text : string;
  isChecked : bool;
  fc : FunctionConfig.t
}.

(** [get_function_configs()]: the configurations of each function type,
    in the order of the dict's items. *)
Abbreviation FunctionConfigs := (list (string * list FunctionConfig.t)).

(** [AssistantConfigManager.get_instance()], as the profiles it finds
    by name. *)
Abbreviation AssistantConfigManager := (gmap string AssistantConfig.t).

Record t := mk {
  assistant_type : string;
  function_config_manager : option FunctionConfigs;
  knowledge_files_dict : gmap string (option string);
  selected_functions : list FullSpec;
  code_interpreter : bool;
  knowledge_retrieval : bool;
  checkBoxes : list (string * list CheckBox);
  assistant_id : string;
  default_output_folder_path : string;
  currentHypothesis : string;
  aiClientComboBox : string;
  assistantComboBox : string;
  nameEdit : string;
  instructionsEdit : string;
  modelComboBox : Qt.ComboBox;
  outputFolderPathEdit : string;
  knowledgeFileList : list Qt.ListItem;
  knowledgeRetrievalCheckBox : bool;
  codeInterpreterCheckBox : bool;
  newInstructionsEdit : Qt.TextEdit;
  is_create : bool;
  assistant_config : option AssistantConfig.t;
  assistant_config_json : option AssistantConfig.t;
  messages : list Qt.MessageBox;
  accepted : bool
}.

Definition set_knowledge_files_dict (v : gmap string (option string)) (d : t) : t :=
  mk (assistant_type d) (function_config_manager d) v (selected_functions
     d) (code_interpreter d) (knowledge_retrieval d) (checkBoxes d)
     (assistant_id d) (default_output_folder_path d) (currentHypothesis d)
     (aiClientComboBox d) (assistantComboBox d) (nameEdit d)
     (instructionsEdit d) (modelComboBox d) (outputFolderPathEdit d)
     (knowledgeFileList d) (knowledgeRetrievalCheckBox d)
     (codeInterpreterCheckBox d) (newInstructionsEdit d) (is_create d)
     (assistant_config d) (assistant_config_json d) (messages d) (accepted
     d).

Definition set_selected_functions (v : list FullSpec) (d : t) : t :=
  mk (assistant_type d) (function_config_manager d) (knowledge_files_dict
     d) v (code_interpreter d) (knowledge_retrieval d) (checkBoxes d)
     (assistant_id d) (default_output_folder_path d) (currentHypothesis d)
     (aiClientComboBox d) (assistantComboBox d) (nameEdit d)
     (instructionsEdit d) (modelComboBox d) (outputFolderPathEdit d)
     (knowledgeFileList d) (knowledgeRetrievalCheckBox d)
     (codeInterpreterCheckBox d) (newInstructionsEdit d) (is_create d)
     (assistant_config d) (assistant_config_json d) (messages d) (accepted
     d).

Definition set_code_interpreter (v : bool) (d : t) : t :=
  mk (assistant_type d) (function_config_manager d) (knowledge_files_dict
     d) (selected_functions d) v (knowledge_retrieval d) (checkBoxes d)
     (assistant_id d) (default_output_folder_path d) (currentHypothesis d)
     (aiClientComboBox d) (assistantComboBox d) (nameEdit d)
     (instructionsEdit d) (modelComboBox d) (outputFolderPathEdit d)
     (knowledgeFileList d) (knowledgeRetrievalCheckBox d)
     (codeInterpreterCheckBox d) (newInstructionsEdit d) (is_create d)
     (assistant_config d) (assistant_config_json d) (messages d) (accepted
     d).

Definition set_knowledge_retrieval (v : bool) (d : t) : t :=
  mk (assistant_type d) (function_config_manager d) (knowledge_files_dict
     d) (selected_functions d) (code_interpreter d) v (checkBoxes d)
     (assistant_id d) (default_output_folder_path d) (currentHypothesis d)
     (aiClientComboBox d) (assistantComboBox d) (nameEdit d)
     (instructionsEdit d) (modelComboBox d) (outputFolderPathEdit d)
     (knowledgeFileList d) (knowledgeRetrievalCheckBox d)
     (codeInterpreterCheckBox d) (newInstructionsEdit d) (is_create d)
     (assistant_config d) (assistant_config_json d) (messages d) (accepted
     d).

Definition set_checkBoxes (v : list (string * list CheckBox)) (d : t) : t :=
  mk (assistant_type d) (function_config_manager d) (knowledge_files_dict
     d) (selected_functions d) (code_interpreter d) (knowledge_retrieval
     d) v (assistant_id d) (default_output_folder_path d)
     (currentHypothesis d) (aiClientComboBox d) (assistantComboBox d)
     (nameEdit d) (instructionsEdit d) (modelComboBox d)
     (outputFolderPathEdit d) (knowledgeFileList d)
     (knowledgeRetrievalCheckBox d) (codeInterpreterCheckBox d)
     (newInstructionsEdit d) (is_create d) (assistant_config d)
     (assistant_config_json d) (messages d) (accepted d).

Definition set_assistant_id (v : string) (d : t) : t :=
  mk (assistant_type d) (function_config_manager d) (knowledge_files_dict
     d) (selected_functions d) (code_interpreter d) (knowledge_retrieval
     d) (checkBoxes d) v (default_output_folder_path d) (currentHypothesis
     d) (aiClientComboBox d) (assistantComboBox d) (nameEdit d)
     (instructionsEdit d) (modelComboBox d) (outputFolderPathEdit d)
     (knowledgeFileList d) (knowledgeRetrievalCheckBox d)
     (codeInterpreterCheckBox d) (newInstructionsEdit d) (is_create d)
     (assistant_config d) (assistant_config_json d) (messages d) (accepted
     d).

Definition set_currentHypothesis (v : string) (d : t) : t :=
  mk (assistant_type d) (function_config_manager d) (knowledge_files_dict
     d) (selected_functions d) (code_interpreter d) (knowledge_retrieval
     d) (checkBoxes d) (assistant_id d) (default_output_folder_path d) v
     (aiClientComboBox d) (assistantComboBox d) (nameEdit d)
     (instructionsEdit d) (modelComboBox d) (outputFolderPathEdit d)
     (knowledgeFileList d) (knowledgeRetrievalCheckBox d)
     (codeInterpreterCheckBox d) (newInstructionsEdit d) (is_create d)
     (assistant_config d) (assistant_config_json d) (messages d) (accepted
     d).

Definition set_assistantComboBox (v : string) (d : t) : t :=
  mk (assistant_type d) (function_config_manager d) (knowledge_files_dict
     d) (selected_functions d) (code_interpreter d) (knowledge_retrieval
     d) (checkBoxes d) (assistant_id d) (default_output_folder_path d)
     (currentHypothesis d) (aiClientComboBox d) v (nameEdit d)
     (instructionsEdit d) (modelComboBox d) (outputFolderPathEdit d)
     (knowledgeFileList d) (knowledgeRetrievalCheckBox d)
     (codeInterpreterCheckBox d) (newInstructionsEdit d) (is_create d)
     (assistant_config d) (assistant_config_json d) (messages d) (accepted
     d).

Definition set_nameEdit (v : string) (d : t) : t :=
  mk (assistant_type d) (function_config_manager d) (knowledge_files_dict
     d) (selected_functions d) (code_interpreter d) (knowledge_retrieval
     d) (checkBoxes d) (assistant_id d) (default_output_folder_path d)
     (currentHypothesis d) (aiClientComboBox d) (assistantComboBox d) v
     (instructionsEdit d) (modelComboBox d) (outputFolderPathEdit d)
     (knowledgeFileList d) (knowledgeRetrievalCheckBox d)
     (codeInterpreterCheckBox d) (newInstructionsEdit d) (is_create d)
     (assistant_config d) (assistant_config_json d) (messages d) (accepted
     d).

Definition set_instructionsEdit (v : string) (d : t) : t :=
  mk (assistant_type d) (function_config_manager d) (knowledge_files_dict
     d) (selected_functions d) (code_interpreter d) (knowledge_retrieval
     d) (checkBoxes d) (assistant_id d) (default_output_folder_path d)
     (currentHypothesis d) (aiClientComboBox d) (assistantComboBox d)
     (nameEdit d) v (modelComboBox d) (outputFolderPathEdit d)
     (knowledgeFileList d) (knowledgeRetrievalCheckBox d)
     (codeInterpreterCheckBox d) (newInstructionsEdit d) (is_create d)
     (assistant_config d) (assistant_config_json d) (messages d) (accepted
     d).

Definition set_modelComboBox (v : Qt.ComboBox) (d : t) : t :=
  mk (assistant_type d) (function_config_manager d) (knowledge_files_dict
     d) (selected_functions d) (code_interpreter d) (knowledge_retrieval
     d) (checkBoxes d) (assistant_id d) (default_output_folder_path d)
     (currentHypothesis d) (aiClientComboBox d) (assistantComboBox d)
     (nameEdit d) (instructionsEdit d) v (outputFolderPathEdit d)
     (knowledgeFileList d) (knowledgeRetrievalCheckBox d)
     (codeInterpreterCheckBox d) (newInstructionsEdit d) (is_create d)
     (assistant_config d) (assistant_config_json d) (messages d) (accepted
     d).

Definition set_outputFolderPathEdit (v : string) (d : t) : t :=
  mk (assistant_type d) (function_config_manager d) (knowledge_files_dict
     d) (selected_functions d) (code_interpreter d) (knowledge_retrieval
     d) (checkBoxes d) (assistant_id d) (default_output_folder_path d)
     (currentHypothesis d) (aiClientComboBox d) (assistantComboBox d)
     (nameEdit d) (instructionsEdit d) (modelComboBox d) v
     (knowledgeFileList d) (knowledgeRetrievalCheckBox d)
     (codeInterpreterCheckBox d) (newInstructionsEdit d) (is_create d)
     (assistant_config d) (assistant_config_json d) (messages d) (accepted
     d).

Definition set_knowledgeFileList (v : list Qt.ListItem) (d : t) : t :=
  mk (assistant_type d) (function_config_manager d) (knowledge_files_dict
     d) (selected_functions d) (code_interpreter d) (knowledge_retrieval
     d) (checkBoxes d) (assistant_id d) (default_output_folder_path d)
     (currentHypothesis d) (aiClientComboBox d) (assistantComboBox d)
     (nameEdit d) (instructionsEdit d) (modelComboBox d)
     (outputFolderPathEdit d) v (knowledgeRetrievalCheckBox d)
     (codeInterpreterCheckBox d) (newInstructionsEdit d) (is_create d)
     (assistant_config d) (assistant_config_json d) (messages d) (accepted
     d).

Definition set_knowledgeRetrievalCheckBox (v : bool) (d : t) : t :=
  mk (assistant_type d) (function_config_manager d) (knowledge_files_dict
     d) (selected_functions d) (code_interpreter d) (knowledge_retrieval
     d) (checkBoxes d) (assistant_id d) (default_output_folder_path d)
     (currentHypothesis d) (aiClientComboBox d) (assistantComboBox d)
     (nameEdit d) (instructionsEdit d) (modelComboBox d)
     (outputFolderPathEdit d) (knowledgeFileList d) v
     (codeInterpreterCheckBox d) (newInstructionsEdit d) (is_create d)
     (assistant_config d) (assistant_config_json d) (messages d) (accepted
     d).

Definition set_codeInterpreterCheckBox (v : bool) (d : t) : t :=
  mk (assistant_type d) (function_config_manager d) (knowledge_files_dict
     d) (selected_functions d) (code_interpreter d) (knowledge_retrieval
     d) (checkBoxes d) (assistant_id d) (default_output_folder_path d)
     (currentHypothesis d) (aiClientComboBox d) (assistantComboBox d)
     (nameEdit d) (instructionsEdit d) (modelComboBox d)
     (outputFolderPathEdit d) (knowledgeFileList d)
     (knowledgeRetrievalCheckBox d) v (newInstructionsEdit d) (is_create
     d) (assistant_config d) (assistant_config_json d) (messages d)
     (accepted d).

Definition set_newInstructionsEdit (v : Qt.TextEdit) (d : t) : t :=
  mk (assistant_type d) (function_config_manager d) (knowledge_files_dict
     d) (selected_functions d) (code_interpreter d) (knowledge_retrieval
     d) (checkBoxes d) (assistant_id d) (default_output_folder_path d)
     (currentHypothesis d) (aiClientComboBox d) (assistantComboBox d)
     (nameEdit d) (instructionsEdit d) (modelComboBox d)
     (outputFolderPathEdit d) (knowledgeFileList d)
     (knowledgeRetrievalCheckBox d) (codeInterpreterCheckBox d) v
     (is_create d) (assistant_config d) (assistant_config_json d)
     (messages d) (accepted d).

Definition set_is_create (v : bool) (d : t) : t :=
  mk (assistant_type d) (function_config_manager d) (knowledge_files_dict
     d) (selected_functions d) (code_interpreter d) (knowledge_retrieval
     d) (checkBoxes d) (assistant_id d) (default_output_folder_path d)
     (currentHypothesis d) (aiClientComboBox d) (assistantComboBox d)
     (nameEdit d) (instructionsEdit d) (modelComboBox d)
     (outputFolderPathEdit d) (knowledgeFileList d)
     (knowledgeRetrievalCheckBox d) (codeInterpreterCheckBox d)
     (newInstructionsEdit d) v (assistant_config d) (assistant_config_json
     d) (messages d) (accepted d).

Definition set_assistant_config (v : option AssistantConfig.t) (d : t) : t :=
  mk (assistant_type d) (function_config_manager d) (knowledge_files_dict
     d) (selected_functions d) (code_interpreter d) (knowledge_retrieval
     d) (checkBoxes d) (assistant_id d) (default_output_folder_path d)
     (currentHypothesis d) (aiClientComboBox d) (assistantComboBox d)
     (nameEdit d) (instructionsEdit d) (modelComboBox d)
     (outputFolderPathEdit d) (knowledgeFileList d)
     (knowledgeRetrievalCheckBox d) (codeInterpreterCheckBox d)
     (newInstructionsEdit d) (is_create d) v (assistant_config_json d)
     (messages d) (accepted d).

Definition set_assistant_config_json (v : option AssistantConfig.t) (d : t) : t :=
  mk (assistant_type d) (function_config_manager d) (knowledge_files_dict
     d) (selected_functions d) (code_interpreter d) (knowledge_retrieval
     d) (checkBoxes d) (assistant_id d) (default_output_folder_path d)
     (currentHypothesis d) (aiClientComboBox d) (assistantComboBox d)
     (nameEdit d) (instructionsEdit d) (modelComboBox d)
     (outputFolderPathEdit d) (knowledgeFileList d)
     (knowledgeRetrievalCheckBox d) (codeInterpreterCheckBox d)
     (newInstructionsEdit d) (is_create d) (assistant_config d) v
     (messages d) (accepted d).

Definition set_messages (v : list Qt.MessageBox) (d : t) : t :=
  mk (assistant_type d) (function_config_manager d) (knowledge_files_dict
     d) (selected_functions d) (code_interpreter d) (knowledge_retrieval
     d) (checkBoxes d) (assistant_id d) (default_output_folder_path d)
     (currentHypothesis d) (aiClientComboBox d) (assistantComboBox d)
     (nameEdit d) (instructionsEdit d) (modelComboBox d)
     (outputFolderPathEdit d) (knowledgeFileList d)
     (knowledgeRetrievalCheckBox d) (codeInterpreterCheckBox d)
     (newInstructionsEdit d) (is_create d) (assistant_config d)
     (assistant_config_json d) v (accepted d).

Definition set_accepted (v : bool) (d : t) : t :=
  mk (assistant_type d) (function_config_manager d) (knowledge_files_dict
     d) (selected_functions d) (code_interpreter d) (knowledge_retrieval
     d) (checkBoxes d) (assistant_id d) (default_output_folder_path d)
     (currentHypothesis d) (aiClientComboBox d) (assistantComboBox d)
     (nameEdit d) (instructionsEdit d) (modelComboBox d)
     (outputFolderPathEdit d) (knowledgeFileList d)
     (knowledgeRetrievalCheckBox d) (codeInterpreterCheckBox d)
     (newInstructionsEdit d) (is_create d) (assistant_config d)
     (assistant_config_json d) (messages d) v.

(** [QMessageBox.information / warning / critical(self, title, body)] *)
Definition show (icon : Qt.Icon) (title body : string) (d : t) : t :=
  set_messages (messages d ++ [Qt.mkMessageBox icon title body]) d.

(** *** Dictation *)

(** The dictation buffer: the text of the instructions editor. *)
Definition buffer (d : t) : string := Qt.toPlainText (newInstructionsEdit d).

(** [on_user_input(self, text)]: slot of the recogniser's partial
    results. *)
Definition on_user_input (text : string) (d : t) : t :=
  let d :=
    if PyStr.truthy (currentHypothesis d) then
      let currentText := Qt.toPlainText (newInstructionsEdit d) in
      let updatedText :=
        PyStr.item0 (PyStr.rsplit (currentHypothesis d) 1 currentText) +:+ text in
      set_newInstructionsEdit
        (Qt.setPlainText updatedText (newInstructionsEdit d)) d
    else
      set_newInstructionsEdit
        (Qt.insertPlainText text (newInstructionsEdit d)) d in
  set_currentHypothesis text d.

(** [on_user_input_complete(self, text)]: slot of the recogniser's final
    result. *)
Definition on_user_input_complete (text : string) (d : t) : t :=
  let d :=
    if PyStr.truthy (currentHypothesis d) then
      let currentText := Qt.toPlainText (newInstructionsEdit d) in
      let updatedText :=
        PyStr.item0 (PyStr.rsplit (currentHypothesis d) 1 currentText)
          +:+ text +:+ PyStr.LF in
      set_newInstructionsEdit
        (Qt.setPlainText updatedText (newInstructionsEdit d)) d
    else
      set_newInstructionsEdit (Qt.append text (newInstructionsEdit d)) d in
  let d := set_currentHypothesis "" d in
  set_newInstructionsEdit (Qt.moveCursor_End (newInstructionsEdit d)) d.

(** [on_tab_changed(self, index)]: opening the instructions editor, the
    third tab, copies the instructions of the first tab into it.  (The
    microphone, switched off here when it is on, is outside the model.) *)
Definition on_tab_changed (index : nat) (d : t) : t :=
  if Nat.eqb index 2
  then set_newInstructionsEdit
         (Qt.setPlainText (instructionsEdit d) (newInstructionsEdit d)) d
  else d.

(** *** Function selection *)

(** [functionConfig in self.selected_functions]: Python compares the
    object with each element of the list. *)
Definition config_in (functionConfig : FunctionConfig.t)
    (selected : list FullSpec) : bool :=
  existsb (FunctionConfig.eq_spec functionConfig) selected.

(** [handle_function_selection(self, state, functionConfig)] *)
Definition handle_function_selection (state : Qt.CheckState)
    (functionConfig : FunctionConfig.t) (d : t) : t :=
  match state with
  | Qt.Checked =>
      if negb (config_in functionConfig (selected_functions d))
      then set_selected_functions
             (selected_functions d ++ [FunctionConfig.get_full_spec functionConfig]) d
      else d
  | Qt.Unchecked =>
      set_selected_functions
        (filter (λ f, FunctionConfig.function_name f ≠ FunctionConfig.name functionConfig)
                (selected_functions d)) d
  | Qt.PartiallyChecked => d
  end.

(** [checkBox.setChecked(b)] on a function check box: when the state
    changes, [stateChanged] runs [handle_function_selection] with the
    configuration the box was connected with.  The box is handed back
    changed; the caller stores it in [checkBoxes]. *)
Definition setChecked (b : bool) (checkBox : CheckBox) (d : t) : CheckBox * t :=
  if Bool.eqb (isChecked checkBox) b then (checkBox, d)
  else (mkCheckBox (text checkBox) b (fc checkBox),
        handle_function_selection (Qt.check_state b) (fc checkBox) d).

(** [for checkBox in boxes: visit(checkBox)] *)
Fixpoint for_each_checkBox (visit : CheckBox → t → CheckBox * t)
    (boxes : list CheckBox) (d : t) : list CheckBox * t :=
  match boxes with
  | [] => ([], d)
  | checkBox :: rest =>
      let '(checkBox', d) := visit checkBox d in
      let '(rest', d) := for_each_checkBox visit rest d in
      (checkBox' :: rest', d)
  end.

(** [for function_type, checkBoxes in sections: for checkBox in
    checkBoxes: visit(checkBox)] *)
Fixpoint for_each_section (visit : CheckBox → t → CheckBox * t)
    (sections : list (string * list CheckBox)) (d : t)
    : list (string * list CheckBox) * t :=
  match sections with
  | [] => ([], d)
  | (function_type, boxes) :: rest =>
      let '(boxes', d) := for_each_checkBox visit boxes d in
      let '(rest', d) := for_each_section visit rest d in
      ((function_type, boxes') :: rest', d)
  end.

(** [dict.get(k)] on a dict kept as the list of its items. *)
Fixpoint dict_get {V : Type} (k : string) (items : list (string * V)) : option V :=
  match items with
  | [] => None
  | (k', v) :: rest => if String.eqb k' k then Some v else dict_get k rest
  end.

(** [dict[k] = v]: an existing key keeps its place, a new one goes last. *)
Fixpoint dict_set {V : Type} (k : string) (v : V) (items : list (string * V))
    : list (string * V) :=
  match items with
  | [] => [(k, v)]
  | (k', v') :: rest =>
      if String.eqb k' k then (k, v) :: rest else (k', v') :: dict_set k v rest
  end.

(** The user clicks the check box in row [row] of a function section:
    the box changes state and says so. *)
Definition click_checkBox (function_type : string) (row : nat) (d : t) : t :=
  match dict_get function_type (checkBoxes d) with
  | Some boxes =>
      match boxes !! row with
      | Some checkBox =>
          let '(checkBox', d) := setChecked (negb (isChecked checkBox)) checkBox d in
          set_checkBoxes
            (dict_set function_type (<[row := checkBox']> boxes) (checkBoxes d)) d
      | None => d
      end
  | None => d
  end.

(** The check boxes [create_function_section] makes for a function type:
    one per configuration, unchecked, labelled with its name. *)
Definition new_checkBox (func_config : FunctionConfig.t) : CheckBox :=
  mkCheckBox (FunctionConfig.name func_config) false func_config.

(** [create_function_section(self, layout, function_type, funcs)] *)
Definition create_function_section (function_type : string)
    (funcs : list FunctionConfig.t) (d : t) : t :=
  set_checkBoxes (dict_set function_type (new_checkBox <$> funcs) (checkBoxes d)) d.

(** The function sections of [create_tools_tab]. *)
Definition create_function_sections (d : t) : t :=
  match function_config_manager d with
  | Some function_configs =>
      foldl (λ d section, create_function_section section.1 section.2 d)
            d function_configs
  | None => d
  end.

(** The inner loop of [pre_select_functions]: check the boxes of one
    function type that carry [func_name]. *)
Definition check_named (func_name : string) (checkBox : CheckBox) (d : t)
    : CheckBox * t :=
  if String.eqb (text checkBox) func_name then setChecked true checkBox d
  else (checkBox, d).

Definition select_in_section (func_name func_type : string) (d : t) : t :=
  match dict_get func_type (checkBoxes d) with
  | Some boxes =>
      let '(boxes', d) := for_each_checkBox (check_named func_name) boxes d in
      set_checkBoxes (dict_set func_type boxes' (checkBoxes d)) d
  | None => d
  end.

(** [for func_type, funcs in function_configs.items(): if any(...): ...] *)
Fixpoint select_in_sections (func_name : string)
    (function_configs : FunctionConfigs) (d : t) : t :=
  match function_configs with
  | [] => d
  | (func_type, funcs) :: rest =>
      let d :=
        if existsb (λ func_config,
                      String.eqb (FunctionConfig.name func_config) func_name) funcs
        then select_in_section func_name func_type d
        else d in
      select_in_sections func_name rest d
  end.

(** [for func in self.assistant_config.selected_functions: ...]; without
    a function configuration manager the first stored function raises. *)
Fixpoint pre_select_loop (funcs : list FullSpec) (d : t) : t * option Exception :=
  match funcs with
  | [] => (d, None)
  | func :: rest =>
      let func_name := FunctionConfig.function_name func in
      match function_config_manager d with
      | None => (d, Some (AttributeError "get_function_configs"))
      | Some function_configs =>
          pre_select_loop rest (select_in_sections func_name function_configs d)
      end
  end.

(** [pre_select_functions(self)] *)
Definition pre_select_functions (d : t) : t * option Exception :=
  match assistant_config d with
  | None => (d, Some (AttributeError "selected_functions"))
  | Some config => pre_select_loop (AssistantConfig.selected_functions config) d
  end.

(** *** Resetting and loading *)

(** [self.knowledgeRetrievalCheckBox.setChecked(b)]; the slot stores the
    new state in [knowledge_retrieval]. *)
Definition knowledgeRetrievalCheckBox_setChecked (b : bool) (d : t) : t :=
  if Bool.eqb (knowledgeRetrievalCheckBox d) b then d
  else set_knowledge_retrieval b (set_knowledgeRetrievalCheckBox b d).

(** [self.codeInterpreterCheckBox.setChecked(b)]; the slot stores the new
    state in [code_interpreter]. *)
Definition codeInterpreterCheckBox_setChecked (b : bool) (d : t) : t :=
  if Bool.eqb (codeInterpreterCheckBox d) b then d
  else set_code_interpreter b (set_codeInterpreterCheckBox b d).

(** The check-box loop of [reset_fields]. *)
Definition uncheck_all (d : t) : t :=
  let '(sections, d) := for_each_section (setChecked false) (checkBoxes d) d in
  set_checkBoxes sections d.

(** [reset_fields(self)] *)
Definition reset_fields (d : t) : t :=
  let d := set_nameEdit "" d in
  let d := set_instructionsEdit "" d in
  let d := set_modelComboBox (Qt.setCurrentIndex 0 (modelComboBox d)) d in
  let d := set_knowledge_files_dict ∅ d in
  let d := set_knowledgeFileList [] d in
  let d := uncheck_all d in
  let d := set_selected_functions [] d in
  let d := set_knowledge_retrieval false d in
  let d := set_code_interpreter false d in
  let d :=
    if String.eqb (assistant_type d) "assistant"
    then codeInterpreterCheckBox_setChecked false d else d in
  let d := set_outputFolderPathEdit "" d in
  set_assistant_config None d.

(** [for file_path, file_id in knowledge_files.items(): ...] of
    [pre_load_assistant_config]. *)
Fixpoint load_knowledge_files (items : list (string * option string)) (d : t) : t :=
  match items with
  | [] => d
  | (file_path, file_id) :: rest =>
      let d := set_knowledge_files_dict
                 (<[file_path := file_id]> (knowledge_files_dict d)) d in
      let d := set_knowledgeFileList
                 (knowledgeFileList d ++ [Qt.mkListItem file_path false]) d in
      load_knowledge_files rest d
  end.

(** The model lines of [pre_load_assistant_config]: select the stored
    model, adding it to the box when it is not listed. *)
Definition select_model (model : string) (c : Qt.ComboBox) : Qt.ComboBox :=
  match Qt.findText model c with
  | Some index => Qt.setCurrentIndex index c
  | None =>
      let c := Qt.addItem model c in
      Qt.setCurrentIndex (Qt.count c - 1) c
  end.

(** [pre_load_assistant_config(self, name)].  The instructions go
    through [QTextEdit.setText]; they are stored here as they are, which
    is what Qt does with text it does not take for rich text
    ([Qt.keeps_text]). *)
Definition pre_load_assistant_config (manager : AssistantConfigManager)
    (name : string) (d : t) : t * option Exception :=
  let d := set_assistant_config (manager !! name) d in
  match assistant_config d with
  | None => (d, None)
  | Some config =>
      let d := set_nameEdit (AssistantConfig.name config) d in
      let d := set_assistant_id (AssistantConfig.assistant_id config) d in
      let d := set_instructionsEdit (AssistantConfig.instructions config) d in
      let d := set_modelComboBox
                 (select_model (AssistantConfig.model config) (modelComboBox d)) d in
      let d := load_knowledge_files
                 (map_to_list (AssistantConfig.knowledge_files config)) d in
      match pre_select_functions d with
      | (d, Some e) => (d, Some e)
      | (d, None) =>
          let d := set_knowledge_retrieval
                     (AssistantConfig.knowledge_retrieval config) d in
          let d := knowledgeRetrievalCheckBox_setChecked (knowledge_retrieval d) d in
          let d := set_code_interpreter (AssistantConfig.code_interpreter config) d in
          let d :=
            if String.eqb (assistant_type d) "assistant"
            then codeInterpreterCheckBox_setChecked (code_interpreter d) d else d in
          let output_folder_path := AssistantConfig.output_folder_path config in
          let d :=
            if PyStr.truthy output_folder_path
            then set_outputFolderPathEdit output_folder_path d else d in
          (d, None)
      end
  end.

(** [assistant_selection_changed(self)]: slot of the assistant box, whose
    current text is [assistantComboBox]. *)
Definition assistant_selection_changed (manager : AssistantConfigManager)
    (d : t) : t * option Exception :=
  let d := reset_fields d in
  let selected_assistant := assistantComboBox d in
  if String.eqb selected_assistant "New Assistant" then
    let d := set_is_create true d in
    (set_outputFolderPathEdit (default_output_folder_path d) d, None)
  else if negb (String.eqb selected_assistant "") then
    let d := set_is_create false d in
    pre_load_assistant_config manager selected_assistant d
  else (d, None).

(** *** Knowledge files *)

(** [add_file(self)], where [filePath] is what the file dialog returned
    (empty when cancelled). *)
Definition add_file (filePath : string) (d : t) : t :=
  if PyStr.truthy filePath then
    if bool_decide (filePath ∈ dom (knowledge_files_dict d)) then
      show Qt.Warning "File Already Added"
        ("The file '" +:+ filePath +:+ "' is already in the list.") d
    else
      let d := set_knowledge_files_dict
                 (<[filePath := None]> (knowledge_files_dict d)) d in
      set_knowledgeFileList
        (knowledgeFileList d ++ [Qt.mkListItem filePath false]) d
  else d.

(** The loop of [remove_file] over the selected items, in list order:
    [del] raises [KeyError] on a text that is no key, and leaves that item
    and the ones after it in the list.  Which of the items left Qt selects
    once an item is taken is not modelled: the items left carry the
    selection they had. *)
Fixpoint remove_selected (items : list Qt.ListItem)
    (files : gmap string (option string))
    : list Qt.ListItem * gmap string (option string) * option Exception :=
  match items with
  | [] => ([], files, None)
  | item :: rest =>
      if Qt.isSelected item then
        match files !! Qt.text item with
        | None => (item :: rest, files, Some (KeyError (Qt.text item)))
        | Some _ => remove_selected rest (delete (Qt.text item) files)
        end
      else
        let '(rest', files', e) := remove_selected rest files in
        (item :: rest', files', e)
  end.

(** [remove_file(self)] *)
Definition remove_file (d : t) : t * option Exception :=
  let selected_items := filter (λ item, Qt.isSelected item = true) (knowledgeFileList d) in
  match selected_items with
  | [] => (d, None)
  | _ =>
      let '(items, files, e) :=
        remove_selected (knowledgeFileList d) (knowledge_files_dict d) in
      (set_knowledgeFileList items (set_knowledge_files_dict files d), e)
  end.

(** *** Saving *)

(** The [config] dict of [save_configuration]. *)
Definition config_of (d : t) : AssistantConfig.t :=
  AssistantConfig.mk
    (nameEdit d)
    (instructionsEdit d)
    (Qt.currentText (modelComboBox d))
    (if negb (is_create d) then assistant_id d else "")
    (knowledge_files_dict d)
    (selected_functions d)
    (knowledge_retrieval d)
    (code_interpreter d)
    (outputFolderPathEdit d)
    (aiClientComboBox d)
    (assistant_type d).

(** [save_configuration(self)].  [assistant_config_json] holds the
    document [json.dumps] renders; [accepted] is set by [self.accept()]. *)
Definition save_configuration (d : t) : t :=
  let config := config_of d in
  if negb (PyStr.truthy (AssistantConfig.name config))
     || negb (PyStr.truthy (AssistantConfig.instructions config))
     || negb (PyStr.truthy (AssistantConfig.model config))
  then
    show Qt.Information "Missing Fields"
      "Name, Instructions, and Model are required fields." d
  else
    let d := set_assistant_config_json (Some config) d in
    set_accepted true d.

(** *** Construction *)

(** Filling the model box in [ai_client_selection_changed]: [clear()],
    then [addItem] for each model the client lists. *)
Definition list_models (models : list string) : Qt.ComboBox :=
  foldl (λ c model, Qt.addItem model c) (Qt.mkComboBox [] None "") models.

(** The dialog as [__init__] leaves it: [init_variables],
    [init_speech_input], the three tabs, and the first
    [ai_client_selection_changed], which selects "New Assistant". *)
Definition init (assistant_type : string)
    (function_config_manager : option FunctionConfigs)
    (default_output_folder_path ai_client : string) (models : list string) : t :=
  create_function_sections
    {| assistant_type := assistant_type;
       function_config_manager := function_config_manager;
       knowledge_files_dict := ∅;
       selected_functions := [];
       code_interpreter := false;
       knowledge_retrieval := false;
       checkBoxes := [];
       assistant_id := "";
       default_output_folder_path := default_output_folder_path;
       currentHypothesis := "";
       aiClientComboBox := ai_client;
       assistantComboBox := "New Assistant";
       nameEdit := "";
       instructionsEdit := "";
       modelComboBox := list_models models;
       outputFolderPathEdit := default_output_folder_path;
       knowledgeFileList := [];
       knowledgeRetrievalCheckBox := false;
       codeInterpreterCheckBox := false;
       newInstructionsEdit := Qt.mkTextEdit "1. Write Your Instructions Here" 0;
       is_create := true;
       assistant_config := None;
       assistant_config_json := None;
       messages := [];
       accepted := false |}.

(** *** What the claims speak of *)

(** The knowledge-file list shows exactly the keys of the knowledge-file
    dict, each once. *)
Definition files_listed (d : t) : Prop :=
  NoDup (Qt.text <$> knowledgeFileList d) ∧
  list_to_set (Qt.text <$> knowledgeFileList d)
    =@{gset string} dom (knowledge_files_dict d).

(** The names in a list of specifications. *)
Definition names (specs : list FullSpec) : list string :=
  FunctionConfig.function_name <$> specs.

(** A function of that name is configured under some function type. *)
Definition known (function_configs : FunctionConfigs) (func_name : string) : Prop :=
  ∃ func_type funcs func_config,
    (func_type, funcs) ∈ function_configs ∧ func_config ∈ funcs ∧
    FunctionConfig.name func_config = func_name.

(** The function sections as [create_tools_tab] builds them: every box
    unchecked. *)
Definition new_sections (function_configs : FunctionConfigs)
    : list (string * list CheckBox) :=
  (λ section : string * list FunctionConfig.t,
     (section.1, new_checkBox <$> section.2)) <$> function_configs.

(** No box of the sections is checked. *)
Definition all_unchecked (sections : list (string * list CheckBox)) : Prop :=
  ∀ function_type boxes checkBox,
    (function_type, boxes) ∈ sections → checkBox ∈ boxes →
    isChecked checkBox = false.

(** *** What the loops over the check boxes compute *)

(** A box after [setChecked(False)]. *)
Definition uncheck (checkBox : CheckBox) : CheckBox :=
  mkCheckBox (text checkBox) false (fc checkBox).

(** The sections after the check-box loop of [reset_fields]. *)
Definition unchecked (sections : list (string * list CheckBox))
    : list (string * list CheckBox) :=
  (λ section : string * list CheckBox, (section.1, uncheck <$> section.2))
    <$> sections.

(** The dict and the list after the knowledge-file loop of
    [pre_load_assistant_config]. *)
Definition insert_all (items : list (string * option string))
    (files : gmap string (option string)) : gmap string (option string) :=
  foldl (λ files item, <[item.1 := item.2]> files) files items.

Definition listed (items : list (string * option string)) : list Qt.ListItem :=
  (λ item : string * option string, Qt.mkListItem item.1 false) <$> items.

(** A box after the inner loop of [pre_select_functions] for
    [func_name]. *)
Definition mark (func_name : string) (checkBox : CheckBox) : CheckBox :=
  mkCheckBox (text checkBox)
    (isChecked checkBox || String.eqb (text checkBox) func_name)
    (fc checkBox).

(** The boxes of a function type after they were, or were not, visited
    for [func_name]. *)
Definition mark_if (visited : bool) (func_name : string)
    (boxes : list CheckBox) : list CheckBox :=
  if visited then mark func_name <$> boxes else boxes.

(** The specifications that loop appends: those of the boxes it finds
    unchecked under [func_name]. *)
Definition newly_checked (func_name : string) (boxes : list CheckBox)
    : list FullSpec :=
  (λ checkBox, FunctionConfig.get_full_spec (fc checkBox))
    <$> filter (λ checkBox, text checkBox = func_name ∧ isChecked checkBox = false)
               boxes.

(** [func_type] is a function type under which [function_configs] lists
    a function called [func_name]: the test of the middle loop of
    [pre_select_functions]. *)
Definition lists (func_name : string) (function_configs : FunctionConfigs)
    (func_type : string) : bool :=
  existsb
    (λ section : string * list FunctionConfig.t,
       String.eqb section.1 func_type
       && existsb (λ func_config,
                     String.eqb (FunctionConfig.name func_config) func_name)
                  section.2)
    function_configs.

(** [d'] is [d] but for the check boxes and the selected functions. *)
Definition selection_differs (d d' : t) : Prop :=
  d' = set_checkBoxes (checkBoxes d') (set_selected_functions (selected_functions d') d).

(** The boxes of each function type stand for its configurations, in
    order, each labelled with the name of its configuration. *)
Definition boxes_follow (function_configs : FunctionConfigs) (d : t) : Prop :=
  ∀ func_type,
    fmap (M := list) fc <$> dict_get func_type (checkBoxes d)
      = dict_get func_type function_configs ∧
    ∀ boxes checkBox,
      dict_get func_type (checkBoxes d) = Some boxes → checkBox ∈ boxes →
      text checkBox = FunctionConfig.name (fc checkBox).

(** The selected names are the names of the checked boxes. *)
Definition selection_shows_checked (d : t) : Prop :=
  ∀ func_name,
    func_name ∈ names (selected_functions d) ↔
    ∃ func_type boxes checkBox,
      dict_get func_type (checkBoxes d) = Some boxes ∧ checkBox ∈ boxes ∧
      isChecked checkBox = true ∧ FunctionConfig.name (fc checkBox) = func_name.

(** The checked boxes are those labelled with one of [func_names]. *)
Definition checked_are (func_names : list string) (d : t) : Prop :=
  ∀ func_type boxes checkBox,
    dict_get func_type (checkBoxes d) = Some boxes → checkBox ∈ boxes →
    (isChecked checkBox = true ↔ text checkBox ∈ func_names).

(** *** More slots and user actions *)

(** [save_instructions(self)]: the instructions editor is copied back
    into the instructions of the first tab. *)
Definition save_instructions (d : t) : t :=
  set_instructionsEdit (buffer d) d.

(** [select_output_folder_path(self)], where [folderPath] is what the
    folder dialog returned (empty when cancelled). *)
Definition select_output_folder_path (folderPath : string) (d : t) : t :=
  if PyStr.truthy folderPath then set_outputFolderPathEdit folderPath d else d.

(** [get_name(self)] *)
Definition get_name (d : t) : string := nameEdit d.

(** One utterance as the recogniser reports it: its partial results in
    turn, then the final one. *)
Definition utterance (partials : list string) (final : string) (d : t) : t :=
  on_user_input_complete final
    (foldl (λ d text, on_user_input text d) d partials).

(** The user selects the item in row [row] of the knowledge-file list,
    which takes the selection from the other rows. *)
Definition select_item (row : nat) (d : t) : t :=
  set_knowledgeFileList
    (imap (λ i item, Qt.mkListItem (Qt.text item) (bool_decide (i = row)))
          (knowledgeFileList d)) d.

(** The names of the functions the check boxes stand for, section by
    section. *)
Definition box_names (sections : list (string * list CheckBox)) : list string :=
  sections ≫= λ section : string * list CheckBox,
    (λ checkBox, FunctionConfig.name (fc checkBox)) <$> section.2.

(** The user clicks check boxes one after the other, each given by its
    function type and its row. *)
Definition click_checkBoxes (clicks : list (string * nat)) (d : t) : t :=
  foldl (λ d click, click_checkBox click.1 click.2 d) d clicks.

End AssistantConfigDialog.

(** ** ExportAssistantDialog *)

Module ExportAssistantDialog.

Record t := mk {
  assistant_combo : string;
  messages : list Qt.MessageBox;
  accepted : bool
}.

Definition show (icon : Qt.Icon) (title body : string) (d : t) : t :=
  mk (assistant_combo d) (messages d ++ [Qt.mkMessageBox icon title body])
     (accepted d).

Definition accept (d : t) : t :=
  mk (assistant_combo d) (messages d) true.

(** Where the export of [assistant_name] goes. *)
Definition export_path (assistant_name : string) : string :=
  Os.join "export" assistant_name.

Definition config_path (assistant_name : string) : string :=
  Os.join (export_path assistant_name) "config".

Definition functions_path (assistant_name : string) : string :=
  Os.join (export_path assistant_name) "functions".

Definition main_path (assistant_name : string) : string :=
  Os.join (export_path assistant_name) "main.py".

(** Where the profile's configuration file is read from. *)
Definition config_source (assistant_name : string) : string :=
  "config/" +:+ assistant_name +:+ "_assistant_config.json".

Definition error_specs_source : string := "config/function_error_specs.json".

(** [export_assistant(self)] on the file system [fs].  The third
    component is an exception the method does not catch: an error of
    [os.makedirs], an error of the first two copies other than
    [FileNotFoundError], any error of the third copy. *)
Definition export_assistant (d : t) (fs : Os.FS) : t * Os.FS * option Os.OSError :=
  let assistant_name := assistant_combo d in
  match Os.makedirs (config_path assistant_name) fs with
  | inr e => (d, fs, Some e)
  | inl fs =>
  match Os.makedirs (functions_path assistant_name) fs with
  | inr e => (d, fs, Some e)
  | inl fs =>
  match
    match Os.copyfile (config_source assistant_name)
            (Os.join (config_path assistant_name)
                     (assistant_name +:+ "_assistant_config.json")) fs with
    | inl fs =>
        match Os.copyfile error_specs_source
                (Os.join (config_path assistant_name) "function_error_specs.json") fs with
        | inl fs => (fs, None)
        | inr e => (fs, Some e)
        end
    | inr e => (fs, Some e)
    end
  with
  | (fs, Some (Os.FileNotFoundError filename)) =>
      (show Qt.Critical "Export Failed"
         ("Failed to copy configuration files: "
            +:+ Os.str (Os.FileNotFoundError filename)) d, fs, None)
  | (fs, Some e) => (d, fs, Some e)
  | (fs, None) =>
      let user_functions_src := Os.join "functions" "user_functions.py" in
      match
        if Os.exists_ user_functions_src fs
        then Os.copyfile user_functions_src
               (Os.join (functions_path assistant_name) "user_functions.py") fs
        else inl fs
      with
      | inr e => (d, fs, Some e)
      | inl fs =>
          let template_path := Os.join "templates" "main_template.py" in
          match
            match Os.read template_path fs with
            | inr e => inr e
            | inl template_content =>
                let main_content :=
                  PyStr.replace "ASSISTANT_NAME" assistant_name template_content in
                Os.write (main_path assistant_name) main_content fs
            end
          with
          | inr e =>
              (show Qt.Critical "Export Failed"
                 ("Failed to create main.py: " +:+ Os.str e) d, fs, None)
          | inl fs =>
              let d :=
                show Qt.Information "Export Successful"
                  ("Assistant '" +:+ assistant_name
                     +:+ "' exported successfully to '"
                     +:+ export_path assistant_name +:+ "'.") d in
              (accept d, fs, None)
          end
      end
  end
  end
  end.

(** *** What the properties of the export speak of *)

(** The copies [export_assistant] makes. *)
Definition config_copy (assistant_name : string) : string :=
  Os.join (config_path assistant_name) (assistant_name +:+ "_assistant_config.json").

Definition error_specs_copy (assistant_name : string) : string :=
  Os.join (config_path assistant_name) "function_error_specs.json".

Definition user_functions_copy (assistant_name : string) : string :=
  Os.join (functions_path assistant_name) "user_functions.py".

(** A name of a profile that is a file name and leaves the name of its
    configuration file one. *)
Definition is_profile_name (assistant_name : string) : bool :=
  Os.is_name assistant_name
  && Os.is_name (assistant_name +:+ "_assistant_config.json").

(** The directories an export needs and the files it writes. *)
Definition export_dirs (assistant_name : string) : list string :=
  ["export"; export_path assistant_name; config_path assistant_name;
   functions_path assistant_name].

Definition export_files (assistant_name : string) : list string :=
  [config_copy assistant_name; error_specs_copy assistant_name;
   user_functions_copy assistant_name; main_path assistant_name].

(** Nothing stands in the way of an export: no regular file where it
    needs a directory, no directory where it writes a file. *)
Definition unobstructed (assistant_name : string) (fs : Os.FS) : Prop :=
  Forall (λ q, Os.is_file q fs = false) (export_dirs assistant_name) ∧
  Forall (λ p, Os.is_dir p fs = false) (export_files assistant_name).

(** The file system once the directories are made. *)
Definition made (assistant_name : string) (fs : Os.FS) : Os.FS :=
  Os.mkFS (Os.dirs fs ∪ list_to_set (export_dirs assistant_name)) (Os.files fs).

(** The file system after the copies, from the contents of the files
    that were read. *)
Definition copied (assistant_name config specs : string)
    (user_functions : option string) (fs : Os.FS) : Os.FS :=
  let fs := made assistant_name fs in
  let fs := Os.put (config_copy assistant_name) config fs in
  let fs := Os.put (error_specs_copy assistant_name) specs fs in
  match user_functions with
  | Some code => Os.put (user_functions_copy assistant_name) code fs
  | None => fs
  end.

(** The file system a complete export leaves. *)
Definition exported (assistant_name config specs : string)
    (user_functions : option string) (template : string) (fs : Os.FS) : Os.FS :=
  Os.put (main_path assistant_name)
    (PyStr.replace "ASSISTANT_NAME" assistant_name
       (PyStr.universal_newlines template))
    (copied assistant_name config specs user_functions fs).

(** [cur] is a file system on the way from [fs] to its export: the
    directories are made and only files of the export were written. *)
Definition during_export (assistant_name : string) (fs cur : Os.FS) : Prop :=
  Os.dirs cur = Os.dirs fs ∪ list_to_set (export_dirs assistant_name) ∧
  ∀ p, p ∉ export_files assistant_name → Os.files cur !! p = Os.files fs !! p.

(** [p] begins as the export directory does: with the first letter of
    "export", or with a separator when the name of the profile is an
    absolute path. *)
Definition starts_as_export (p : string) : Prop :=
  String.get 0 p = Some "e"%char ∨ String.get 0 p = Some "/"%char.

End ExportAssistantDialog.


(** ** Concrete dialogs *)

Module Examples.
Import AssistantConfigDialog.

Definition get_weather : FunctionConfig.t :=
  FunctionConfig.mk "get_weather" "{city: string}".

Definition find_files : FunctionConfig.t :=
  FunctionConfig.mk "find_files" "{pattern: string}".

(** A user function that carries the name of a system function. *)
Definition user_get_weather : FunctionConfig.t :=
  FunctionConfig.mk "get_weather" "{place: string, day: string}".

Definition function_configs : FunctionConfigs :=
  [("system", [get_weather; find_files])].

Definition clashing_function_configs : FunctionConfigs :=
  [("system", [get_weather; find_files]); ("user", [user_get_weather])].

(** A new dialog over the system functions. *)
Definition fresh : t :=
  init "assistant" (Some function_configs) "/home/user/output" "OPEN_AI" ["gpt-4"].

(** The same with a user function named like a system function. *)
Definition clashing : t :=
  init "assistant" (Some clashing_function_configs) "/home/user/output"
       "OPEN_AI" ["gpt-4"].

(** The instructions editor opened on a new assistant: an empty buffer,
    nothing pending. *)
Definition blank : t := on_tab_changed 2 fresh.

(** The instructions editor opened after the user typed instructions. *)
Definition typed : t := on_tab_changed 2 (set_instructionsEdit "Be brief." fresh).

(** A partial result is pending and the user has retyped the text. *)
Definition retyped : t :=
  set_newInstructionsEdit (Qt.mkTextEdit "Be kind." 8) (on_user_input "be brie" blank).

(** A stored profile: one known function, one that is no longer
    configured, and two knowledge files. *)
Definition helper : AssistantConfig.t :=
  {| AssistantConfig.name := "helper";
     AssistantConfig.instructions := "Answer questions about the weather.";
     AssistantConfig.model := "gpt-4";
     AssistantConfig.assistant_id := "asst_1";
     AssistantConfig.knowledge_files :=
       <["/data/cities.csv" := Some "file_1"]> (<["/data/notes.txt" := None]> ∅);
     AssistantConfig.selected_functions :=
       [FunctionConfig.get_full_spec get_weather;
        FunctionConfig.mkFullSpec "send_mail" "{to: string}"];
     AssistantConfig.knowledge_retrieval := true;
     AssistantConfig.code_interpreter := false;
     AssistantConfig.output_folder_path := "/home/user/helper";
     AssistantConfig.ai_client_type := "OPEN_AI";
     AssistantConfig.assistant_type := "assistant" |}.

Definition manager : AssistantConfigManager := {[ "helper" := helper ]}.

(** The user dictates "ab", then picks the stored profile "helper". *)
Definition dictating : t :=
  set_assistantComboBox "helper" (on_user_input "ab" blank).

(** The dialog after loading "helper", with its second file selected in
    the list. *)
Definition with_files : t :=
  let d := (assistant_selection_changed manager (set_assistantComboBox "helper" fresh)).1 in
  set_knowledgeFileList
    (imap (λ row item, Qt.mkListItem (Qt.text item) (bool_decide (row = 1)))
          (knowledgeFileList d)) d.

(** The dialog as the user left it after "helper" was loaded, ready for
    the check boxes to be filled in again. *)
Definition reloading : t :=
  set_assistant_config (Some helper) (reset_fields with_files).

(** A dialog whose name was never filled in. *)
Definition unnamed : t := set_instructionsEdit "Be brief." fresh.

(** A file system holding the template and the error specifications but
    no profile. *)
Definition disk : Os.FS :=
  Os.mkFS {[ "config"; "templates" ]}
    (<["config/function_error_specs.json" := "{}"]>
       (<["templates/main_template.py" := "run('ASSISTANT_NAME')"]> ∅)).

Definition export_dialog : ExportAssistantDialog.t :=
  ExportAssistantDialog.mk "helper" [] false.

(** The form filled in for a new assistant. *)
Definition filled : t :=
  set_nameEdit "helper"
    (set_instructionsEdit "Answer questions about the weather." fresh).

(** The instructions editor with the cursor at the end of what the user
    typed. *)
Definition ready : t :=
  set_newInstructionsEdit (Qt.moveCursor_End (newInstructionsEdit typed)) typed.

(** The user picks the stored profile "helper" in a new dialog. *)
Definition picking : t := set_assistantComboBox "helper" fresh.

(** The same in a dialog made without a function configuration manager. *)
Definition picking_without_functions : t :=
  set_assistantComboBox "helper"
    (init "assistant" None "/home/user/output" "OPEN_AI" ["gpt-4"]).

(** A template whose line ends with a carriage return and a line
    feed. *)
Definition main_template : string :=
  "run('ASSISTANT_NAME')" +:+ String PyStr.CR PyStr.LF.

(** A file system holding everything an export of "helper" reads. *)
Definition full_disk : Os.FS :=
  Os.mkFS {[ "config"; "templates"; "functions" ]}
    (<["config/helper_assistant_config.json" := "{name: helper}"]>
       (<["config/function_error_specs.json" := "{}"]>
          (<["functions/user_functions.py" := "def f(): pass"]>
             (<["templates/main_template.py" := main_template]> ∅)))).

(** A file system with the two configuration files of "helper" and
    nothing else: no user functions, no template. *)
Definition bare_disk : Os.FS :=
  Os.mkFS {[ "config" ]}
    (<["config/helper_assistant_config.json" := "{name: helper}"]>
       (<["config/function_error_specs.json" := "{}"]> ∅)).

End Examples.

(** * Proofs *)

#[local] Set Warnings "-clear-no-such-hyp".
(** Runs the field setters and projections of the dialog record, innermost
    first. *)
Ltac run_setters :=
  cbv [AssistantConfigDialog.set_knowledge_files_dict
    AssistantConfigDialog.set_selected_functions
    AssistantConfigDialog.set_code_interpreter
    AssistantConfigDialog.set_knowledge_retrieval
    AssistantConfigDialog.set_checkBoxes
    AssistantConfigDialog.set_assistant_id
    AssistantConfigDialog.set_currentHypothesis
    AssistantConfigDialog.set_assistantComboBox
    AssistantConfigDialog.set_nameEdit
    AssistantConfigDialog.set_instructionsEdit
    AssistantConfigDialog.set_modelComboBox
    AssistantConfigDialog.set_outputFolderPathEdit
    AssistantConfigDialog.set_knowledgeFileList
    AssistantConfigDialog.set_knowledgeRetrievalCheckBox
    AssistantConfigDialog.set_codeInterpreterCheckBox
    AssistantConfigDialog.set_newInstructionsEdit
    AssistantConfigDialog.set_is_create
    AssistantConfigDialog.set_assistant_config
    AssistantConfigDialog.set_assistant_config_json
    AssistantConfigDialog.set_messages AssistantConfigDialog.set_accepted
    AssistantConfigDialog.assistant_type
    AssistantConfigDialog.function_config_manager
    AssistantConfigDialog.knowledge_files_dict
    AssistantConfigDialog.selected_functions
    AssistantConfigDialog.code_interpreter
    AssistantConfigDialog.knowledge_retrieval
    AssistantConfigDialog.checkBoxes AssistantConfigDialog.assistant_id
    AssistantConfigDialog.default_output_folder_path
    AssistantConfigDialog.currentHypothesis
    AssistantConfigDialog.aiClientComboBox
    AssistantConfigDialog.assistantComboBox AssistantConfigDialog.nameEdit
    AssistantConfigDialog.instructionsEdit
    AssistantConfigDialog.modelComboBox
    AssistantConfigDialog.outputFolderPathEdit
    AssistantConfigDialog.knowledgeFileList
    AssistantConfigDialog.knowledgeRetrievalCheckBox
    AssistantConfigDialog.codeInterpreterCheckBox
    AssistantConfigDialog.newInstructionsEdit
    AssistantConfigDialog.is_create AssistantConfigDialog.assistant_config
    AssistantConfigDialog.assistant_config_json
    AssistantConfigDialog.messages AssistantConfigDialog.accepted].

(** Reads fields through the setters, keeping the fields of an unknown
    dialog as they are written. *)
Ltac read_fields :=
  cbn [AssistantConfigDialog.set_knowledge_files_dict
    AssistantConfigDialog.set_selected_functions
    AssistantConfigDialog.set_code_interpreter
    AssistantConfigDialog.set_knowledge_retrieval
    AssistantConfigDialog.set_checkBoxes
    AssistantConfigDialog.set_assistant_id
    AssistantConfigDialog.set_currentHypothesis
    AssistantConfigDialog.set_assistantComboBox
    AssistantConfigDialog.set_nameEdit
    AssistantConfigDialog.set_instructionsEdit
    AssistantConfigDialog.set_modelComboBox
    AssistantConfigDialog.set_outputFolderPathEdit
    AssistantConfigDialog.set_knowledgeFileList
    AssistantConfigDialog.set_knowledgeRetrievalCheckBox
    AssistantConfigDialog.set_codeInterpreterCheckBox
    AssistantConfigDialog.set_newInstructionsEdit
    AssistantConfigDialog.set_is_create
    AssistantConfigDialog.set_assistant_config
    AssistantConfigDialog.set_assistant_config_json
    AssistantConfigDialog.set_messages AssistantConfigDialog.set_accepted
    AssistantConfigDialog.assistant_type
    AssistantConfigDialog.function_config_manager
    AssistantConfigDialog.knowledge_files_dict
    AssistantConfigDialog.selected_functions
    AssistantConfigDialog.code_interpreter
    AssistantConfigDialog.knowledge_retrieval
    AssistantConfigDialog.checkBoxes AssistantConfigDialog.assistant_id
    AssistantConfigDialog.default_output_folder_path
    AssistantConfigDialog.currentHypothesis
    AssistantConfigDialog.aiClientComboBox
    AssistantConfigDialog.assistantComboBox AssistantConfigDialog.nameEdit
    AssistantConfigDialog.instructionsEdit
    AssistantConfigDialog.modelComboBox
    AssistantConfigDialog.outputFolderPathEdit
    AssistantConfigDialog.knowledgeFileList
    AssistantConfigDialog.knowledgeRetrievalCheckBox
    AssistantConfigDialog.codeInterpreterCheckBox
    AssistantConfigDialog.newInstructionsEdit
    AssistantConfigDialog.is_create AssistantConfigDialog.assistant_config
    AssistantConfigDialog.assistant_config_json
    AssistantConfigDialog.messages AssistantConfigDialog.accepted].

(** * Facts about the string operations *)

Section string_facts.
Implicit Types s a b sub : string.

Lemma app_cons_str c s a : String c s +:+ a = String c (s +:+ a).
Proof. reflexivity. Qed.

Lemma app_empty_l s : "" +:+ s = s.
Proof. reflexivity. Qed.

Lemma app_empty_r s : s +:+ "" = s.
Proof. induction s as [|c s IH]; [done | by rewrite app_cons_str, IH]. Qed.

Lemma app_assoc_str s a b : (s +:+ a) +:+ b = s +:+ a +:+ b.
Proof. induction s as [|c s IH]; [done | by rewrite !app_cons_str, IH]. Qed.

Lemma length_app_str s a : String.length (s +:+ a) = String.length s + String.length a.
Proof. induction s as [|c s IH]; [done | rewrite app_cons_str; simpl; by rewrite IH]. Qed.

Lemma length_zero_empty s : String.length s = 0 → s = "".
Proof. by destruct s. Qed.

Lemma truthy_true s : PyStr.truthy s = true ↔ s ≠ "".
Proof. by destruct s. Qed.

Lemma truthy_false s : PyStr.truthy s = false ↔ s = "".
Proof. by destruct s. Qed.

(** [String.prefix] is [str.startswith]. *)
Lemma prefix_empty s : String.prefix "" s = true.
Proof. by destruct s. Qed.

Lemma prefix_true sub s : String.prefix sub s = true ↔ ∃ b, s = sub +:+ b.
Proof.
  revert s. induction sub as [|c sub IH]; intros s.
  - rewrite prefix_empty. split; [intros _; by exists s | done].
  - destruct s as [|c' s]; simpl.
    { split; [done | intros [b Hb]; discriminate]. }
    destruct (Ascii.ascii_dec c c') as [->|Hne].
    + rewrite IH. split; intros [b Hb]; exists b.
      * by rewrite app_cons_str, <- Hb.
      * rewrite app_cons_str in Hb. by injection Hb.
    + split; [done |]. intros [b Hb]. rewrite app_cons_str in Hb.
      injection Hb as Hc _. by destruct Hne.
Qed.

(** [s[:len(a)]] of [s = a + b] is [a], and [s[len(a):]] is [b]. *)
Lemma slice_prefix a b : PyStr.slice 0 (String.length a) (a +:+ b) = a.
Proof.
  unfold PyStr.slice. rewrite Nat.sub_0_r.
  induction a as [|c a IH]; [by destruct b |].
  rewrite app_cons_str. simpl. by rewrite IH.
Qed.

Lemma substring_all s : String.substring 0 (String.length s) s = s.
Proof. induction s as [|c s IH]; simpl; congruence. Qed.

Lemma slice_suffix a b :
  PyStr.slice (String.length a) (String.length (a +:+ b)) (a +:+ b) = b.
Proof.
  unfold PyStr.slice. rewrite length_app_str.
  replace (String.length a + String.length b - String.length a)
    with (String.length b) by lia.
  induction a as [|c a IH]; [apply substring_all | by rewrite app_cons_str].
Qed.

Lemma rfind_cons sub c s :
  PyStr.rfind sub (String c s) =
  match PyStr.rfind sub s with
  | Some i => Some (S i)
  | None => if String.prefix sub (String c s) then Some 0 else None
  end.
Proof. reflexivity. Qed.

(** What [rfind] answers: the start of the last occurrence, or nothing
    when there is none. *)
Lemma rfind_None sub s :
  PyStr.rfind sub s = None → ¬ PyStr.occurs sub s.
Proof.
  induction s as [|c s IH].
  - destruct sub as [|c0 sub]; [done |]. intros _ (a & b & Hs).
    by destruct a.
  - rewrite rfind_cons. destruct (PyStr.rfind sub s) as [i|]; [done |].
    destruct (String.prefix sub (String c s)) eqn:Hp; [done |].
    intros _ (a & b & Hs). destruct a as [|c' a].
    + assert (String.prefix sub (String c s) = true) as Hp'
        by (apply prefix_true; by exists b).
      congruence.
    + rewrite app_cons_str in Hs. injection Hs as _ Hs.
      apply IH; [done | by exists a, b].
Qed.

Lemma rfind_Some sub s i :
  PyStr.rfind sub s = Some i →
  ∃ a b, PyStr.last_occurrence sub s a b ∧ String.length a = i.
Proof.
  revert i. induction s as [|c s IH]; intros i.
  - destruct sub as [|c0 sub]; [| done]. intros [= <-].
    exists "", "". split; [| done].
    split; [done |]. intros a' b' Ha'. by destruct a'.
  - rewrite rfind_cons. destruct (PyStr.rfind sub s) as [j|] eqn:Hr.
    + intros [= <-]. destruct (IH j eq_refl) as (a & b & [Hs Hmax] & Hlen).
      exists (String c a), b. split; [| by rewrite <- Hlen].
      split; [by rewrite app_cons_str, <- Hs |].
      intros a' b' Ha'. destruct a' as [|c' a']; simpl; [lia |].
      rewrite app_cons_str in Ha'. injection Ha' as _ Ha'.
      apply Hmax in Ha'. lia.
    + destruct (String.prefix sub (String c s)) eqn:Hp; [| done].
      intros [= <-]. apply prefix_true in Hp as [b Hb].
      exists "", b. split; [| done]. split; [done |].
      intros a' b' Ha'. destruct a' as [|c' a']; [done |].
      rewrite app_cons_str in Ha'. injection Ha' as _ Ha'.
      destruct (rfind_None _ _ Hr). by exists a', b'.
Qed.

(** The last occurrence is where [rfind] finds it. *)
Lemma rfind_last_occurrence sub s a b :
  PyStr.last_occurrence sub s a b → PyStr.rfind sub s = Some (String.length a).
Proof.
  intros [Hs Hmax]. destruct (PyStr.rfind sub s) as [i|] eqn:Hr.
  - destruct (rfind_Some _ _ _ Hr) as (a0 & b0 & [Hs0 Hmax0] & Hlen).
    apply Hmax in Hs0. apply Hmax0 in Hs. f_equal. lia.
  - destruct (rfind_None _ _ Hr). by exists a, b.
Qed.

(** An occurrence found by [rfind] at [length a] is the last one. *)
Lemma last_occurrence_rfind sub s a b :
  s = a +:+ sub +:+ b → PyStr.rfind sub s = Some (String.length a) →
  PyStr.last_occurrence sub s a b.
Proof.
  intros Hs Hr. split; [done |]. intros a' b' Ha'.
  destruct (rfind_Some _ _ _ Hr) as (a0 & b0 & [_ Hmax0] & Hlen).
  apply Hmax0 in Ha'. lia.
Qed.

(** [rsplit(sep, 1)] cuts at the last occurrence of [sep], and hands the
    string back whole when there is none. *)
Lemma rsplit_last_occurrence sep s a b :
  PyStr.last_occurrence sep s a b → PyStr.rsplit sep 1 s = [a; b].
Proof.
  intros Hlast. unfold PyStr.rsplit. simpl.
  rewrite (rfind_last_occurrence _ _ _ _ Hlast). destruct Hlast as [-> _].
  rewrite slice_prefix. f_equal. f_equal.
  rewrite <- (length_app_str a sep), <- !app_assoc_str.
  apply slice_suffix.
Qed.

Lemma rsplit_not_found sep s n :
  ¬ PyStr.occurs sep s → PyStr.rsplit sep n s = [s].
Proof.
  intros Hno. unfold PyStr.rsplit. destruct n as [|n]; simpl; [done |].
  destruct (PyStr.rfind sep s) as [i|] eqn:Hr; [| done].
  destruct (rfind_Some _ _ _ Hr) as (a & b & [Hs _] & _).
  destruct Hno. by exists a, b.
Qed.

(** A string that ends with a non-empty [sub] has its last occurrence of
    [sub] there. *)
Lemma last_occurrence_suffix sub a :
  sub ≠ "" → PyStr.last_occurrence sub (a +:+ sub) a "".
Proof.
  intros Hne. split; [by rewrite app_empty_r |]. intros a' b' Ha'.
  apply (f_equal String.length) in Ha'.
  rewrite !length_app_str in Ha'. lia.
Qed.

End string_facts.

(** * Dictation *)

Section dictation.
Import AssistantConfigDialog.
Implicit Types (d : t) (text : string).

Lemma on_user_input_hypothesis text d :
  currentHypothesis (on_user_input text d) = text.
Proof. reflexivity. Qed.

Lemma on_user_input_complete_hypothesis text d :
  currentHypothesis (on_user_input_complete text d) = "".
Proof. reflexivity. Qed.

(** With a hypothesis pending, both slots rebuild the buffer from the
    first piece of the split. *)
Lemma on_user_input_pending text d :
  currentHypothesis d ≠ "" →
  buffer (on_user_input text d) =
  PyStr.item0 (PyStr.rsplit (currentHypothesis d) 1 (buffer d)) +:+ text.
Proof.
  intros Hne%truthy_true. unfold on_user_input, buffer. by rewrite Hne.
Qed.

Lemma on_user_input_complete_pending text d :
  currentHypothesis d ≠ "" →
  buffer (on_user_input_complete text d) =
  PyStr.item0 (PyStr.rsplit (currentHypothesis d) 1 (buffer d))
    +:+ text +:+ PyStr.LF.
Proof.
  intros Hne%truthy_true. unfold on_user_input_complete, buffer.
  by rewrite Hne.
Qed.

(** With nothing pending, a partial result goes in at the cursor. *)
Lemma on_user_input_fresh text d :
  currentHypothesis d = "" →
  buffer (on_user_input text d) =
  Qt.toPlainText (Qt.insertPlainText text (newInstructionsEdit d)).
Proof.
  intros He%truthy_false. unfold on_user_input, buffer. by rewrite He.
Qed.

Lemma insertPlainText_empty text e :
  Qt.toPlainText e = "" → Qt.toPlainText (Qt.insertPlainText text e) = text.
Proof.
  intros He. unfold Qt.insertPlainText. rewrite He. simpl.
  rewrite Nat.min_0_r. apply app_empty_r.
Qed.

(** Both slots cut the buffer where the pending hypothesis last starts:
    what stood before it is kept, the hypothesis and what stood after it
    are not. *)
Lemma on_user_input_cuts text d a b :
  currentHypothesis d ≠ "" →
  PyStr.last_occurrence (currentHypothesis d) (buffer d) a b →
  buffer (on_user_input text d) = a +:+ text.
Proof.
  intros Hne Hlast. rewrite on_user_input_pending by done.
  by rewrite (rsplit_last_occurrence _ _ _ _ Hlast).
Qed.

Lemma on_user_input_complete_cuts text d a b :
  currentHypothesis d ≠ "" →
  PyStr.last_occurrence (currentHypothesis d) (buffer d) a b →
  buffer (on_user_input_complete text d) = a +:+ text +:+ PyStr.LF.
Proof.
  intros Hne Hlast. rewrite on_user_input_complete_pending by done.
  by rewrite (rsplit_last_occurrence _ _ _ _ Hlast).
Qed.

(** A hypothesis that ends the buffer is replaced by the new text. *)
Lemma on_user_input_replaces_trailing text d confirmed :
  currentHypothesis d ≠ "" →
  buffer d = confirmed +:+ currentHypothesis d →
  buffer (on_user_input text d) = confirmed +:+ text.
Proof.
  intros Hne Hbuf. apply on_user_input_cuts with (b := ""); [done |].
  rewrite Hbuf. by apply last_occurrence_suffix.
Qed.

(** C9: when the pending hypothesis, non-empty, does not occur in the
    buffer, [on_user_input] leaves the buffer as it is and appends the
    text, and [on_user_input_complete] does the same and then adds the
    line break; the first makes the text the pending hypothesis, the
    second clears it. *)
Theorem hypothesis_not_found_appends text d :
  currentHypothesis d ≠ "" →
  ¬ PyStr.occurs (currentHypothesis d) (buffer d) →
  buffer (on_user_input text d) = buffer d +:+ text ∧
  currentHypothesis (on_user_input text d) = text ∧
  buffer (on_user_input_complete text d) = buffer d +:+ text +:+ PyStr.LF ∧
  currentHypothesis (on_user_input_complete text d) = "".
Proof.
  intros Hne Hno. repeat split.
  - rewrite on_user_input_pending by done.
    by rewrite rsplit_not_found.
  - rewrite on_user_input_complete_pending by done.
    by rewrite rsplit_not_found.
Qed.

(** C7: on an empty buffer with nothing pending, the partial results
    "ab" and then "abc" leave the buffer "abc" with "abc" pending. *)
Theorem partial_then_partial_on_empty_buffer d :
  buffer d = "" → currentHypothesis d = "" →
  buffer (on_user_input "abc" (on_user_input "ab" d)) = "abc" ∧
  currentHypothesis (on_user_input "abc" (on_user_input "ab" d)) = "abc".
Proof.
  intros Hbuf Hhyp. split; [| done].
  assert (buffer (on_user_input "ab" d) = "ab") as Hab.
  { rewrite on_user_input_fresh by done. by apply insertPlainText_empty. }
  rewrite on_user_input_pending by done.
  rewrite on_user_input_hypothesis, Hab. reflexivity.
Qed.

(** C8: on an empty buffer with nothing pending, the partial result "ab"
    and then the final result "abcd" leave the buffer "abcd" followed by
    a line break, with nothing pending. *)
Theorem partial_then_final_on_empty_buffer d :
  buffer d = "" → currentHypothesis d = "" →
  buffer (on_user_input_complete "abcd" (on_user_input "ab" d))
    = "abcd" +:+ PyStr.LF ∧
  currentHypothesis (on_user_input_complete "abcd" (on_user_input "ab" d)) = "".
Proof.
  intros Hbuf Hhyp. split; [| done].
  assert (buffer (on_user_input "ab" d) = "ab") as Hab.
  { rewrite on_user_input_fresh by done. by apply insertPlainText_empty. }
  rewrite on_user_input_complete_pending by done.
  rewrite on_user_input_hypothesis, Hab. reflexivity.
Qed.

(** C1 fails on the code: a partial result that replaces a pending
    hypothesis also drops whatever stands after it.  The user opens the
    instructions editor on the instructions "Be brief." and dictates;
    the first partial result "ab" goes in at the cursor, in front of the
    instructions, and the second, "abc", leaves "abc" alone in the
    buffer where C1 promises "abcBe brief.". *)
Example partial_result_drops_text_after_hypothesis :
  let d1 := on_user_input "ab" Examples.typed in
  let d2 := on_user_input "abc" d1 in
  buffer Examples.typed = "Be brief." ∧
  currentHypothesis Examples.typed = "" ∧
  buffer d1 = "abBe brief." ∧
  currentHypothesis d1 = "ab" ∧
  PyStr.last_occurrence "ab" (buffer d1) "" "Be brief." ∧
  buffer d2 = "abc" ∧
  currentHypothesis d2 = "abc".
Proof.
  assert (PyStr.last_occurrence "ab" "abBe brief." "" "Be brief.") as Hlast
    by (by apply last_occurrence_rfind).
  repeat split; try reflexivity. apply (proj2 Hlast).
Qed.

Lemma hypothesis_not_found_appends_witness :
  currentHypothesis Examples.retyped ≠ "" ∧
  ¬ PyStr.occurs (currentHypothesis Examples.retyped) (buffer Examples.retyped) ∧
  buffer (on_user_input "be brief" Examples.retyped) = "Be kind.be brief" ∧
  currentHypothesis (on_user_input "be brief" Examples.retyped) = "be brief" ∧
  buffer (on_user_input_complete "be brief" Examples.retyped)
    = "Be kind.be brief" +:+ PyStr.LF ∧
  currentHypothesis (on_user_input_complete "be brief" Examples.retyped) = "".
Proof.
  split; [done |]. split; [by apply rfind_None |].
  apply (hypothesis_not_found_appends "be brief" Examples.retyped);
    [done | by apply rfind_None].
Defined.

Lemma partial_then_partial_on_empty_buffer_witness :
  buffer Examples.blank = "" ∧ currentHypothesis Examples.blank = "" ∧
  buffer (on_user_input "abc" (on_user_input "ab" Examples.blank)) = "abc" ∧
  currentHypothesis (on_user_input "abc" (on_user_input "ab" Examples.blank)) = "abc".
Proof.
  split; [reflexivity |]. split; [reflexivity |].
  apply (partial_then_partial_on_empty_buffer Examples.blank); reflexivity.
Defined.

Lemma partial_then_final_on_empty_buffer_witness :
  buffer Examples.blank = "" ∧ currentHypothesis Examples.blank = "" ∧
  buffer (on_user_input_complete "abcd" (on_user_input "ab" Examples.blank))
    = "abcd" +:+ PyStr.LF ∧
  currentHypothesis
    (on_user_input_complete "abcd" (on_user_input "ab" Examples.blank)) = "".
Proof.
  split; [reflexivity |]. split; [reflexivity |].
  apply (partial_then_final_on_empty_buffer Examples.blank); reflexivity.
Defined.

End dictation.

(** * Saving *)

Section saving.
Import AssistantConfigDialog.

(** C2: with an empty name, empty instructions or an empty model,
    [save_configuration] only shows the "Missing Fields" message: no
    configuration document is stored and the dialog is not accepted. *)
Theorem save_with_missing_field_writes_nothing (d : t) :
  nameEdit d = "" ∨ instructionsEdit d = ""
    ∨ Qt.currentText (modelComboBox d) = "" →
  save_configuration d
    = show Qt.Information "Missing Fields"
        "Name, Instructions, and Model are required fields." d ∧
  assistant_config_json (save_configuration d) = assistant_config_json d ∧
  accepted (save_configuration d) = accepted d.
Proof.
  intros Hmissing.
  assert (save_configuration d
    = show Qt.Information "Missing Fields"
        "Name, Instructions, and Model are required fields." d) as ->; [| done].
  unfold save_configuration, config_of. simpl.
  destruct Hmissing as [-> | [-> | ->]]; simpl; [done | |].
  - by rewrite orb_true_r.
  - by rewrite !orb_true_r.
Qed.

Lemma save_with_missing_field_writes_nothing_witness :
  (nameEdit Examples.unnamed = "" ∨ instructionsEdit Examples.unnamed = ""
     ∨ Qt.currentText (modelComboBox Examples.unnamed) = "") ∧
  save_configuration Examples.unnamed
    = show Qt.Information "Missing Fields"
        "Name, Instructions, and Model are required fields." Examples.unnamed ∧
  assistant_config_json (save_configuration Examples.unnamed) = None ∧
  accepted (save_configuration Examples.unnamed) = false.
Proof.
  split; [by left |].
  apply (save_with_missing_field_writes_nothing Examples.unnamed). by left.
Defined.

(** With the three fields filled in, the document is stored and the
    dialog accepted. *)
Lemma save_with_required_fields (d : t) :
  nameEdit d ≠ "" → instructionsEdit d ≠ "" →
  Qt.currentText (modelComboBox d) ≠ "" →
  assistant_config_json (save_configuration d) = Some (config_of d) ∧
  accepted (save_configuration d) = true.
Proof.
  intros Hn%truthy_true Hi%truthy_true Hm%truthy_true.
  unfold save_configuration. simpl. by rewrite Hn, Hi, Hm.
Qed.

End saving.

(** * Exporting *)

Section exporting.
Import ExportAssistantDialog.

(** Two strings that end differently differ. *)
Lemma app_inj_length (a a' b b' : string) :
  String.length a = String.length a' → a +:+ b = a' +:+ b' → a = a' ∧ b = b'.
Proof.
  revert a'. induction a as [|c a IH]; intros [|c' a'] Hlen Heq; try done.
  rewrite !app_cons_str in Heq. injection Heq as -> Heq.
  destruct (IH a') as [-> ->]; [by injection Hlen | done | done].
Qed.

Lemma app_suffix_neq (x y suffix suffix' : string) :
  String.length suffix = String.length suffix' → suffix ≠ suffix' →
  x +:+ suffix ≠ y +:+ suffix'.
Proof.
  intros Hlen Hne Heq. apply Hne.
  assert (String.length x = String.length y) as Hxy.
  { apply (f_equal String.length) in Heq. rewrite !length_app_str in Heq. lia. }
  by destruct (app_inj_length _ _ _ _ Hxy Heq).
Qed.

(** A joined path ends with its last component. *)
Lemma join_suffix (a p : string) : ∃ x, Os.join a p = x +:+ p.
Proof.
  unfold Os.join. destruct (String.prefix "/" p).
  - by exists "".
  - destruct (negb (PyStr.truthy a) || PyStr.endswith_sep a).
    + by exists a.
    + exists (a +:+ "/"). by rewrite app_assoc_str.
Qed.

(** The copy of the profile's configuration is neither the error
    specifications it is copied next to nor [main.py]. *)
Lemma config_copy_not_error_specs (dir assistant_name : string) :
  Os.join dir (assistant_name +:+ "_assistant_config.json") ≠ error_specs_source.
Proof.
  destruct (join_suffix dir (assistant_name +:+ "_assistant_config.json")) as [x ->].
  change error_specs_source with ("config/function_error_spec" +:+ "s.json").
  change "_assistant_config.json" with ("_assistant_confi" +:+ "g.json").
  rewrite <- !app_assoc_str. by apply app_suffix_neq.
Qed.

Lemma config_copy_not_main (dir assistant_name : string) :
  Os.join dir (assistant_name +:+ "_assistant_config.json") ≠ main_path assistant_name.
Proof.
  destruct (join_suffix dir (assistant_name +:+ "_assistant_config.json")) as [x ->].
  unfold main_path.
  destruct (join_suffix (export_path assistant_name) "main.py") as [y ->].
  change "main.py" with ("main." +:+ "py").
  change "_assistant_config.json" with ("_assistant_config.js" +:+ "on").
  rewrite <- !app_assoc_str. by apply app_suffix_neq.
Qed.

End exporting.

(** * The function check boxes *)

Section check_boxes.
Import AssistantConfigDialog.
Implicit Types (d : t) (boxes : list CheckBox) (checkBox : CheckBox).

Lemma dict_get_set_eq {V} k (v : V) items : dict_get k (dict_set k v items) = Some v.
Proof.
  induction items as [|[k' v'] items IH]; simpl; [by rewrite String.eqb_refl |].
  destruct (String.eqb_spec k' k) as [->|Hne]; simpl.
  - by rewrite String.eqb_refl.
  - by destruct (String.eqb_spec k' k).
Qed.

Lemma dict_get_set_ne {V} k k' (v : V) items :
  k ≠ k' → dict_get k (dict_set k' v items) = dict_get k items.
Proof.
  intros Hne. induction items as [|[k0 v0] items IH]; simpl.
  - by destruct (String.eqb_spec k' k).
  - destruct (String.eqb_spec k0 k') as [->|Hne']; simpl.
    + by destruct (String.eqb_spec k' k).
    + by rewrite IH.
Qed.

Lemma dict_get_elem {V} k (v : V) items : dict_get k items = Some v → (k, v) ∈ items.
Proof.
  induction items as [|[k' v'] items IH]; simpl; [done |].
  destruct (String.eqb_spec k' k) as [->|Hne].
  - intros [= ->]. apply list_elem_of_here.
  - intros Hget. apply list_elem_of_further. by apply IH.
Qed.

Lemma dict_get_NoDup {V} k (v : V) items :
  NoDup items.*1 → (k, v) ∈ items → dict_get k items = Some v.
Proof.
  induction items as [|[k' v'] items IH]; simpl; [by intros _ ?%elem_of_nil |].
  intros [Hfresh Hnodup]%NoDup_cons [[= -> ->] | Hin]%elem_of_cons.
  - by rewrite String.eqb_refl.
  - destruct (String.eqb_spec k' k) as [->|Hne]; [| by apply IH].
    destruct Hfresh. apply list_elem_of_fmap. by exists (k, v).
Qed.

Lemma dict_get_sections {V W} (f : V → W) k (items : list (string * V)) :
  dict_get k ((λ section, (section.1, f section.2)) <$> items)
    = f <$> dict_get k items.
Proof.
  induction items as [|[k' v'] items IH]; simpl; [done |].
  by destruct (String.eqb_spec k' k).
Qed.

(** The membership test of [handle_function_selection] never finds the
    configuration among the specifications. *)
Lemma config_in_false functionConfig selected :
  config_in functionConfig selected = false.
Proof. by induction selected. Qed.

Lemma handle_checked functionConfig d :
  handle_function_selection Qt.Checked functionConfig d
    = set_selected_functions
        (selected_functions d ++ [FunctionConfig.get_full_spec functionConfig]) d.
Proof.
  unfold handle_function_selection. by rewrite config_in_false.
Qed.

Lemma set_selected_functions_same d :
  set_selected_functions (selected_functions d) d = d.
Proof. by destruct d. Qed.

(** ** Only the boxes and the selection change *)

Lemma selection_differs_refl d : selection_differs d d.
Proof. by destruct d. Qed.

Lemma selection_differs_trans d1 d2 d3 :
  selection_differs d1 d2 → selection_differs d2 d3 → selection_differs d1 d3.
Proof.
  unfold selection_differs. intros H12 H23.
  remember (checkBoxes d3) as sections. remember (selected_functions d3) as selected.
  rewrite H23, H12. reflexivity.
Qed.

Lemma selection_differs_set sections selected d :
  selection_differs d (set_checkBoxes sections (set_selected_functions selected d)).
Proof. reflexivity. Qed.

Lemma set_selected_functions_differs selected d :
  selection_differs d (set_selected_functions selected d).
Proof. by destruct d. Qed.

Lemma handle_function_selection_differs state functionConfig d :
  selection_differs d (handle_function_selection state functionConfig d).
Proof.
  destruct state.
  - apply set_selected_functions_differs.
  - apply selection_differs_refl.
  - rewrite handle_checked. apply set_selected_functions_differs.
Qed.

Lemma setChecked_differs b checkBox d :
  selection_differs d (setChecked b checkBox d).2.
Proof.
  unfold setChecked. destruct (Bool.eqb _ _); simpl;
    [apply selection_differs_refl | apply handle_function_selection_differs].
Qed.

Lemma check_named_differs func_name checkBox d :
  selection_differs d (check_named func_name checkBox d).2.
Proof.
  unfold check_named. destruct (String.eqb _ _);
    [apply setChecked_differs | apply selection_differs_refl].
Qed.

Lemma for_each_checkBox_differs visit boxes d :
  (∀ checkBox d, selection_differs d (visit checkBox d).2) →
  selection_differs d (for_each_checkBox visit boxes d).2.
Proof.
  intros Hvisit. revert d.
  induction boxes as [|checkBox boxes IH]; intros d; simpl;
    [apply selection_differs_refl |].
  specialize (Hvisit checkBox d). destruct (visit checkBox d) as [checkBox' d1].
  specialize (IH d1). destruct (for_each_checkBox visit boxes d1) as [boxes' d2].
  by eapply selection_differs_trans.
Qed.

Lemma for_each_section_differs visit sections d :
  (∀ checkBox d, selection_differs d (visit checkBox d).2) →
  selection_differs d (for_each_section visit sections d).2.
Proof.
  intros Hvisit. revert d.
  induction sections as [|[function_type boxes] sections IH]; intros d; simpl;
    [apply selection_differs_refl |].
  pose proof (for_each_checkBox_differs visit boxes d Hvisit) as Hboxes.
  destruct (for_each_checkBox visit boxes d) as [boxes' d1].
  specialize (IH d1). destruct (for_each_section visit sections d1) as [sections' d2].
  by eapply selection_differs_trans.
Qed.

(** ** Unchecking every box *)

Lemma setChecked_false checkBox d : (setChecked false checkBox d).1 = uncheck checkBox.
Proof.
  unfold setChecked, uncheck. destruct checkBox as [label [] config]; by simpl.
Qed.

Lemma for_each_checkBox_uncheck boxes d :
  (for_each_checkBox (setChecked false) boxes d).1 = uncheck <$> boxes.
Proof.
  revert d. induction boxes as [|checkBox boxes IH]; intros d; simpl; [done |].
  pose proof (setChecked_false checkBox d) as Hbox.
  destruct (setChecked false checkBox d) as [checkBox' d1].
  specialize (IH d1). destruct (for_each_checkBox _ boxes d1) as [boxes' d2].
  simpl in *. by rewrite Hbox, IH.
Qed.

Lemma for_each_section_uncheck sections d :
  (for_each_section (setChecked false) sections d).1 = unchecked sections.
Proof.
  revert d.
  induction sections as [|[function_type boxes] sections IH]; intros d; simpl;
    [done |].
  pose proof (for_each_checkBox_uncheck boxes d) as Hboxes.
  destruct (for_each_checkBox _ boxes d) as [boxes' d1].
  specialize (IH d1). destruct (for_each_section _ sections d1) as [sections' d2].
  simpl in *. by rewrite Hboxes, IH.
Qed.

Lemma uncheck_all_eq d :
  ∃ selected,
    uncheck_all d
      = set_checkBoxes (unchecked (checkBoxes d)) (set_selected_functions selected d).
Proof.
  unfold uncheck_all.
  pose proof (for_each_section_uncheck (checkBoxes d) d) as Hsections.
  pose proof (for_each_section_differs (setChecked false) (checkBoxes d) d
                (setChecked_differs false)) as Hdiffers.
  destruct (for_each_section _ (checkBoxes d) d) as [sections d1].
  simpl in *. exists (selected_functions d1).
  rewrite Hdiffers, Hsections. reflexivity.
Qed.

Lemma unchecked_idemp sections : unchecked (unchecked sections) = unchecked sections.
Proof.
  unfold unchecked. rewrite <- list_fmap_compose. apply list_fmap_ext.
  intros _ [function_type boxes] _. simpl. f_equal.
  rewrite <- list_fmap_compose. by apply list_fmap_ext.
Qed.

Lemma all_unchecked_unchecked sections : all_unchecked (unchecked sections).
Proof.
  intros function_type boxes checkBox
    ([function_type' boxes'] & [= -> ->] & _)%list_elem_of_fmap
    (checkBox' & -> & _)%list_elem_of_fmap.
  reflexivity.
Qed.

Lemma setCurrentIndex_idemp i c :
  Qt.setCurrentIndex i (Qt.setCurrentIndex i c) = Qt.setCurrentIndex i c.
Proof.
  unfold Qt.setCurrentIndex. destruct (Qt.items c !! i) as [s|] eqn:Hi; simpl;
    by rewrite Hi.
Qed.

(** ** [reset_fields], field by field *)

Lemma reset_fields_eq d :
  reset_fields d
    = set_assistant_config None
        (set_outputFolderPathEdit ""
           (set_codeInterpreterCheckBox
              (if String.eqb (assistant_type d) "assistant"
               then false else codeInterpreterCheckBox d)
              (set_code_interpreter false
                 (set_knowledge_retrieval false
                    (set_selected_functions []
                       (set_checkBoxes (unchecked (checkBoxes d))
                          (set_knowledgeFileList []
                             (set_knowledge_files_dict ∅
                                (set_modelComboBox
                                   (Qt.setCurrentIndex 0 (modelComboBox d))
                                   (set_instructionsEdit ""
                                      (set_nameEdit "" d))))))))))).
Proof.
  unfold reset_fields. cbv zeta.
  match goal with
  | |- context [uncheck_all ?d'] => destruct (uncheck_all_eq d') as [selected ->]
  end.
  unfold codeInterpreterCheckBox_setChecked.
  destruct d as [kind ? ? ? ? ? ? ? ? ? ? ? ? ? ? ? ? ? interpreterBox ? ? ? ? ? ?].
  run_setters. destruct (String.eqb kind "assistant");
    [destruct interpreterBox; reflexivity | reflexivity].
Qed.

Lemma reset_fields_idemp d : reset_fields (reset_fields d) = reset_fields d.
Proof.
  rewrite !reset_fields_eq.
  destruct d as [kind ? ? ? ? ? ? ? ? ? ? ? ? ? ? ? ? ? ? ? ? ? ? ? ?].
  run_setters. rewrite unchecked_idemp, setCurrentIndex_idemp.
  destruct (String.eqb kind "assistant"); reflexivity.
Qed.

End check_boxes.

(** * Loading a stored profile *)

Section loading.
Import AssistantConfigDialog.
Implicit Types (d : t) (manager : AssistantConfigManager).

Lemma load_knowledge_files_eq items d :
  load_knowledge_files items d
    = set_knowledgeFileList (knowledgeFileList d ++ listed items)
        (set_knowledge_files_dict (insert_all items (knowledge_files_dict d)) d).
Proof.
  revert d. induction items as [|[file_path file_id] items IH]; intros d.
  - simpl. rewrite app_nil_r. by destruct d.
  - simpl. rewrite IH. simpl. by rewrite <- app_assoc.
Qed.

Lemma select_in_section_differs func_name func_type d :
  selection_differs d (select_in_section func_name func_type d).
Proof.
  unfold select_in_section.
  destruct (dict_get func_type (checkBoxes d)) as [boxes|];
    [| apply selection_differs_refl].
  pose proof (for_each_checkBox_differs (check_named func_name) boxes d
                (check_named_differs func_name)) as Hdiffers.
  destruct (for_each_checkBox _ boxes d) as [boxes' d1]. simpl in Hdiffers.
  eapply selection_differs_trans; [done |]. by destruct d1.
Qed.

Lemma select_in_sections_differs func_name function_configs d :
  selection_differs d (select_in_sections func_name function_configs d).
Proof.
  revert d.
  induction function_configs as [|[func_type funcs] rest IH]; intros d; simpl;
    [apply selection_differs_refl |].
  eapply selection_differs_trans; [| apply IH].
  destruct (existsb _ funcs);
    [apply select_in_section_differs | apply selection_differs_refl].
Qed.

Lemma pre_select_loop_differs funcs d :
  selection_differs d (pre_select_loop funcs d).1.
Proof.
  revert d. induction funcs as [|func funcs IH]; intros d; simpl;
    [apply selection_differs_refl |].
  destruct (function_config_manager d); [| apply selection_differs_refl].
  eapply selection_differs_trans; [| apply IH].
  apply select_in_sections_differs.
Qed.

Lemma pre_select_functions_differs d :
  selection_differs d (pre_select_functions d).1.
Proof.
  unfold pre_select_functions. destruct (assistant_config d);
    [apply pre_select_loop_differs | apply selection_differs_refl].
Qed.

(** What [pre_load_assistant_config] leaves alone, and what it does to
    the knowledge files. *)
Lemma pre_load_assistant_config_fields manager name d :
  let d' := (pre_load_assistant_config manager name d).1 in
  currentHypothesis d' = currentHypothesis d ∧
  newInstructionsEdit d' = newInstructionsEdit d ∧
  match manager !! name with
  | Some config =>
      let items := map_to_list (AssistantConfig.knowledge_files config) in
      knowledge_files_dict d' = insert_all items (knowledge_files_dict d) ∧
      knowledgeFileList d' = knowledgeFileList d ++ listed items
  | None =>
      knowledge_files_dict d' = knowledge_files_dict d ∧
      knowledgeFileList d' = knowledgeFileList d
  end.
Proof.
  unfold pre_load_assistant_config. simpl.
  destruct (manager !! name) as [config|]; simpl; [| done].
  rewrite load_knowledge_files_eq.
  match goal with
  | |- context [pre_select_functions ?d1] =>
      pose proof (pre_select_functions_differs d1) as Hdiffers;
      destruct (pre_select_functions d1) as [d2 [e|]]
  end; simpl in Hdiffers; rewrite Hdiffers; clear Hdiffers; simpl; [done |].
  unfold knowledgeRetrievalCheckBox_setChecked, codeInterpreterCheckBox_setChecked.
  simpl. repeat case_match; simpl; done.
Qed.

(** Loading leaves the dictation alone. *)
Lemma assistant_selection_changed_dictation manager d :
  currentHypothesis (assistant_selection_changed manager d).1 = currentHypothesis d ∧
  newInstructionsEdit (assistant_selection_changed manager d).1
    = newInstructionsEdit d.
Proof.
  unfold assistant_selection_changed. cbv zeta.
  assert (currentHypothesis (reset_fields d) = currentHypothesis d) as Hpending
    by (by rewrite reset_fields_eq).
  assert (newInstructionsEdit (reset_fields d) = newInstructionsEdit d) as Heditor
    by (by rewrite reset_fields_eq).
  revert Hpending Heditor. generalize (reset_fields d). intros r <- <-.
  destruct (String.eqb (assistantComboBox r) "New Assistant"); [done |].
  destruct (negb (String.eqb (assistantComboBox r) "")); [| done].
  by destruct (pre_load_assistant_config_fields manager (assistantComboBox r)
                 (set_is_create false r)) as (-> & -> & _).
Qed.

(** C4, as the code has it: loading starts from the reset form, so its
    outcome is the same whether or not the form was reset before: the
    name, the instructions, the knowledge files and their list, the
    selected functions, the function check boxes, the two tool flags, the
    output folder and the loaded profile are cleared first.  The
    dictation is no part of this: loading leaves the pending hypothesis
    and the instructions editor as they were. *)
Theorem loading_resets_profile_fields manager d :
  let reset := reset_fields d in
  let loaded := (assistant_selection_changed manager d).1 in
  assistant_selection_changed manager d
    = assistant_selection_changed manager reset ∧
  nameEdit reset = "" ∧
  instructionsEdit reset = "" ∧
  knowledge_files_dict reset = ∅ ∧
  knowledgeFileList reset = [] ∧
  selected_functions reset = [] ∧
  all_unchecked (checkBoxes reset) ∧
  knowledge_retrieval reset = false ∧
  code_interpreter reset = false ∧
  outputFolderPathEdit reset = "" ∧
  assistant_config reset = None ∧
  currentHypothesis loaded = currentHypothesis d ∧
  newInstructionsEdit loaded = newInstructionsEdit d.
Proof.
  intros reset loaded. subst reset loaded. split.
  { unfold assistant_selection_changed. cbv zeta. by rewrite reset_fields_idemp. }
  destruct (assistant_selection_changed_dictation manager d) as [Hpending Heditor].
  rewrite reset_fields_eq.
  split_and!; try reflexivity; try done. apply all_unchecked_unchecked.
Qed.

(** C4 as stated fails: a hypothesis pending when the user picks the
    stored profile "helper" is still pending, and still in the buffer,
    once the profile is loaded. *)
Lemma loading_keeps_pending_hypothesis :
  let loaded := (assistant_selection_changed Examples.manager Examples.dictating).1 in
  currentHypothesis Examples.dictating = "ab" ∧
  nameEdit loaded = "helper" ∧
  currentHypothesis loaded = "ab" ∧
  buffer loaded = "ab" ∧
  currentHypothesis loaded ≠ "".
Proof. by vm_compute. Qed.

End loading.

(** * Knowledge files *)

Section knowledge_files.
Import AssistantConfigDialog.
Implicit Types (d : t) (manager : AssistantConfigManager).

Lemma files_listed_fields d d' :
  knowledge_files_dict d' = knowledge_files_dict d →
  knowledgeFileList d' = knowledgeFileList d →
  files_listed d → files_listed d'.
Proof. unfold files_listed. by intros -> ->. Qed.

Lemma text_listed items : Qt.text <$> listed items = items.*1.
Proof.
  unfold listed. rewrite <- list_fmap_compose. by apply list_fmap_ext.
Qed.

Lemma dom_insert_all items files :
  dom (insert_all items files) = dom files ∪ list_to_set items.*1.
Proof.
  revert files. induction items as [|[file_path file_id] items IH]; intros files.
  - simpl. set_solver.
  - unfold insert_all in *. simpl. rewrite IH, dom_insert_L. set_solver.
Qed.

Lemma difference_twice (A B : gset string) : B ⊆ A → A ∖ (A ∖ B) = B.
Proof.
  intros Hsub. apply set_eq. intros x. destruct (decide (x ∈ B)); set_solver.
Qed.

(** The list the loop of [remove_file] leaves, the dict it leaves, and
    that [del] finds every key. *)
Lemma remove_selected_ok items files :
  NoDup (Qt.text <$> items) →
  list_to_set (Qt.text <$> items) ⊆ dom files →
  ∃ items' files',
    remove_selected items files = (items', files', None) ∧
    NoDup (Qt.text <$> items') ∧
    list_to_set (Qt.text <$> items') ⊆@{gset string} list_to_set (Qt.text <$> items) ∧
    dom files'
      = dom files ∖ (list_to_set (Qt.text <$> items)
                       ∖ list_to_set (Qt.text <$> items')).
Proof.
  revert files. induction items as [|item items IH]; intros files Hnodup Hkeys.
  - exists [], files. simpl. split_and!; [done | constructor | done | set_solver].
  - rewrite fmap_cons in Hnodup, Hkeys. apply NoDup_cons in Hnodup as [Hfresh Hnodup].
    rewrite list_to_set_cons in Hkeys.
    cbn [remove_selected]. destruct (Qt.isSelected item).
    + destruct (files !! Qt.text item) as [file_id|] eqn:Hfile.
      2: { apply not_elem_of_dom in Hfile. set_solver. }
      destruct (IH (delete (Qt.text item) files) Hnodup)
        as (items' & files' & -> & Hnodup' & Hsub & Hdom).
      { rewrite dom_delete_L. set_solver. }
      exists items', files'. rewrite fmap_cons, list_to_set_cons.
      split_and!; [done | done | set_solver |].
      rewrite Hdom, dom_delete_L.
      apply set_eq. intros path.
      assert (Qt.text item ∉@{gset string} list_to_set (Qt.text <$> items'))
        by set_solver.
      destruct (decide (path = Qt.text item)) as [->|]; set_solver.
    + destruct (IH files Hnodup) as (items' & files' & -> & Hnodup' & Hsub & Hdom);
        [set_solver |].
      exists (item :: items'), files'. rewrite fmap_cons.
      split_and!; [done | | set_solver |].
      * apply NoDup_cons. split; [set_solver | done].
      * rewrite Hdom, fmap_cons, !list_to_set_cons. apply set_eq. intros path.
        destruct (decide (path = Qt.text item)) as [->|]; set_solver.
Qed.

(** The form after a profile was picked shows the files of the profile,
    or none. *)
Lemma files_listed_loaded manager d :
  files_listed (assistant_selection_changed manager d).1.
Proof.
  unfold assistant_selection_changed. cbv zeta.
  assert (knowledge_files_dict (reset_fields d) = ∅) as Hdict
    by (by rewrite reset_fields_eq).
  assert (knowledgeFileList (reset_fields d) = []) as Hlist
    by (by rewrite reset_fields_eq).
  revert Hdict Hlist. generalize (reset_fields d). intros r Hdict Hlist.
  assert (files_listed r) as Hreset.
  { unfold files_listed. rewrite Hdict, Hlist. split; [constructor | set_solver]. }
  destruct (String.eqb (assistantComboBox r) "New Assistant").
  { by apply (files_listed_fields r). }
  destruct (negb (String.eqb (assistantComboBox r) "")); [| done].
  destruct (pre_load_assistant_config_fields manager (assistantComboBox r)
              (set_is_create false r)) as (_ & _ & Hfiles).
  destruct (manager !! assistantComboBox r) as [config|].
  - destruct Hfiles as [Hdict' Hlist']. unfold files_listed.
    rewrite Hdict', Hlist'.
    change (knowledge_files_dict (set_is_create false r))
      with (knowledge_files_dict r).
    change (knowledgeFileList (set_is_create false r)) with (knowledgeFileList r).
    rewrite Hdict, Hlist, app_nil_l, text_listed, dom_insert_all.
    split; [apply NoDup_fst_map_to_list | clear; set_solver].
  - destruct Hfiles as [Hdict' Hlist']. by apply (files_listed_fields r).
Qed.

(** C10: each operation on the knowledge files keeps the list showing
    exactly the keys of the dict, each once: adding a file, removing the
    selected files (which raises nothing), resetting the form, and
    loading the profile picked in the assistant box.  Adding a path that
    is a key already shows a warning and changes neither the dict nor
    the list. *)
Theorem knowledge_files_stay_listed manager d :
  files_listed d →
  (∀ filePath, files_listed (add_file filePath d)) ∧
  (∀ filePath, filePath ∈ dom (knowledge_files_dict d) →
     knowledge_files_dict (add_file filePath d) = knowledge_files_dict d ∧
     knowledgeFileList (add_file filePath d) = knowledgeFileList d ∧
     (filePath ≠ "" →
      add_file filePath d
        = show Qt.Warning "File Already Added"
            ("The file '" +:+ filePath +:+ "' is already in the list.") d)) ∧
  (∃ d', remove_file d = (d', None) ∧ files_listed d') ∧
  files_listed (reset_fields d) ∧
  files_listed (assistant_selection_changed manager d).1.
Proof.
  intros [Hnodup Hkeys]. split_and!.
  - intros filePath. unfold add_file.
    destruct (PyStr.truthy filePath); [| done]. case_bool_decide as Hkey; [done |].
    unfold files_listed. read_fields.
    rewrite fmap_app, list_to_set_app_L, dom_insert_L.
    change (Qt.text <$> [Qt.mkListItem filePath false]) with [filePath].
    rewrite Hkeys. split; [| clear; set_solver].
    apply NoDup_app. split_and!; [done | | apply NoDup_singleton].
    intros path Hpath ->%list_elem_of_singleton. apply Hkey.
    rewrite <- Hkeys. by apply elem_of_list_to_set.
  - intros filePath Hkey. unfold add_file.
    destruct (PyStr.truthy filePath) eqn:Htruthy.
    + by rewrite bool_decide_eq_true_2.
    + by apply truthy_false in Htruthy.
  - unfold remove_file.
    destruct (filter _ (knowledgeFileList d)); [by eexists |].
    destruct (remove_selected_ok (knowledgeFileList d) (knowledge_files_dict d))
      as (items' & files' & -> & Hnodup' & Hsub & Hdom);
      [done | by rewrite Hkeys |].
    eexists. split; [done |]. unfold files_listed. read_fields.
    split; [done |]. rewrite Hdom, <- Hkeys. symmetry. by apply difference_twice.
  - rewrite reset_fields_eq. unfold files_listed. read_fields.
    split; [constructor | clear; set_solver].
  - apply (files_listed_loaded manager d).
Qed.

Lemma knowledge_files_stay_listed_witness :
  files_listed Examples.with_files ∧
  (∀ filePath, files_listed (add_file filePath Examples.with_files)) ∧
  (∀ filePath, filePath ∈ dom (knowledge_files_dict Examples.with_files) →
     knowledge_files_dict (add_file filePath Examples.with_files)
       = knowledge_files_dict Examples.with_files ∧
     knowledgeFileList (add_file filePath Examples.with_files)
       = knowledgeFileList Examples.with_files ∧
     (filePath ≠ "" →
      add_file filePath Examples.with_files
        = show Qt.Warning "File Already Added"
            ("The file '" +:+ filePath +:+ "' is already in the list.")
            Examples.with_files)) ∧
  (∃ d', remove_file Examples.with_files = (d', None) ∧ files_listed d') ∧
  files_listed (reset_fields Examples.with_files) ∧
  files_listed (assistant_selection_changed Examples.manager Examples.with_files).1.
Proof.
  assert (files_listed Examples.with_files) as Hlisted
    by (apply (bool_decide_unpack _); vm_compute; exact I).
  split; [exact Hlisted |].
  exact (knowledge_files_stay_listed Examples.manager Examples.with_files Hlisted).
Defined.

End knowledge_files.

(** * Selecting functions *)

Section selecting.
Import AssistantConfigDialog.
Implicit Types (d : t) (boxes : list CheckBox) (checkBox : CheckBox).
Implicit Types (function_configs : FunctionConfigs).

Lemma mark_other func_name checkBox :
  String.eqb (text checkBox) func_name = false → mark func_name checkBox = checkBox.
Proof.
  unfold mark. intros ->. rewrite orb_false_r. by destruct checkBox.
Qed.

Lemma mark_checked func_name checkBox :
  isChecked checkBox = true → mark func_name checkBox = checkBox.
Proof. unfold mark. destruct checkBox as [label checked config]. by intros [= ->]. Qed.

Lemma mark_idemp func_name checkBox :
  mark func_name (mark func_name checkBox) = mark func_name checkBox.
Proof.
  unfold mark. simpl. by destruct (isChecked checkBox), (String.eqb _ _).
Qed.

Lemma selected_functions_set selected d :
  selected_functions (set_selected_functions selected d) = selected.
Proof. reflexivity. Qed.

Lemma set_selected_functions_twice selected selected' d :
  set_selected_functions selected' (set_selected_functions selected d)
    = set_selected_functions selected' d.
Proof. reflexivity. Qed.

Lemma newly_checked_cons func_name checkBox boxes :
  newly_checked func_name (checkBox :: boxes)
    = newly_checked func_name [checkBox] ++ newly_checked func_name boxes.
Proof.
  unfold newly_checked. rewrite !filter_cons, filter_nil.
  by destruct (decide (text checkBox = func_name ∧ isChecked checkBox = false)).
Qed.

Lemma check_named_eq func_name checkBox d :
  check_named func_name checkBox d
    = (mark func_name checkBox,
       set_selected_functions
         (selected_functions d ++ newly_checked func_name [checkBox]) d).
Proof.
  unfold check_named, setChecked, newly_checked.
  rewrite filter_cons, filter_nil.
  destruct (String.eqb (text checkBox) func_name) eqn:Hname.
  - apply String.eqb_eq in Hname as Hname'.
    destruct (isChecked checkBox) eqn:Hchecked.
    + rewrite decide_False by (by intros [_ ?]).
      rewrite mark_checked by done. rewrite fmap_nil, app_nil_r.
      by rewrite set_selected_functions_same.
    + rewrite decide_True by done. rewrite handle_checked.
      unfold mark. by rewrite Hchecked, Hname.
  - rewrite decide_False.
    + rewrite mark_other by done. rewrite fmap_nil, app_nil_r.
      by rewrite set_selected_functions_same.
    + intros [Heq _]. apply String.eqb_neq in Hname. done.
Qed.

(** The inner loop of [pre_select_functions]: the boxes it hands back
    and the specifications it appends. *)
Lemma for_each_check_named func_name boxes d :
  for_each_checkBox (check_named func_name) boxes d
    = (mark func_name <$> boxes,
       set_selected_functions
         (selected_functions d ++ newly_checked func_name boxes) d).
Proof.
  revert d. induction boxes as [|checkBox boxes IH]; intros d.
  - cbn [for_each_checkBox]. unfold newly_checked.
    rewrite filter_nil, !fmap_nil, app_nil_r.
    by rewrite set_selected_functions_same.
  - cbn [for_each_checkBox]. rewrite check_named_eq, IH.
    rewrite selected_functions_set, set_selected_functions_twice.
    by rewrite fmap_cons, <- app_assoc, <- newly_checked_cons.
Qed.

Lemma select_in_section_eq func_name func_type d boxes :
  dict_get func_type (checkBoxes d) = Some boxes →
  select_in_section func_name func_type d
    = set_checkBoxes
        (dict_set func_type (mark func_name <$> boxes) (checkBoxes d))
        (set_selected_functions
           (selected_functions d ++ newly_checked func_name boxes) d).
Proof.
  intros Hget. unfold select_in_section. rewrite Hget.
  by rewrite for_each_check_named.
Qed.

(** The boxes of a function type after one section was visited. *)
Lemma select_in_section_boxes func_name func_type func_type' d :
  dict_get func_type' (checkBoxes (select_in_section func_name func_type d))
    = mark_if (String.eqb func_type func_type') func_name
        <$> dict_get func_type' (checkBoxes d).
Proof.
  destruct (dict_get func_type (checkBoxes d)) as [boxes|] eqn:Hget.
  - rewrite (select_in_section_eq _ _ _ _ Hget).
    change (checkBoxes (set_checkBoxes ?c _)) with c.
    destruct (String.eqb_spec func_type func_type') as [<-|Hne].
    + by rewrite dict_get_set_eq, Hget.
    + rewrite dict_get_set_ne by done. by destruct (dict_get func_type' _).
  - unfold select_in_section. rewrite Hget.
    destruct (String.eqb_spec func_type func_type') as [<-|Hne].
    + by rewrite Hget.
    + by destruct (dict_get func_type' _).
Qed.

Lemma mark_if_twice visited visited' func_name boxes :
  mark_if visited func_name (mark_if visited' func_name boxes)
    = mark_if (visited' || visited) func_name boxes.
Proof.
  destruct visited, visited'; simpl; try done.
  rewrite <- list_fmap_compose. apply list_fmap_ext.
  intros _ checkBox _. apply mark_idemp.
Qed.

(** The boxes of a function type after the sections of one stored
    function were visited. *)
Lemma select_in_sections_boxes func_name function_configs func_type d :
  dict_get func_type (checkBoxes (select_in_sections func_name function_configs d))
    = mark_if (lists func_name function_configs func_type) func_name
        <$> dict_get func_type (checkBoxes d).
Proof.
  revert d.
  induction function_configs as [|[func_type' funcs] rest IH]; intros d.
  - cbn [select_in_sections lists existsb]. by destruct (dict_get func_type _).
  - cbn [select_in_sections]. rewrite IH.
    unfold lists. cbn [existsb fst snd]. fold (lists func_name rest func_type).
    destruct (existsb _ funcs).
    + rewrite select_in_section_boxes, andb_true_r.
      destruct (dict_get func_type (checkBoxes d)) as [boxes|]; [| done].
      cbn [fmap option_fmap option_map]. by rewrite mark_if_twice.
    + by rewrite andb_false_r.
Qed.

Lemma elem_of_newly_checked func_name boxes spec :
  spec ∈ newly_checked func_name boxes ↔
  ∃ checkBox, checkBox ∈ boxes ∧ text checkBox = func_name ∧
    isChecked checkBox = false ∧ spec = FunctionConfig.get_full_spec (fc checkBox).
Proof.
  unfold newly_checked. rewrite list_elem_of_fmap. split.
  - intros (checkBox & -> & (Hname & Hchecked)%list_elem_of_filter).
    destruct Hname. by exists checkBox.
  - intros (checkBox & Hin & Hname & Hchecked & ->). exists checkBox.
    split; [done |]. by apply list_elem_of_filter.
Qed.

(** Visiting a section keeps the selected names those of the checked
    boxes. *)
Lemma select_in_section_shows func_name func_type d :
  selection_shows_checked d →
  selection_shows_checked (select_in_section func_name func_type d).
Proof.
  intros Hshows.
  destruct (dict_get func_type (checkBoxes d)) as [boxes|] eqn:Hget.
  2: { unfold select_in_section. by rewrite Hget. }
  rewrite (select_in_section_eq _ _ _ _ Hget). intros name. simpl.
  unfold names. rewrite fmap_app, elem_of_app. fold (names (selected_functions d)).
  rewrite (Hshows name). split.
  - intros [(func_type' & boxes' & checkBox & Hget' & Hin & Hchecked & Hname) | Hnew].
    + destruct (decide (func_type' = func_type)) as [->|Hne].
      * exists func_type, (mark func_name <$> boxes), (mark func_name checkBox).
        rewrite dict_get_set_eq. split_and!; [done | | |done].
        -- apply list_elem_of_fmap_2. congruence.
        -- unfold mark. simpl. by rewrite Hchecked.
      * exists func_type', boxes', checkBox. by rewrite dict_get_set_ne.
    + apply list_elem_of_fmap in Hnew as (spec & -> & Hspec).
      apply elem_of_newly_checked in Hspec as (checkBox & Hin & Hname & Hchecked & ->).
      exists func_type, (mark func_name <$> boxes), (mark func_name checkBox).
      rewrite dict_get_set_eq. split_and!; [done | by apply list_elem_of_fmap_2 | | done].
      unfold mark. simpl. rewrite Hname, String.eqb_refl. by rewrite orb_true_r.
  - intros (func_type' & boxes' & checkBox' & Hget' & Hin & Hchecked & Hname).
    destruct (decide (func_type' = func_type)) as [->|Hne].
    + rewrite dict_get_set_eq in Hget'. injection Hget' as <-.
      apply list_elem_of_fmap in Hin as (checkBox & -> & Hin).
      simpl in Hchecked, Hname. destruct (isChecked checkBox) eqn:Hwas.
      * left. by exists func_type, boxes, checkBox.
      * right. simpl in Hchecked. apply String.eqb_eq in Hchecked.
        apply list_elem_of_fmap. exists (FunctionConfig.get_full_spec (fc checkBox)).
        split; [done |]. apply elem_of_newly_checked. by exists checkBox.
    + rewrite dict_get_set_ne in Hget' by done.
      left. by exists func_type', boxes', checkBox'.
Qed.

Lemma select_in_sections_shows func_name function_configs d :
  selection_shows_checked d →
  selection_shows_checked (select_in_sections func_name function_configs d).
Proof.
  revert d.
  induction function_configs as [|[func_type funcs] rest IH]; intros d Hshows;
    simpl; [done |].
  apply IH. destruct (existsb _ funcs); [by apply select_in_section_shows | done].
Qed.

Lemma selection_differs_manager d d' :
  selection_differs d d' → function_config_manager d' = function_config_manager d.
Proof. by intros ->. Qed.

Lemma selection_differs_messages d d' :
  selection_differs d d' → messages d' = messages d.
Proof. by intros ->. Qed.

Lemma lists_true func_name function_configs func_type :
  lists func_name function_configs func_type = true ↔
  ∃ funcs func_config,
    (func_type, funcs) ∈ function_configs ∧ func_config ∈ funcs ∧
    FunctionConfig.name func_config = func_name.
Proof.
  unfold lists. rewrite existsb_exists. split.
  - intros ([func_type' funcs] & Hin%list_elem_of_In & Hhit). simpl in Hhit.
    apply andb_true_iff in Hhit as [->%String.eqb_eq Hany].
    apply existsb_exists in Hany as (func_config & Hfunc%list_elem_of_In & Hname).
    apply String.eqb_eq in Hname. by exists funcs, func_config.
  - intros (funcs & func_config & Hin & Hfunc & Hname).
    exists (func_type, funcs). split; [by apply list_elem_of_In |]. simpl.
    rewrite String.eqb_refl. simpl. apply existsb_exists.
    exists func_config. split; [by apply list_elem_of_In | by apply String.eqb_eq].
Qed.

(** The boxes keep standing for the configurations. *)
Lemma select_in_sections_follow func_name function_configs l d :
  boxes_follow function_configs d →
  boxes_follow function_configs (select_in_sections func_name l d).
Proof.
  intros Hfollow func_type. destruct (Hfollow func_type) as [Hconfigs Hlabel].
  rewrite select_in_sections_boxes.
  destruct (dict_get func_type (checkBoxes d)) as [boxes|]; simpl in *;
    [| by repeat case_match].
  destruct (lists func_name l func_type); simpl; [| by split].
  split.
  - rewrite <- Hconfigs. f_equal. rewrite <- list_fmap_compose.
    by apply list_fmap_ext.
  - intros boxes' checkBox' [= <-] (checkBox & -> & Hin)%list_elem_of_fmap.
    simpl. by eapply Hlabel.
Qed.

(** One stored function more is accounted for by the checked boxes. *)
Lemma select_in_sections_checked func_name function_configs func_names d :
  boxes_follow function_configs d →
  checked_are func_names d →
  checked_are (func_names ++ [func_name])
    (select_in_sections func_name function_configs d).
Proof.
  intros Hfollow Hchecked func_type boxes' checkBox'.
  rewrite select_in_sections_boxes. destruct (Hfollow func_type) as [Hconfigs Hlabel].
  destruct (dict_get func_type (checkBoxes d)) as [boxes|] eqn:Hget; simpl in *;
    [| by repeat case_match].
  rewrite elem_of_app, list_elem_of_singleton.
  destruct (lists func_name function_configs func_type) eqn:Hlists; simpl.
  - intros [= <-] (checkBox & -> & Hin)%list_elem_of_fmap. simpl.
    rewrite orb_true_iff, (Hchecked func_type boxes checkBox Hget Hin).
    by rewrite String.eqb_eq.
  - intros [= <-] Hin.
    rewrite (Hchecked func_type boxes checkBox' Hget Hin).
    split; [by left |]. intros [? | Hname]; [done |].
    assert (lists func_name function_configs func_type = true) as Hyes; [| congruence].
    apply lists_true. exists (fc <$> boxes), (fc checkBox').
    split_and!; [by apply dict_get_elem | by apply list_elem_of_fmap_2 |].
    by rewrite <- (Hlabel boxes checkBox' eq_refl Hin).
Qed.

(** The loop of [pre_select_functions] over the stored functions. *)
Lemma pre_select_loop_invariant function_configs funcs func_names d :
  function_config_manager d = Some function_configs →
  boxes_follow function_configs d →
  selection_shows_checked d →
  checked_are func_names d →
  ∃ d',
    pre_select_loop funcs d = (d', None) ∧
    boxes_follow function_configs d' ∧
    selection_shows_checked d' ∧
    checked_are (func_names ++ names funcs) d'.
Proof.
  revert func_names d.
  induction funcs as [|func funcs IH]; intros func_names d Hmanager Hfollow Hshows Hchecked.
  - exists d. simpl. by rewrite app_nil_r.
  - simpl. rewrite Hmanager.
    destruct (IH (func_names ++ [FunctionConfig.function_name func])
                 (select_in_sections (FunctionConfig.function_name func)
                    function_configs d))
      as (d' & Hloop & Hfollow' & Hshows' & Hchecked').
    + rewrite <- Hmanager. apply selection_differs_manager.
      apply select_in_sections_differs.
    + by apply select_in_sections_follow.
    + by apply select_in_sections_shows.
    + by apply select_in_sections_checked.
    + exists d'. split_and!; try done.
      by rewrite <- app_assoc in Hchecked'.
Qed.

(** The sections [create_tools_tab] builds satisfy the three invariants
    with nothing selected. *)
Lemma new_sections_invariant function_configs d :
  checkBoxes d = new_sections function_configs →
  selected_functions d = [] →
  boxes_follow function_configs d ∧ selection_shows_checked d ∧ checked_are [] d.
Proof.
  intros Hboxes Hselected.
  assert (∀ func_type,
    dict_get func_type (checkBoxes d)
      = fmap (M := list) new_checkBox
          <$> dict_get func_type function_configs) as Hget.
  { intros func_type. rewrite Hboxes. unfold new_sections.
    apply (dict_get_sections (fmap (M := list) new_checkBox)). }
  split_and!.
  - intros func_type. rewrite Hget.
    destruct (dict_get func_type function_configs) as [funcs|]; simpl; [| done].
    split.
    + f_equal. rewrite <- list_fmap_compose.
      rewrite <- (list_fmap_id funcs) at 2. by apply list_fmap_ext.
    + by intros boxes checkBox [= <-] (func_config & -> & _)%list_elem_of_fmap.
  - intros name. rewrite Hselected. split; [by intros ?%elem_of_nil |].
    intros (func_type & boxes & checkBox & Hboxes' & Hin & Hchecked & _).
    rewrite Hget in Hboxes'.
    destruct (dict_get func_type function_configs) as [funcs|]; [| done].
    injection Hboxes' as <-.
    by apply list_elem_of_fmap in Hin as (func_config & -> & _).
  - intros func_type boxes checkBox Hboxes' Hin. rewrite Hget in Hboxes'.
    destruct (dict_get func_type function_configs) as [funcs|]; [| done].
    injection Hboxes' as <-.
    apply list_elem_of_fmap in Hin as (func_config & -> & _).
    split; [done | by intros ?%elem_of_nil].
Qed.

(** C5: on the reset form [pre_select_functions] raises nothing and
    shows no message; afterwards the selected names are the stored names
    that are known under some function type, so a stored function that
    is known is selected and one that is not is dropped, and the checked
    boxes are those labelled with a stored name. *)
Theorem pre_select_functions_reconciles d function_configs config :
  function_config_manager d = Some function_configs →
  NoDup function_configs.*1 →
  checkBoxes d = new_sections function_configs →
  selected_functions d = [] →
  assistant_config d = Some config →
  ∃ d',
    pre_select_functions d = (d', None) ∧
    messages d' = messages d ∧
    (∀ func_name,
       func_name ∈ names (selected_functions d') ↔
       func_name ∈ names (AssistantConfig.selected_functions config)
         ∧ known function_configs func_name) ∧
    (∀ func_type boxes checkBox,
       dict_get func_type (checkBoxes d') = Some boxes → checkBox ∈ boxes →
       (isChecked checkBox = true ↔
        text checkBox ∈ names (AssistantConfig.selected_functions config))).
Proof.
  intros Hmanager Hnodup Hboxes Hselected Hconfig.
  destruct (new_sections_invariant _ _ Hboxes Hselected)
    as (Hfollow & Hshows & Hchecked).
  destruct (pre_select_loop_invariant function_configs
              (AssistantConfig.selected_functions config) [] d)
    as (d' & Hloop & Hfollow' & Hshows' & Hchecked'); try done.
  simpl in Hchecked'. exists d'.
  assert (pre_select_functions d = (d', None)) as Hrun.
  { unfold pre_select_functions. by rewrite Hconfig. }
  split_and!; [done | | | done].
  - apply selection_differs_messages.
    pose proof (pre_select_functions_differs d) as Hdiffers.
    by rewrite Hrun in Hdiffers.
  - intros name. rewrite (Hshows' name). split.
    + intros (func_type & boxes & checkBox & Hget & Hin & Hon & Hname).
      destruct (Hfollow' func_type) as [Hconfigs Hlabel].
      rewrite <- Hname, <- (Hlabel boxes checkBox Hget Hin).
      split; [by apply (Hchecked' func_type boxes checkBox) |].
      exists func_type, (fc <$> boxes), (fc checkBox).
      split_and!; [| by apply list_elem_of_fmap_2 | by symmetry; eapply Hlabel].
      apply dict_get_elem. by rewrite <- Hconfigs, Hget.
    + intros [Hstored (func_type & funcs & func_config & Hin & Hfunc & Hname)].
      destruct (Hfollow' func_type) as [Hconfigs Hlabel].
      rewrite (dict_get_NoDup _ _ _ Hnodup Hin) in Hconfigs.
      destruct (dict_get func_type (checkBoxes d')) as [boxes|] eqn:Hget; [| done].
      injection Hconfigs as <-.
      apply list_elem_of_fmap in Hfunc as (checkBox & -> & Hbox).
      exists func_type, boxes, checkBox. split_and!; try done.
      apply (Hchecked' func_type boxes checkBox Hget Hbox).
      by rewrite (Hlabel boxes checkBox eq_refl Hbox), Hname.
Qed.

Lemma pre_select_functions_reconciles_witness :
  function_config_manager Examples.reloading = Some Examples.function_configs ∧
  NoDup Examples.function_configs.*1 ∧
  checkBoxes Examples.reloading = new_sections Examples.function_configs ∧
  selected_functions Examples.reloading = [] ∧
  assistant_config Examples.reloading = Some Examples.helper ∧
  ∃ d',
    pre_select_functions Examples.reloading = (d', None) ∧
    messages d' = messages Examples.reloading ∧
    (∀ func_name,
       func_name ∈ names (selected_functions d') ↔
       func_name ∈ ["get_weather"; "send_mail"]
         ∧ known Examples.function_configs func_name) ∧
    (∀ func_type boxes checkBox,
       dict_get func_type (checkBoxes d') = Some boxes → checkBox ∈ boxes →
       (isChecked checkBox = true ↔
        text checkBox ∈ ["get_weather"; "send_mail"])).
Proof.
  assert (NoDup Examples.function_configs.*1) as Hnodup
    by (apply (bool_decide_unpack _); vm_compute; exact I).
  split_and!; [reflexivity | exact Hnodup | reflexivity | reflexivity | reflexivity |].
  exact (pre_select_functions_reconciles Examples.reloading
           Examples.function_configs Examples.helper
           eq_refl Hnodup eq_refl eq_refl eq_refl).
Defined.

(** C6 fails on the code: the guard of [handle_function_selection]
    compares the configuration with the stored specifications and never
    finds it, so names are not kept apart.  With a user function called
    like a system function, checking both boxes stores two entries under
    the one name, and unchecking the second removes both while the first
    box stays checked; the handler called for a configuration whose
    specification is stored stores it a second time. *)
Example same_name_selected_twice :
  let d1 := click_checkBox "system" 0 Examples.clashing in
  let d2 := click_checkBox "user" 0 d1 in
  let d3 := click_checkBox "user" 0 d2 in
  selected_functions d1 = [FunctionConfig.get_full_spec Examples.get_weather] ∧
  selected_functions d2
    = [FunctionConfig.get_full_spec Examples.get_weather;
       FunctionConfig.get_full_spec Examples.user_get_weather] ∧
  names (selected_functions d2) = ["get_weather"; "get_weather"] ∧
  selected_functions d3 = [] ∧
  fmap (M := list) isChecked <$> dict_get "system" (checkBoxes d3)
    = Some [true; false] ∧
  selected_functions
    (handle_function_selection Qt.Checked Examples.get_weather d1)
    = [FunctionConfig.get_full_spec Examples.get_weather;
       FunctionConfig.get_full_spec Examples.get_weather].
Proof. vm_compute. by repeat split. Qed.

End selecting.

(** * Exporting a profile *)

Section export_paths.
Import ExportAssistantDialog.
Implicit Types (a p q : string) (fs cur : Os.FS).

(** ** Paths *)

Lemma contains_cons c x s :
  PyStr.contains c (String x s) = Ascii.eqb c x || PyStr.contains c s.
Proof. reflexivity. Qed.

Lemma contains_app c a b :
  PyStr.contains c (a +:+ b) = PyStr.contains c a || PyStr.contains c b.
Proof.
  induction a as [|x a IH]; [done |].
  by rewrite app_cons_str, !contains_cons, IH, orb_assoc.
Qed.

(** A file name is not empty and holds no separator. *)
Lemma is_name_component name :
  Os.is_name name = true → name ≠ "" ∧ PyStr.contains "/"%char name = false.
Proof.
  unfold Os.is_name.
  intros
    [[[[Hne%truthy_true _]%andb_true_iff _]%andb_true_iff _]%andb_true_iff
       Hall]%andb_true_iff.
  split; [done |]. unfold PyStr.contains. clear Hne.
  induction (String.list_ascii_of_string name) as [|c l IH]; [done |].
  cbn [forallb existsb] in *.
  apply andb_true_iff in Hall as [[Hc _]%andb_true_iff Hall].
  rewrite IH by done. rewrite Ascii.eqb_sym. by destruct (Ascii.eqb c "/"%char).
Qed.

Lemma cut_points_app pre a rest :
  Os.cut_points pre (a +:+ rest)
    = Os.cut_points pre a ++ Os.cut_points (pre +:+ a) rest.
Proof.
  revert pre. induction a as [|c a IH]; intros pre.
  - by rewrite app_empty_l, app_empty_r.
  - rewrite app_cons_str. cbn [Os.cut_points].
    by rewrite IH, <- app_assoc, app_assoc_str.
Qed.

Lemma cut_points_component pre p :
  PyStr.contains "/"%char p = false → Os.cut_points pre p = [].
Proof.
  revert pre. induction p as [|c p IH]; intros pre; [done |].
  rewrite contains_cons. intros [Hc Hp]%orb_false_iff.
  cbn [Os.cut_points]. rewrite Ascii.eqb_sym, Hc. by apply IH.
Qed.

Lemma last_char_app a p :
  p ≠ "" → PyStr.last_char (a +:+ p) = PyStr.last_char p.
Proof.
  intros Hp. induction a as [|c a IH]; [done |].
  rewrite app_cons_str. cbn [PyStr.last_char].
  destruct (a +:+ p) eqn:Happ; [| done].
  destruct a; [by rewrite app_empty_l in Happ | by rewrite app_cons_str in Happ].
Qed.

Lemma endswith_sep_component a p :
  p ≠ "" → PyStr.contains "/"%char p = false → PyStr.endswith_sep (a +:+ p) = false.
Proof.
  intros Hp Hfree. unfold PyStr.endswith_sep. rewrite last_char_app by done.
  clear a. induction p as [|c p IH]; [done |].
  rewrite contains_cons in Hfree. apply orb_false_iff in Hfree as [Hc Hfree].
  cbn [PyStr.last_char]. destruct p as [|c' p]; [by rewrite Ascii.eqb_sym |].
  by apply IH.
Qed.

Lemma prefix_sep_component p :
  PyStr.contains "/"%char p = false → String.prefix "/" p = false.
Proof.
  destruct p as [|c p]; [done |]. rewrite contains_cons.
  intros [Hc _]%orb_false_iff.
  destruct (String.prefix "/" (String c p)) eqn:Hsep; [| done].
  apply prefix_true in Hsep as [b Hb]. rewrite app_cons_str in Hb.
  injection Hb as -> _. by rewrite Ascii.eqb_refl in Hc.
Qed.

(** Joining a component to a directory path: the path it gives and the
    directories above it. *)
Lemma join_component a p :
  a ≠ "" → PyStr.endswith_sep a = false → PyStr.contains "/"%char p = false →
  Os.join a p = a +:+ "/" +:+ p.
Proof.
  intros Ha%truthy_true Hend Hp. unfold Os.join.
  by rewrite (prefix_sep_component p), Ha, Hend.
Qed.

Lemma ancestors_under a p :
  a ≠ "" → PyStr.endswith_sep a = false → PyStr.contains "/"%char p = false →
  Os.ancestors (a +:+ "/" +:+ p) = Os.ancestors a ++ [a].
Proof.
  intros Ha%truthy_true Hend Hp. unfold Os.ancestors.
  rewrite cut_points_app, app_empty_l, filter_app. f_equal.
  change ("/" +:+ p) with (String "/" p). cbn [Os.cut_points].
  rewrite Ascii.eqb_refl, cut_points_component by done.
  rewrite app_nil_r, filter_cons_True; [done | by rewrite Ha, Hend].
Qed.

Lemma join_clean a p :
  a ≠ "" → PyStr.endswith_sep a = false →
  p ≠ "" → PyStr.contains "/"%char p = false →
  Os.join a p ≠ "" ∧ PyStr.endswith_sep (Os.join a p) = false ∧
  Os.ancestors (Os.join a p) = Os.ancestors a ++ [a].
Proof.
  intros Ha Hend Hp Hfree. rewrite join_component by done. split_and!.
  - by destruct a.
  - rewrite <- app_assoc_str. by apply endswith_sep_component.
  - by apply ancestors_under.
Qed.

(** The directories above the paths of an export. *)
Lemma export_paths name :
  Os.is_name name = true →
  Os.ancestors (config_path name) = ["export"; export_path name] ∧
  Os.ancestors (functions_path name) = ["export"; export_path name] ∧
  Os.ancestors (main_path name) = ["export"; export_path name] ∧
  Os.ancestors (config_copy name)
    = ["export"; export_path name; config_path name] ∧
  Os.ancestors (error_specs_copy name)
    = ["export"; export_path name; config_path name] ∧
  Os.ancestors (user_functions_copy name)
    = ["export"; export_path name; functions_path name].
Proof.
  intros [Hne Hfree]%is_name_component.
  destruct (join_clean "export" name) as (He & Hee & Hea); [done.. |].
  fold (export_path name) in He, Hee, Hea. change (Os.ancestors "export") with (@nil string) in Hea.
  destruct (join_clean (export_path name) "config") as (Hc & Hce & Hca);
    [done.. |].
  destruct (join_clean (export_path name) "functions") as (Hf & Hfe & Hfa);
    [done.. |].
  destruct (join_clean (export_path name) "main.py") as (_ & _ & Hma);
    [done.. |].
  fold (config_path name) in Hc, Hce, Hca.
  fold (functions_path name) in Hf, Hfe, Hfa.
  fold (main_path name) in Hma.
  destruct (join_clean (config_path name) (name +:+ "_assistant_config.json"))
    as (_ & _ & Hcca); [done | done | by destruct name | |].
  { by rewrite contains_app, Hfree. }
  destruct (join_clean (config_path name) "function_error_specs.json")
    as (_ & _ & Hsca); [done.. |].
  destruct (join_clean (functions_path name) "user_functions.py")
    as (_ & _ & Huca); [done.. |].
  fold (config_copy name) in Hcca. fold (error_specs_copy name) in Hsca.
  fold (user_functions_copy name) in Huca.
  rewrite Hea in Hca, Hfa, Hma. rewrite Hca in Hcca, Hsca. rewrite Hfa in Huca.
  by split_and!.
Qed.

Lemma get_app_first a b c :
  String.get 0 a = Some c → String.get 0 (a +:+ b) = Some c.
Proof. by destruct a. Qed.

(** Every path under the export directory begins as it does. *)
Lemma join_starts a p : starts_as_export a → starts_as_export (Os.join a p).
Proof.
  intros Hstarts. unfold Os.join.
  destruct (String.prefix "/" p) eqn:Hsep.
  - apply prefix_true in Hsep as [b ->]. by right.
  - destruct (negb (PyStr.truthy a) || PyStr.endswith_sep a);
      destruct Hstarts as [Hfirst | Hfirst]; [left | right | left | right];
      by apply get_app_first.
Qed.

Lemma export_path_starts assistant_name :
  starts_as_export (export_path assistant_name).
Proof. apply join_starts. by left. Qed.

Lemma export_dirs_start assistant_name q :
  q ∈ export_dirs assistant_name → starts_as_export q.
Proof.
  unfold export_dirs. rewrite !elem_of_cons, elem_of_nil.
  intros [-> | [-> | [-> | [-> | []]]]];
    [by left | apply export_path_starts
    | apply join_starts, export_path_starts..].
Qed.

Lemma export_files_start assistant_name p :
  p ∈ export_files assistant_name → starts_as_export p.
Proof.
  unfold export_files. rewrite !elem_of_cons, elem_of_nil.
  intros [-> | [-> | [-> | [-> | []]]]];
    [apply join_starts, join_starts, export_path_starts..
    | apply join_starts, export_path_starts].
Qed.

Lemma starts_neq p q : starts_as_export p → ¬ starts_as_export q → p ≠ q.
Proof. by intros Hp Hq ->. Qed.

(** The files the export reads, and the directories they are in, lie
    outside the export directory. *)
Lemma config_source_outside assistant_name :
  ¬ starts_as_export (config_source assistant_name).
Proof. by intros [Hfirst | Hfirst]. Qed.

Lemma error_specs_source_outside : ¬ starts_as_export error_specs_source.
Proof. by intros [Hfirst | Hfirst]. Qed.

Lemma user_functions_outside : ¬ starts_as_export "functions/user_functions.py".
Proof. by intros [Hfirst | Hfirst]. Qed.

Lemma template_outside : ¬ starts_as_export "templates/main_template.py".
Proof. by intros [Hfirst | Hfirst]. Qed.

Lemma config_outside : ¬ starts_as_export "config".
Proof. by intros [Hfirst | Hfirst]. Qed.

Lemma templates_outside : ¬ starts_as_export "templates".
Proof. by intros [Hfirst | Hfirst]. Qed.

(** A directory above a path is shorter than the path. *)
Lemma cut_points_below pre p x :
  x ∈ Os.cut_points pre p → ∃ rest, pre +:+ p = x +:+ "/" +:+ rest.
Proof.
  revert pre. induction p as [|c p IH]; intros pre; cbn [Os.cut_points].
  - by intros ?%elem_of_nil.
  - intros [Hhere | Hlater]%elem_of_app.
    + destruct (Ascii.eqb_spec c "/"%char) as [-> |]; [| by apply elem_of_nil in Hhere].
      apply list_elem_of_singleton in Hhere as ->. by exists p.
    + destruct (IH _ Hlater) as [rest Hrest]. exists rest.
      by rewrite <- Hrest, app_assoc_str.
Qed.

Lemma ancestor_neq p q : q ∈ Os.ancestors p → q ≠ p.
Proof.
  unfold Os.ancestors.
  intros [_ (rest & Hrest)%cut_points_below]%list_elem_of_filter ->.
  rewrite app_empty_l in Hrest. apply (f_equal String.length) in Hrest.
  rewrite !length_app_str in Hrest. cbn in Hrest. lia.
Qed.

(** The files of an export are four different paths, none of them one
    of its directories. *)
Lemma tails_differ p q tail tail' :
  (∃ x, p = x +:+ tail) → (∃ y, q = y +:+ tail') →
  String.length tail = String.length tail' → tail ≠ tail' → p ≠ q.
Proof. intros [x ->] [y ->] Hlength Hne. by apply app_suffix_neq. Qed.

Lemma join_tail a p tail :
  (∃ x, p = x +:+ tail) → ∃ y, Os.join a p = y +:+ tail.
Proof.
  intros [x ->]. destruct (join_suffix a (x +:+ tail)) as [y ->].
  exists (y +:+ x). by rewrite app_assoc_str.
Qed.

Lemma config_copy_tail assistant_name :
  ∃ x, config_copy assistant_name = x +:+ "g.json".
Proof.
  apply join_tail. exists (assistant_name +:+ "_assistant_confi").
  by rewrite app_assoc_str.
Qed.

Lemma error_specs_copy_tail assistant_name :
  ∃ x, error_specs_copy assistant_name = x +:+ "s.json".
Proof. apply join_tail. by exists "function_error_spec". Qed.

Lemma user_functions_copy_tail assistant_name :
  ∃ x, user_functions_copy assistant_name = x +:+ "ons.py".
Proof. apply join_tail. by exists "user_functi". Qed.

Lemma main_path_tail assistant_name :
  ∃ x, main_path assistant_name = x +:+ "ain.py".
Proof. apply join_tail. by exists "m". Qed.

Lemma config_path_tail assistant_name :
  ∃ x, config_path assistant_name = x +:+ "config".
Proof. apply join_tail. by exists "". Qed.

Lemma functions_path_tail assistant_name :
  ∃ x, functions_path assistant_name = x +:+ "ctions".
Proof. apply join_tail. by exists "fun". Qed.

Lemma copies_differ assistant_name :
  config_copy assistant_name ≠ error_specs_copy assistant_name ∧
  config_copy assistant_name ≠ user_functions_copy assistant_name ∧
  config_copy assistant_name ≠ main_path assistant_name ∧
  error_specs_copy assistant_name ≠ user_functions_copy assistant_name ∧
  error_specs_copy assistant_name ≠ main_path assistant_name ∧
  user_functions_copy assistant_name ≠ main_path assistant_name.
Proof.
  pose proof (config_copy_tail assistant_name).
  pose proof (error_specs_copy_tail assistant_name).
  pose proof (user_functions_copy_tail assistant_name).
  pose proof (main_path_tail assistant_name).
  split_and!; by eapply tails_differ.
Qed.

Lemma copies_not_dirs name p q :
  Os.is_name name = true →
  p ∈ export_files name → q ∈ export_dirs name → p ≠ q.
Proof.
  intros Hname Hp Hq.
  destruct (export_paths name Hname) as (Hc & Hf & Hm & Hcc & Hsc & Huc).
  assert (∀ p q, q ∈ Os.ancestors p → p ≠ q) as Hup.
  { intros p' q' Hin ->. by apply ancestor_neq in Hin. }
  pose proof (config_copy_tail name).
  pose proof (error_specs_copy_tail name).
  pose proof (user_functions_copy_tail name).
  pose proof (main_path_tail name).
  pose proof (config_path_tail name).
  pose proof (functions_path_tail name).
  unfold export_files, export_dirs in *.
  rewrite !elem_of_cons, elem_of_nil in Hp, Hq.
  destruct Hp as [-> | [-> | [-> | [-> | []]]]];
    destruct Hq as [-> | [-> | [-> | [-> | []]]]];
    first [ by eapply tails_differ
          | apply Hup; rewrite ?Hcc, ?Hsc, ?Huc, ?Hm; clear; set_solver ].
Qed.

End export_paths.

(** ** The file system during an export *)

Section export_steps.
Import ExportAssistantDialog.
Implicit Types (d : t) (p q : string) (fs cur : Os.FS).

Lemma is_file_lookup p fs :
  Os.is_file p fs = false ↔ Os.files fs !! p = None.
Proof.
  unfold Os.is_file. rewrite bool_decide_eq_false, <- eq_None_not_Some. done.
Qed.

Lemma is_dir_elem p fs : Os.is_dir p fs = false ↔ p ∉ Os.dirs fs.
Proof. unfold Os.is_dir. by rewrite bool_decide_eq_false. Qed.

Lemma exists_false p fs :
  Os.exists_ p fs = false ↔ (p ∉ Os.dirs fs) ∧ Os.files fs !! p = None.
Proof.
  unfold Os.exists_. by rewrite orb_false_iff, is_dir_elem, is_file_lookup.
Qed.

Lemma blocked_none chain fs :
  Forall (λ q, Os.is_file q fs = false) chain → Os.blocked chain fs = None.
Proof.
  induction 1 as [|q chain Hq _ IH]; [done |]. cbn [Os.blocked]. by rewrite Hq.
Qed.

(** With no regular file in their way the two directories are made. *)
Lemma makedirs_export name fs :
  Os.is_name name = true →
  Forall (λ q, Os.is_file q fs = false) (export_dirs name) →
  ∃ fs1,
    Os.makedirs (config_path name) fs = inl fs1 ∧
    Os.makedirs (functions_path name) fs1 = inl (made name fs).
Proof.
  intros Hname Hfree.
  destruct (export_paths name Hname) as (Hc & Hf & _).
  rewrite Forall_forall in Hfree.
  assert (Os.is_file "export" fs = false) as H1
    by (apply Hfree; unfold export_dirs; set_solver).
  assert (Os.is_file (export_path name) fs = false) as H2
    by (apply Hfree; unfold export_dirs; set_solver).
  assert (Os.is_file (config_path name) fs = false) as H3
    by (apply Hfree; unfold export_dirs; set_solver).
  assert (Os.is_file (functions_path name) fs = false) as H4
    by (apply Hfree; unfold export_dirs; set_solver).
  eexists. split.
  - unfold Os.makedirs. rewrite Hc, blocked_none; [done |].
    cbn [app]. by repeat constructor.
  - unfold Os.makedirs. rewrite Hf, blocked_none.
    + unfold made, export_dirs. cbn [Os.dirs Os.files]. do 2 f_equal.
      clear. set_solver.
    + cbn [app]. by repeat constructor.
Qed.

(** What holds of the file system all through an export. *)
Lemma during_export_made name fs : during_export name fs (made name fs).
Proof. by split. Qed.

Lemma during_export_put name fs cur p content :
  p ∈ export_files name →
  during_export name fs cur → during_export name fs (Os.put p content cur).
Proof.
  intros Hp [Hdirs Hfiles]. split; [done |]. intros p' Hp'.
  cbn [Os.put Os.files]. rewrite lookup_insert_ne by (by intros <-).
  by apply Hfiles.
Qed.

Lemma during_export_dir name fs cur q :
  during_export name fs cur → q ∈ export_dirs name → Os.is_dir q cur = true.
Proof.
  intros [Hdirs _] Hq. unfold Os.is_dir. apply bool_decide_eq_true_2.
  rewrite Hdirs. apply elem_of_union_r. by apply elem_of_list_to_set.
Qed.

Lemma during_export_not_file name fs cur q :
  Os.is_name name = true →
  Forall (λ q, Os.is_file q fs = false) (export_dirs name) →
  during_export name fs cur → q ∈ export_dirs name → Os.is_file q cur = false.
Proof.
  intros Hname Hfree [_ Hfiles] Hq. rewrite Forall_forall in Hfree.
  apply is_file_lookup. rewrite Hfiles; [by apply is_file_lookup, Hfree |].
  intros Hp. by apply (copies_not_dirs name q q).
Qed.

Lemma during_export_not_dir name fs cur p :
  Os.is_name name = true →
  Forall (λ p, Os.is_dir p fs = false) (export_files name) →
  during_export name fs cur → p ∈ export_files name → Os.is_dir p cur = false.
Proof.
  intros Hname Hfree [Hdirs _] Hp. rewrite Forall_forall in Hfree.
  apply is_dir_elem. rewrite Hdirs.
  intros [Hin | Hin%elem_of_list_to_set]%elem_of_union.
  - by apply (is_dir_elem p fs); [apply Hfree |].
  - by apply (copies_not_dirs name p p).
Qed.

Lemma during_export_outside name fs cur p :
  during_export name fs cur → ¬ starts_as_export p →
  Os.files cur !! p = Os.files fs !! p ∧ Os.is_dir p cur = Os.is_dir p fs.
Proof.
  intros [Hdirs Hfiles] Hp. split.
  - apply Hfiles. intros Hin. by apply Hp, (export_files_start name).
  - unfold Os.is_dir. apply bool_decide_ext. rewrite Hdirs, elem_of_union.
    split; [| by left]. intros [Hin | Hin%elem_of_list_to_set]; [done |].
    by destruct Hp; apply (export_dirs_start name).
Qed.

(** Writing a file of the export succeeds. *)
Lemma write_bytes_export name fs cur p content :
  Os.is_name name = true → unobstructed name fs →
  during_export name fs cur → p ∈ export_files name →
  Os.write_bytes p content cur = inl (Os.put p content cur).
Proof.
  intros Hname [Hfiles Hdirs] Hcur Hp.
  destruct (export_paths name Hname) as (Hc & Hf & Hm & Hcc & Hsc & Huc).
  assert (∀ q, q ∈ export_dirs name → Os.is_file q cur = false) as Hnot
    by (intros q; by apply (during_export_not_file name fs)).
  assert (∀ q, q ∈ export_dirs name → Os.is_dir q cur = true) as His
    by (intros q; by apply (during_export_dir name fs)).
  unfold Os.write_bytes.
  rewrite (during_export_not_dir name fs cur p) by done.
  destruct (Os.is_file p cur); [done |].
  assert (Os.unreachable p cur = None) as ->; [| done].
  unfold Os.unreachable, export_files, export_dirs in *.
  rewrite !elem_of_cons, elem_of_nil in Hp.
  destruct Hp as [-> | [-> | [-> | [-> | []]]]];
    rewrite ?Hcc, ?Hsc, ?Huc, ?Hm; cbn [existsb forallb];
    rewrite !Hnot, !His by set_solver; done.
Qed.

(** Copying a file from outside the export to a file of the export
    succeeds. *)
Lemma copyfile_export name fs cur src p content :
  Os.is_name name = true → unobstructed name fs →
  during_export name fs cur → p ∈ export_files name →
  ¬ starts_as_export src → Os.files fs !! src = Some content →
  Os.copyfile src p cur = inl (Os.put p content cur).
Proof.
  intros Hname Hfree Hcur Hp Hsrc Hcontent. unfold Os.copyfile.
  destruct (String.eqb_spec src p) as [-> | _].
  { by destruct Hsrc; apply (export_files_start name). }
  cbn [andb]. unfold Os.read_bytes.
  destruct (during_export_outside name fs cur src Hcur Hsrc) as [-> _].
  rewrite Hcontent. by apply (write_bytes_export name fs).
Qed.

(** Reading a file that is not there, in a directory that is no regular
    file, finds no file. *)
Lemma read_bytes_missing dir p fs :
  Os.ancestors p = [dir] → Os.is_file dir fs = false →
  Os.exists_ p fs = false →
  Os.read_bytes p fs = inr (Os.FileNotFoundError p).
Proof.
  intros Hup Hdir [Hnone Hfile]%exists_false. unfold Os.read_bytes.
  rewrite Hfile, Hup. cbn [existsb]. rewrite Hdir.
  by rewrite (proj2 (is_dir_elem p fs)).
Qed.

Lemma during_export_exists name fs cur p :
  during_export name fs cur → ¬ starts_as_export p →
  Os.exists_ p cur = Os.exists_ p fs.
Proof.
  intros Hcur Hp. destruct (during_export_outside name fs cur p Hcur Hp)
    as [Hfiles Hdirs].
  unfold Os.exists_, Os.is_file. by rewrite Hdirs, Hfiles.
Qed.

Lemma during_export_is_file name fs cur p :
  during_export name fs cur → ¬ starts_as_export p →
  Os.is_file p cur = Os.is_file p fs.
Proof.
  intros Hcur Hp. destruct (during_export_outside name fs cur p Hcur Hp)
    as [Hfiles _].
  unfold Os.is_file. by rewrite Hfiles.
Qed.

Lemma config_source_ancestors name :
  Os.is_name name = true → Os.ancestors (config_source name) = ["config"].
Proof.
  intros [Hne Hfree]%is_name_component.
  change (config_source name)
    with ("config" +:+ "/" +:+ (name +:+ "_assistant_config.json")).
  rewrite ancestors_under; [done | done | done |].
  by rewrite contains_app, Hfree.
Qed.

End export_steps.

(** ** What an export does *)

Section exporting_claims.
Import ExportAssistantDialog.
Implicit Types (d : t) (p q : string) (fs cur : Os.FS).

Lemma is_profile_name_name name :
  is_profile_name name = true → Os.is_name name = true.
Proof. by intros [Hname _]%andb_true_iff. Qed.

Lemma in_export_files name :
  config_copy name ∈ export_files name ∧
  error_specs_copy name ∈ export_files name ∧
  user_functions_copy name ∈ export_files name ∧
  main_path name ∈ export_files name.
Proof. unfold export_files. split_and!; set_solver. Qed.

(** What [export_assistant] does once both configuration files are
    there and nothing stands in its way: it makes the copies, and writes
    [main.py] when the template is there. *)
Lemma export_assistant_eq d fs config specs user_functions template :
  Os.is_name (assistant_combo d) = true →
  unobstructed (assistant_combo d) fs →
  Os.files fs !! config_source (assistant_combo d) = Some config →
  Os.files fs !! error_specs_source = Some specs →
  Os.files fs !! "functions/user_functions.py" = user_functions →
  Os.is_dir "functions/user_functions.py" fs = false →
  Os.files fs !! "templates/main_template.py" = template →
  (template = None →
   Os.is_dir "templates/main_template.py" fs = false
   ∧ Os.is_file "templates" fs = false) →
  export_assistant d fs
    = match template with
      | Some template_content =>
          (accept
             (show Qt.Information "Export Successful"
                ("Assistant '" +:+ assistant_combo d
                   +:+ "' exported successfully to '"
                   +:+ export_path (assistant_combo d) +:+ "'.") d),
           exported (assistant_combo d) config specs user_functions
             template_content fs,
           None)
      | None =>
          (show Qt.Critical "Export Failed"
             ("Failed to create main.py: "
                +:+ Os.str (Os.FileNotFoundError "templates/main_template.py"))
             d,
           copied (assistant_combo d) config specs user_functions fs,
           None)
      end.
Proof.
  intros Hname Hfree Hconfig Hspecs Huser Hdir Htemplate Hmissing.
  unfold export_assistant, exported, copied. cbv zeta.
  generalize dependent (assistant_combo d). intros name Hname Hfree Hconfig.
  destruct (makedirs_export name fs Hname (proj1 Hfree)) as (fs1 & -> & ->).
  fold (config_copy name) (error_specs_copy name) (user_functions_copy name).
  change (Os.join "functions" "user_functions.py")
    with "functions/user_functions.py".
  change (Os.join "templates" "main_template.py")
    with "templates/main_template.py".
  destruct (in_export_files name) as (Hin1 & Hin2 & Hin3 & Hin4).
  pose proof (during_export_made name fs) as Hmade.
  rewrite (copyfile_export name fs _ _ _ config);
    [| done | done | done | done | apply config_source_outside | done].
  pose proof (during_export_put name fs _ _ config Hin1 Hmade) as Hcopy1.
  rewrite (copyfile_export name fs _ _ _ specs);
    [| done | done | done | done | apply error_specs_source_outside | done].
  pose proof (during_export_put name fs _ _ specs Hin2 Hcopy1) as Hcopy2.
  rewrite (during_export_exists name fs _ _ Hcopy2 user_functions_outside).
  unfold Os.exists_ at 1. rewrite Hdir. cbn [orb]. unfold Os.is_file at 1.
  rewrite Huser.
  assert (∀ cur,
    during_export name fs cur →
    match
      match Os.read "templates/main_template.py" cur with
      | inl template_content =>
          Os.write (main_path name)
            (PyStr.replace "ASSISTANT_NAME" name template_content) cur
      | inr e => inr e
      end
    with
    | inl fs' =>
        template = Some
          match template with Some template_content => template_content | None => "" end
        ∧ fs' = Os.put (main_path name)
                  (PyStr.replace "ASSISTANT_NAME" name
                     (PyStr.universal_newlines
                        match template with
                        | Some template_content => template_content
                        | None => ""
                        end)) cur
    | inr e =>
        template = None ∧ e = Os.FileNotFoundError "templates/main_template.py"
    end) as Hmain.
  { intros cur Hcur. unfold Os.read, Os.read_bytes.
    destruct (during_export_outside name fs cur "templates/main_template.py"
                Hcur template_outside) as [-> ->].
    rewrite Htemplate. destruct template as [template_content|].
    - unfold Os.write. by rewrite (write_bytes_export name fs).
    - destruct (Hmissing eq_refl) as [-> Htemplates].
      change (Os.ancestors "templates/main_template.py") with ["templates"].
      cbn [existsb].
      by rewrite (during_export_is_file name fs cur "templates" Hcur
                    templates_outside), Htemplates. }
  destruct user_functions as [code|].
  - rewrite bool_decide_eq_true_2 by done.
    rewrite (copyfile_export name fs _ _ _ code);
      [| done | done | done | done | apply user_functions_outside | done].
    pose proof (during_export_put name fs _ _ code Hin3 Hcopy2) as Hcopy3.
    specialize (Hmain _ Hcopy3).
    destruct (match Os.read _ _ with inl _ => _ | inr _ => _ end)
      as [fs' | e]; destruct Hmain as [-> ->]; done.
  - rewrite bool_decide_eq_false_2 by (by intros [? ?]).
    specialize (Hmain _ Hcopy2).
    destruct (match Os.read _ _ with inl _ => _ | inr _ => _ end)
      as [fs' | e]; destruct Hmain as [-> ->]; done.
Qed.

(** C3: for a profile whose name, and with it the name of its
    configuration file, is a file name, on a file system where nothing
    stands in the way of the export and "config" is no regular file: when
    the profile's configuration file or the error specifications do not
    exist, [export_assistant] has made the two
    directories, raises nothing, reports the failed copy and stops; the
    file system is left as the directory creation and, where it came
    first, the copy of the configuration made it, and [main.py] is as it
    was before. *)
Theorem export_without_configuration_stops_before_main_py (d : t) (fs : Os.FS) :
  let assistant_name := assistant_combo d in
  is_profile_name assistant_name = true →
  unobstructed assistant_name fs →
  Os.is_file "config" fs = false →
  Os.is_dir (config_source assistant_name) fs = false →
  Os.exists_ (config_source assistant_name) fs = false
    ∨ Os.exists_ error_specs_source fs = false →
  ∃ missing fs',
    export_assistant d fs
      = (show Qt.Critical "Export Failed"
           ("Failed to copy configuration files: "
              +:+ Os.str (Os.FileNotFoundError missing)) d,
         fs', None) ∧
    (missing = config_source assistant_name ∨ missing = error_specs_source) ∧
    Os.exists_ missing fs = false ∧
    fs' = match Os.files fs !! config_source assistant_name with
          | None => made assistant_name fs
          | Some content =>
              Os.put (config_copy assistant_name) content
                (made assistant_name fs)
          end ∧
    config_path assistant_name ∈ Os.dirs fs' ∧
    functions_path assistant_name ∈ Os.dirs fs' ∧
    Os.dirs fs ⊆ Os.dirs fs' ∧
    Os.files fs' !! main_path assistant_name
      = Os.files fs !! main_path assistant_name.
Proof.
  intros assistant_name Hname%is_profile_name_name Hfree Hconfig Hsource
    Hmissing.
  subst assistant_name. unfold export_assistant. cbv zeta.
  generalize dependent (assistant_combo d).
  intros name Hname Hfree Hsource Hmissing.
  destruct (makedirs_export name fs Hname (proj1 Hfree)) as (fs1 & -> & ->).
  fold (config_copy name) (error_specs_copy name).
  destruct (in_export_files name) as (Hin1 & Hin2 & _).
  pose proof (during_export_made name fs) as Hmade.
  assert (config_path name ∈ Os.dirs (made name fs)
          ∧ functions_path name ∈ Os.dirs (made name fs)
          ∧ Os.dirs fs ⊆ Os.dirs (made name fs)) as Hdirs.
  { unfold made, export_dirs. cbn [Os.dirs]. clear. set_solver. }
  destruct Hdirs as (Hdir1 & Hdir2 & Hdir3).
  destruct (Os.files fs !! config_source name) as [content|] eqn:Hcontent.
  - destruct Hmissing as [[_ Hno]%exists_false | Hspecs]; [congruence |].
    rewrite (copyfile_export name fs _ _ _ content);
      [| done | done | done | done | apply config_source_outside | done].
    pose proof (during_export_put name fs _ _ content Hin1 Hmade) as Hcopy.
    unfold Os.copyfile.
    destruct (String.eqb_spec error_specs_source (error_specs_copy name))
      as [Heq | _].
    { destruct error_specs_source_outside. rewrite Heq.
      by apply (export_files_start name). }
    cbn [andb]. rewrite (read_bytes_missing "config").
    + exists error_specs_source. eexists.
      split_and!; try done; [by right |].
      unfold Os.put, made. cbn [Os.files].
      rewrite lookup_insert_ne; [done | apply copies_differ].
    + reflexivity.
    + by rewrite (during_export_is_file name fs _ _ Hcopy config_outside).
    + by rewrite (during_export_exists name fs _ _ Hcopy
                    error_specs_source_outside).
  - unfold Os.copyfile.
    destruct (String.eqb_spec (config_source name) (config_copy name))
      as [Heq | _].
    { destruct (config_source_outside name). rewrite Heq.
      by apply (export_files_start name). }
    cbn [andb].
    assert (Os.exists_ (config_source name) fs = false) as Hno.
    { apply exists_false. split; [by apply is_dir_elem | done]. }
    rewrite (read_bytes_missing "config").
    + exists (config_source name). eexists.
      split_and!; try done. by left.
    + by apply config_source_ancestors.
    + by rewrite (during_export_is_file name fs _ _ Hmade config_outside).
    + by rewrite (during_export_exists name fs _ _ Hmade
                    (config_source_outside name)).
Qed.

Lemma export_without_configuration_stops_before_main_py_witness :
  ∃ missing fs',
    export_assistant Examples.export_dialog Examples.disk
      = (show Qt.Critical "Export Failed"
           ("Failed to copy configuration files: "
              +:+ Os.str (Os.FileNotFoundError missing)) Examples.export_dialog,
         fs', None) ∧
    (missing = config_source "helper" ∨ missing = error_specs_source) ∧
    Os.exists_ missing Examples.disk = false ∧
    fs' = match Os.files Examples.disk !! config_source "helper" with
          | None => made "helper" Examples.disk
          | Some content =>
              Os.put (config_copy "helper") content (made "helper" Examples.disk)
          end ∧
    config_path "helper" ∈ Os.dirs fs' ∧
    functions_path "helper" ∈ Os.dirs fs' ∧
    Os.dirs Examples.disk ⊆ Os.dirs fs' ∧
    Os.files fs' !! main_path "helper"
      = Os.files Examples.disk !! main_path "helper".
Proof.
  apply (export_without_configuration_stops_before_main_py
           Examples.export_dialog Examples.disk).
  - reflexivity.
  - split; apply (bool_decide_unpack _); vm_compute; exact I.
  - reflexivity.
  - reflexivity.
  - left. reflexivity.
Defined.

(** What the copies leave in their three files, and that they leave
    every other file alone. *)
Lemma copied_files assistant_name config specs user_functions fs :
  let fs' := copied assistant_name config specs user_functions fs in
  Os.files fs' !! config_copy assistant_name = Some config ∧
  Os.files fs' !! error_specs_copy assistant_name = Some specs ∧
  Os.files fs' !! user_functions_copy assistant_name
    = match user_functions with
      | Some code => Some code
      | None => Os.files fs !! user_functions_copy assistant_name
      end ∧
  ∀ p,
    (p ∉ [config_copy assistant_name; error_specs_copy assistant_name;
          user_functions_copy assistant_name]) →
    Os.files fs' !! p = Os.files fs !! p.
Proof.
  destruct (copies_differ assistant_name)
    as (Hcs & Hcu & Hcm & Hsu & Hsm & Hum).
  unfold copied, made, Os.put. cbv zeta.
  destruct user_functions as [code|]; cbn [Os.files]; split_and!;
    try (intros p Hp; rewrite !not_elem_of_cons in Hp;
         destruct Hp as (? & ? & ? & _));
    repeat (rewrite lookup_insert_eq || rewrite lookup_insert_ne by done);
    done.
Qed.

(** What a complete export leaves in its four files, and that it leaves
    every other file alone. *)
Lemma exported_files assistant_name config specs user_functions template fs :
  let fs' := exported assistant_name config specs user_functions template fs in
  Os.files fs' !! config_copy assistant_name = Some config ∧
  Os.files fs' !! error_specs_copy assistant_name = Some specs ∧
  Os.files fs' !! user_functions_copy assistant_name
    = match user_functions with
      | Some code => Some code
      | None => Os.files fs !! user_functions_copy assistant_name
      end ∧
  Os.files fs' !! main_path assistant_name
    = Some (PyStr.replace "ASSISTANT_NAME" assistant_name
              (PyStr.universal_newlines template)) ∧
  ∀ p, p ∉ export_files assistant_name → Os.files fs' !! p = Os.files fs !! p.
Proof.
  destruct (copies_differ assistant_name)
    as (Hcs & Hcu & Hcm & Hsu & Hsm & Hum).
  destruct (copied_files assistant_name config specs user_functions fs)
    as (Hconfig & Hspecs & Huser & Hrest).
  unfold exported, export_files, Os.put. cbv zeta. cbn [Os.files].
  split_and!;
    try (intros p Hp; rewrite !not_elem_of_cons in Hp;
         destruct Hp as (? & ? & ? & ? & _));
    repeat (rewrite lookup_insert_eq || rewrite lookup_insert_ne by done);
    try done.
  apply Hrest. rewrite !not_elem_of_cons.
  split_and!; [done.. | apply not_elem_of_nil].
Qed.

Lemma copied_dirs assistant_name config specs user_functions fs :
  Os.dirs (copied assistant_name config specs user_functions fs)
    = Os.dirs fs ∪ list_to_set (export_dirs assistant_name).
Proof. unfold copied. by destruct user_functions. Qed.

Lemma exported_dirs assistant_name config specs user_functions template fs :
  Os.dirs (exported assistant_name config specs user_functions template fs)
    = Os.dirs fs ∪ list_to_set (export_dirs assistant_name).
Proof. unfold exported. cbn [Os.put Os.dirs]. apply copied_dirs. Qed.

Lemma during_export_copied assistant_name config specs user_functions fs :
  during_export assistant_name fs
    (copied assistant_name config specs user_functions fs).
Proof.
  split; [apply copied_dirs |]. intros p Hp. apply copied_files.
  unfold export_files in Hp. rewrite !not_elem_of_cons in Hp.
  rewrite !not_elem_of_cons. destruct Hp as (? & ? & ? & ? & ?).
  by split_and!.
Qed.

Lemma during_export_exported assistant_name config specs user_functions
    template fs :
  during_export assistant_name fs
    (exported assistant_name config specs user_functions template fs).
Proof. split; [apply exported_dirs | apply exported_files]. Qed.

(** An export over its own result changes nothing. *)
Lemma exported_idemp assistant_name config specs user_functions template fs :
  exported assistant_name config specs user_functions template
    (exported assistant_name config specs user_functions template fs)
    = exported assistant_name config specs user_functions template fs.
Proof.
  unfold exported, copied, made, Os.put. cbv zeta.
  destruct user_functions as [code|]; cbn [Os.dirs Os.files]; f_equal;
    try (clear; set_solver);
    apply map_eq; intros p;
    repeat (rewrite lookup_insert_eq
            || (rewrite lookup_insert_ne by done)
            || match goal with
               | |- context [(<[?k:=_]> _) !! ?p] =>
                   destruct (decide (k = p)) as [->|?]
               end);
    done.
Qed.

Lemma export_dirs_made assistant_name fs fs' :
  Os.dirs fs' = Os.dirs fs ∪ list_to_set (export_dirs assistant_name) →
  config_path assistant_name ∈ Os.dirs fs' ∧
  functions_path assistant_name ∈ Os.dirs fs' ∧
  Os.dirs fs ⊆ Os.dirs fs'.
Proof. intros ->. unfold export_dirs. clear. set_solver. Qed.

(** X11: a complete export.  For a profile whose name is an ASCII file
    name, on a file system where nothing stands in the way of the export,
    with the configuration of the profile, the error specifications and
    an ASCII template in place, [export_assistant] raises nothing, reports
    success and accepts the dialog; the two directories exist, the two
    copies hold what their sources held, [main.py] holds the template,
    read with universal newlines, with every [ASSISTANT_NAME] replaced by
    the name of the profile, the user functions are copied when there
    are any, and no file but these four is written. *)
Theorem complete_export_writes_every_artifact d fs config specs user_functions
    template :
  let assistant_name := assistant_combo d in
  is_profile_name assistant_name = true →
  PyStr.is_ascii assistant_name = true →
  unobstructed assistant_name fs →
  Os.files fs !! config_source assistant_name = Some config →
  Os.files fs !! error_specs_source = Some specs →
  Os.files fs !! "functions/user_functions.py" = user_functions →
  Os.is_dir "functions/user_functions.py" fs = false →
  Os.files fs !! "templates/main_template.py" = Some template →
  PyStr.is_ascii template = true →
  let result := export_assistant d fs in
  let fs' := result.1.2 in
  result.2 = None ∧
  accepted result.1.1 = true ∧
  messages result.1.1
    = messages d
        ++ [Qt.mkMessageBox Qt.Information "Export Successful"
              ("Assistant '" +:+ assistant_name
                 +:+ "' exported successfully to '"
                 +:+ export_path assistant_name +:+ "'.")] ∧
  config_path assistant_name ∈ Os.dirs fs' ∧
  functions_path assistant_name ∈ Os.dirs fs' ∧
  Os.dirs fs ⊆ Os.dirs fs' ∧
  Os.files fs' !! config_copy assistant_name = Some config ∧
  Os.files fs' !! error_specs_copy assistant_name = Some specs ∧
  Os.files fs' !! user_functions_copy assistant_name
    = match user_functions with
      | Some code => Some code
      | None => Os.files fs !! user_functions_copy assistant_name
      end ∧
  Os.files fs' !! main_path assistant_name
    = Some (PyStr.replace "ASSISTANT_NAME" assistant_name
              (PyStr.universal_newlines template)) ∧
  ∀ p, p ∉ export_files assistant_name → Os.files fs' !! p = Os.files fs !! p.
Proof.
  intros assistant_name Hname%is_profile_name_name _ Hfree Hconfig Hspecs
    Huser Hdir Htemplate _ result fs'.
  subst fs' result assistant_name.
  rewrite (export_assistant_eq d fs config specs user_functions
             (Some template)) by done.
  cbn [fst snd].
  destruct (export_dirs_made (assistant_combo d) fs _
              (exported_dirs (assistant_combo d) config specs user_functions
                 template fs)) as (Hdir1 & Hdir2 & Hdir3).
  split_and!; [done | done | done | done | done | done
              | apply exported_files..].
Qed.

Lemma complete_export_writes_every_artifact_witness :
  let result := export_assistant Examples.export_dialog Examples.full_disk in
  let fs' := result.1.2 in
  result.2 = None ∧
  accepted result.1.1 = true ∧
  messages result.1.1
    = messages Examples.export_dialog
        ++ [Qt.mkMessageBox Qt.Information "Export Successful"
              ("Assistant '" +:+ "helper"
                 +:+ "' exported successfully to '"
                 +:+ export_path "helper" +:+ "'.")] ∧
  config_path "helper" ∈ Os.dirs fs' ∧
  functions_path "helper" ∈ Os.dirs fs' ∧
  Os.dirs Examples.full_disk ⊆ Os.dirs fs' ∧
  Os.files fs' !! config_copy "helper" = Some "{name: helper}" ∧
  Os.files fs' !! error_specs_copy "helper" = Some "{}" ∧
  Os.files fs' !! user_functions_copy "helper" = Some "def f(): pass" ∧
  Os.files fs' !! main_path "helper" = Some ("run('helper')" +:+ PyStr.LF) ∧
  ∀ p, p ∉ export_files "helper" →
       Os.files fs' !! p = Os.files Examples.full_disk !! p.
Proof.
  apply (complete_export_writes_every_artifact Examples.export_dialog
           Examples.full_disk "{name: helper}" "{}" (Some "def f(): pass")
           Examples.main_template).
  - reflexivity.
  - reflexivity.
  - split; apply (bool_decide_unpack _); vm_compute; exact I.
  - vm_compute. reflexivity.
  - vm_compute. reflexivity.
  - vm_compute. reflexivity.
  - reflexivity.
  - vm_compute. reflexivity.
  - reflexivity.
Defined.

(** What holds of the file system before an export holds of it after a
    complete one. *)
Lemma exported_unobstructed name config specs user_functions template fs :
  Os.is_name name = true → unobstructed name fs →
  unobstructed name (exported name config specs user_functions template fs).
Proof.
  intros Hname [Hfiles Hdirs].
  pose proof (during_export_exported name config specs user_functions
                template fs) as Hcur.
  split; apply Forall_forall; intros p Hp.
  - by apply (during_export_not_file name fs).
  - by apply (during_export_not_dir name fs).
Qed.

(** X12: exporting the same profile again right after a complete export
    succeeds again and leaves the file system exactly as the first export
    left it: the directories that exist already are no error, and every
    file is written with what it holds. *)
Theorem second_export_changes_nothing d d' fs config specs user_functions
    template :
  let assistant_name := assistant_combo d in
  is_profile_name assistant_name = true →
  PyStr.is_ascii assistant_name = true →
  unobstructed assistant_name fs →
  Os.files fs !! config_source assistant_name = Some config →
  Os.files fs !! error_specs_source = Some specs →
  Os.files fs !! "functions/user_functions.py" = user_functions →
  Os.is_dir "functions/user_functions.py" fs = false →
  Os.files fs !! "templates/main_template.py" = Some template →
  PyStr.is_ascii template = true →
  assistant_combo d' = assistant_name →
  let first := export_assistant d fs in
  let second := export_assistant d' first.1.2 in
  first.2 = None ∧
  accepted first.1.1 = true ∧
  second.2 = None ∧
  accepted second.1.1 = true ∧
  second.1.2 = first.1.2.
Proof.
  intros assistant_name Hname%is_profile_name_name _ Hfree Hconfig Hspecs
    Huser Hdir Htemplate _ Hsame first second.
  subst second first assistant_name.
  rewrite (export_assistant_eq d fs config specs user_functions
             (Some template)) by done.
  cbn [fst snd].
  pose proof (during_export_exported (assistant_combo d) config specs
                user_functions template fs) as Hcur.
  assert (∀ p, ¬ starts_as_export p →
            Os.files (exported (assistant_combo d) config specs user_functions
                        template fs) !! p = Os.files fs !! p) as Houtside.
  { intros p Hp. by apply (during_export_outside (assistant_combo d) fs). }
  rewrite (export_assistant_eq d' _ config specs user_functions
             (Some template)).
  - cbn [fst snd]. rewrite Hsame. split_and!; try done.
    apply exported_idemp.
  - by rewrite Hsame.
  - rewrite Hsame. by apply exported_unobstructed.
  - rewrite Hsame, Houtside; [done | apply config_source_outside].
  - rewrite Houtside; [done | apply error_specs_source_outside].
  - rewrite Houtside; [done | apply user_functions_outside].
  - by rewrite (proj2 (during_export_outside (assistant_combo d) fs _ _ Hcur
                         user_functions_outside)).
  - rewrite Houtside; [done | apply template_outside].
  - done.
Qed.

Lemma second_export_changes_nothing_witness :
  let first := export_assistant Examples.export_dialog Examples.full_disk in
  let second := export_assistant Examples.export_dialog first.1.2 in
  first.2 = None ∧
  accepted first.1.1 = true ∧
  second.2 = None ∧
  accepted second.1.1 = true ∧
  second.1.2 = first.1.2.
Proof.
  apply (second_export_changes_nothing Examples.export_dialog
           Examples.export_dialog Examples.full_disk "{name: helper}" "{}"
           (Some "def f(): pass") Examples.main_template).
  - reflexivity.
  - reflexivity.
  - split; apply (bool_decide_unpack _); vm_compute; exact I.
  - vm_compute. reflexivity.
  - vm_compute. reflexivity.
  - vm_compute. reflexivity.
  - reflexivity.
  - vm_compute. reflexivity.
  - reflexivity.
  - reflexivity.
Defined.

(** X13: an export that finds no template stops after the copies.  For
    a profile whose name is a file name, on a file system where nothing
    stands in the way of the export, with both configuration files in
    place, no template and no regular file "templates",
    [export_assistant] raises nothing, reports that [main.py] could not
    be made and does not accept the dialog; the copies made before stay
    on disk, and [main.py] and every other file are as they were. *)
Theorem export_without_template_keeps_copies d fs config specs user_functions :
  let assistant_name := assistant_combo d in
  is_profile_name assistant_name = true →
  unobstructed assistant_name fs →
  Os.files fs !! config_source assistant_name = Some config →
  Os.files fs !! error_specs_source = Some specs →
  Os.files fs !! "functions/user_functions.py" = user_functions →
  Os.is_dir "functions/user_functions.py" fs = false →
  Os.exists_ "templates/main_template.py" fs = false →
  Os.is_file "templates" fs = false →
  let result := export_assistant d fs in
  let fs' := result.1.2 in
  result.2 = None ∧
  accepted result.1.1 = accepted d ∧
  messages result.1.1
    = messages d
        ++ [Qt.mkMessageBox Qt.Critical "Export Failed"
              ("Failed to create main.py: [Errno 2] No such file or directory: "
                 +:+ "'templates/main_template.py'")] ∧
  Os.files fs' !! config_copy assistant_name = Some config ∧
  Os.files fs' !! error_specs_copy assistant_name = Some specs ∧
  Os.files fs' !! user_functions_copy assistant_name
    = match user_functions with
      | Some code => Some code
      | None => Os.files fs !! user_functions_copy assistant_name
      end ∧
  ∀ p,
    (p ∉ [config_copy assistant_name; error_specs_copy assistant_name;
          user_functions_copy assistant_name]) →
    Os.files fs' !! p = Os.files fs !! p.
Proof.
  intros assistant_name Hname%is_profile_name_name Hfree Hconfig Hspecs Huser
    Hdir [Htemplate Hnone]%exists_false Htemplates result fs'.
  subst fs' result assistant_name.
  rewrite (export_assistant_eq d fs config specs user_functions None);
    [| done.. |].
  - cbn [fst snd]. split_and!; [done | done | done | apply copied_files..].
  - intros _. split; [by apply is_dir_elem | done].
Qed.

Lemma export_without_template_keeps_copies_witness :
  let result := export_assistant Examples.export_dialog Examples.bare_disk in
  let fs' := result.1.2 in
  result.2 = None ∧
  accepted result.1.1 = accepted Examples.export_dialog ∧
  messages result.1.1
    = messages Examples.export_dialog
        ++ [Qt.mkMessageBox Qt.Critical "Export Failed"
              ("Failed to create main.py: [Errno 2] No such file or directory: "
                 +:+ "'templates/main_template.py'")] ∧
  Os.files fs' !! config_copy "helper" = Some "{name: helper}" ∧
  Os.files fs' !! error_specs_copy "helper" = Some "{}" ∧
  Os.files fs' !! user_functions_copy "helper"
    = Os.files Examples.bare_disk !! user_functions_copy "helper" ∧
  ∀ p,
    (p ∉ [config_copy "helper"; error_specs_copy "helper";
          user_functions_copy "helper"]) →
    Os.files fs' !! p = Os.files Examples.bare_disk !! p.
Proof.
  apply (export_without_template_keeps_copies Examples.export_dialog
           Examples.bare_disk "{name: helper}" "{}" None).
  - reflexivity.
  - split; apply (bool_decide_unpack _); vm_compute; exact I.
  - vm_compute. reflexivity.
  - vm_compute. reflexivity.
  - vm_compute. reflexivity.
  - reflexivity.
  - reflexivity.
  - reflexivity.
Defined.

End exporting_claims.

Ltac read_fields_in H :=
  cbn [AssistantConfigDialog.set_knowledge_files_dict
    AssistantConfigDialog.set_selected_functions
    AssistantConfigDialog.set_code_interpreter
    AssistantConfigDialog.set_knowledge_retrieval
    AssistantConfigDialog.set_checkBoxes
    AssistantConfigDialog.set_assistant_id
    AssistantConfigDialog.set_currentHypothesis
    AssistantConfigDialog.set_assistantComboBox
    AssistantConfigDialog.set_nameEdit
    AssistantConfigDialog.set_instructionsEdit
    AssistantConfigDialog.set_modelComboBox
    AssistantConfigDialog.set_outputFolderPathEdit
    AssistantConfigDialog.set_knowledgeFileList
    AssistantConfigDialog.set_knowledgeRetrievalCheckBox
    AssistantConfigDialog.set_codeInterpreterCheckBox
    AssistantConfigDialog.set_newInstructionsEdit
    AssistantConfigDialog.set_is_create
    AssistantConfigDialog.set_assistant_config
    AssistantConfigDialog.set_assistant_config_json
    AssistantConfigDialog.set_messages AssistantConfigDialog.set_accepted
    AssistantConfigDialog.assistant_type
    AssistantConfigDialog.function_config_manager
    AssistantConfigDialog.knowledge_files_dict
    AssistantConfigDialog.selected_functions
    AssistantConfigDialog.code_interpreter
    AssistantConfigDialog.knowledge_retrieval
    AssistantConfigDialog.checkBoxes AssistantConfigDialog.assistant_id
    AssistantConfigDialog.default_output_folder_path
    AssistantConfigDialog.currentHypothesis
    AssistantConfigDialog.aiClientComboBox
    AssistantConfigDialog.assistantComboBox AssistantConfigDialog.nameEdit
    AssistantConfigDialog.instructionsEdit
    AssistantConfigDialog.modelComboBox
    AssistantConfigDialog.outputFolderPathEdit
    AssistantConfigDialog.knowledgeFileList
    AssistantConfigDialog.knowledgeRetrievalCheckBox
    AssistantConfigDialog.codeInterpreterCheckBox
    AssistantConfigDialog.newInstructionsEdit
    AssistantConfigDialog.is_create AssistantConfigDialog.assistant_config
    AssistantConfigDialog.assistant_config_json
    AssistantConfigDialog.messages AssistantConfigDialog.accepted] in H.

(** * Further properties of the dictation *)

Section dictation_more.
Import AssistantConfigDialog.
Implicit Types (d : t) (text : string).

Lemma substring_none n s : String.substring n 0 s = "".
Proof.
  revert n. induction s as [|c s IH]; intros [|n]; simpl; try done.
Qed.

(** With the cursor at the end, [insertPlainText] appends and leaves the
    cursor at the end. *)
Lemma insertPlainText_at_end text e :
  Qt.position e = String.length (Qt.toPlainText e) →
  Qt.insertPlainText text e
    = Qt.mkTextEdit (Qt.toPlainText e +:+ text)
        (String.length (Qt.toPlainText e +:+ text)).
Proof.
  intros Hend. unfold Qt.insertPlainText, PyStr.slice. rewrite Hend.
  rewrite Nat.min_id, Nat.sub_0_r, Nat.sub_diag, substring_all, substring_none.
  by rewrite app_empty_r, length_app_str.
Qed.

(** Partial results that follow a pending hypothesis at the end of the
    buffer each take its place. *)
Lemma partials_replace_trailing partials d confirmed :
  Forall (λ text, text ≠ "") partials →
  currentHypothesis d ≠ "" →
  buffer d = confirmed +:+ currentHypothesis d →
  let d' := foldl (λ d text, on_user_input text d) d partials in
  currentHypothesis d' ≠ "" ∧ buffer d' = confirmed +:+ currentHypothesis d'.
Proof.
  intros Hall. revert d.
  induction Hall as [|text partials Htext Hall IH]; intros d Hpending Hbuffer;
    [done |].
  cbn [foldl]. apply IH.
  - by rewrite on_user_input_hypothesis.
  - rewrite on_user_input_hypothesis.
    by apply on_user_input_replaces_trailing.
Qed.

(** X1: one utterance, dictated with the cursor at the end of the buffer
    and nothing pending, adds its final text and a line break to the
    buffer, whatever the partial results were, and leaves the dialog ready
    for the next utterance. *)
Theorem utterance_adds_line partials final d :
  partials ≠ [] →
  Forall (λ text, text ≠ "") partials →
  currentHypothesis d = "" →
  Qt.position (newInstructionsEdit d) = String.length (buffer d) →
  buffer (utterance partials final d) = buffer d +:+ final +:+ PyStr.LF ∧
  currentHypothesis (utterance partials final d) = "" ∧
  Qt.position (newInstructionsEdit (utterance partials final d))
    = String.length (buffer (utterance partials final d)).
Proof.
  intros Hsome Hall Hnone Hend. split; [| done].
  destruct partials as [|text partials]; [done |].
  apply Forall_cons in Hall as [Htext Hall].
  unfold utterance. cbn [foldl].
  destruct (partials_replace_trailing partials (on_user_input text d) (buffer d))
    as [Hpending Hbuffer]; [done | by rewrite on_user_input_hypothesis | |].
  { rewrite on_user_input_hypothesis, on_user_input_fresh by done.
    by rewrite insertPlainText_at_end. }
  eapply on_user_input_complete_cuts; [done |].
  rewrite Hbuffer. by apply last_occurrence_suffix.
Qed.

Lemma utterance_adds_line_witness :
  ["be"; "be kind"] ≠ [] ∧
  Forall (λ text, text ≠ "") ["be"; "be kind"] ∧
  currentHypothesis Examples.ready = "" ∧
  Qt.position (newInstructionsEdit Examples.ready)
    = String.length (buffer Examples.ready) ∧
  buffer (utterance ["be"; "be kind"] "Be kind." Examples.ready)
    = "Be brief.Be kind." +:+ PyStr.LF ∧
  currentHypothesis (utterance ["be"; "be kind"] "Be kind." Examples.ready) = "" ∧
  Qt.position (newInstructionsEdit
                 (utterance ["be"; "be kind"] "Be kind." Examples.ready))
    = String.length (buffer (utterance ["be"; "be kind"] "Be kind." Examples.ready)).
Proof.
  assert (Forall (λ text, text ≠ "") ["be"; "be kind"]) as Hall
    by (by repeat constructor).
  split_and!; [done | exact Hall | reflexivity | reflexivity |..];
    apply (utterance_adds_line ["be"; "be kind"] "Be kind." Examples.ready);
    done.
Defined.

(** X2: a pending hypothesis is cut out of the buffer together with what
    stands after its last occurrence: both slots keep what stands before
    it and put the new text there. *)
Theorem pending_hypothesis_cuts_buffer text d before after :
  currentHypothesis d ≠ "" →
  PyStr.last_occurrence (currentHypothesis d) (buffer d) before after →
  buffer (on_user_input text d) = before +:+ text ∧
  buffer (on_user_input_complete text d) = before +:+ text +:+ PyStr.LF.
Proof.
  intros Hpending Hlast. split.
  - by eapply on_user_input_cuts.
  - by eapply on_user_input_complete_cuts.
Qed.

Lemma pending_hypothesis_cuts_buffer_witness :
  currentHypothesis (on_user_input "ab" Examples.typed) ≠ "" ∧
  PyStr.last_occurrence (currentHypothesis (on_user_input "ab" Examples.typed))
    (buffer (on_user_input "ab" Examples.typed)) "" "Be brief." ∧
  buffer (on_user_input "abc" (on_user_input "ab" Examples.typed)) = "abc" ∧
  buffer (on_user_input_complete "abc" (on_user_input "ab" Examples.typed))
    = "abc" +:+ PyStr.LF.
Proof.
  assert (PyStr.last_occurrence "ab" "abBe brief." "" "Be brief.") as Hlast
    by (by apply last_occurrence_rfind).
  split; [done |]. split; [exact Hlast |].
  apply (pending_hypothesis_cuts_buffer "abc" (on_user_input "ab" Examples.typed)
           "" "Be brief."); [done | exact Hlast].
Defined.

End dictation_more.

(** * Further properties of the function selection *)

Section selection_more.
Import AssistantConfigDialog.
Implicit Types (d : t) (function_configs : FunctionConfigs).

Lemma filter_all {A} (P : A → Prop) `{∀ x, Decision (P x)} (l : list A) :
  (∀ x, x ∈ l → P x) → filter P l = l.
Proof.
  induction l as [|x l IH]; intros Hall; [done |].
  rewrite filter_cons, decide_True by (apply Hall; apply list_elem_of_here).
  f_equal. apply IH. intros y Hy. apply Hall. by apply list_elem_of_further.
Qed.

(** X3: checking a box and unchecking it again gives back the selection as
    it was, provided no stored specification carries the name of the
    function. *)
Theorem select_then_deselect_restores functionConfig d :
  FunctionConfig.name functionConfig ∉ names (selected_functions d) →
  selected_functions
    (handle_function_selection Qt.Unchecked functionConfig
       (handle_function_selection Qt.Checked functionConfig d))
    = selected_functions d.
Proof.
  intros Hfresh. rewrite handle_checked. unfold handle_function_selection.
  rewrite !selected_functions_set, filter_app.
  rewrite filter_cons, decide_False, filter_nil, app_nil_r by (by intros Hne).
  apply filter_all. intros spec Hspec Hname. apply Hfresh.
  rewrite <- Hname. by apply list_elem_of_fmap_2.
Qed.

Lemma select_then_deselect_restores_witness :
  (FunctionConfig.name Examples.find_files
     ∉ names (selected_functions (click_checkBox "system" 0 Examples.fresh))) ∧
  selected_functions
    (handle_function_selection Qt.Unchecked Examples.find_files
       (handle_function_selection Qt.Checked Examples.find_files
          (click_checkBox "system" 0 Examples.fresh)))
    = [FunctionConfig.get_full_spec Examples.get_weather].
Proof.
  assert (FunctionConfig.name Examples.find_files
            ∉ names (selected_functions (click_checkBox "system" 0 Examples.fresh)))
    as Hfresh.
  { intros Hin. apply (bool_decide_pack _) in Hin. by vm_compute in Hin. }
  split; [exact Hfresh |].
  exact (select_then_deselect_restores Examples.find_files
           (click_checkBox "system" 0 Examples.fresh) Hfresh).
Defined.

(** Unchecking removes every stored specification of that name and keeps
    the others in their order. *)
Lemma deselect_removes_name functionConfig d :
  (FunctionConfig.name functionConfig
     ∉ names (selected_functions
                (handle_function_selection Qt.Unchecked functionConfig d))) ∧
  ∀ spec,
    FunctionConfig.function_name spec ≠ FunctionConfig.name functionConfig →
    (spec ∈ selected_functions
              (handle_function_selection Qt.Unchecked functionConfig d)
     ↔ spec ∈ selected_functions d).
Proof.
  unfold handle_function_selection. rewrite selected_functions_set. split.
  - intros (spec & Hname & Hspec)%list_elem_of_fmap.
    apply list_elem_of_filter in Hspec as [Hne _]. by apply Hne.
  - intros spec Hne. rewrite list_elem_of_filter. tauto.
Qed.

End selection_more.

(** * Further properties of saving and loading *)

Section loading_more.
Import AssistantConfigDialog.
Implicit Types (d : t) (manager : AssistantConfigManager).
Implicit Types (function_configs : FunctionConfigs).

(** When [pre_select_functions] raises: only with a stored function and
    no function configuration manager, or with no profile loaded. *)
Lemma pre_select_loop_error funcs d :
  (pre_select_loop funcs d).2
    = match funcs, function_config_manager d with
      | _ :: _, None => Some (AttributeError "get_function_configs")
      | _, _ => None
      end.
Proof.
  revert d. induction funcs as [|func funcs IH]; intros d; [done |].
  cbn [pre_select_loop].
  destruct (function_config_manager d) as [function_configs|] eqn:Hmanager;
    [| done].
  rewrite IH.
  rewrite (selection_differs_manager d _
             (select_in_sections_differs _ function_configs d)), Hmanager.
  by destruct funcs.
Qed.

Lemma pre_select_loop_stops funcs d :
  function_config_manager d = None → (pre_select_loop funcs d).1 = d.
Proof. intros Hnone. destruct funcs; cbn [pre_select_loop]; by rewrite ?Hnone. Qed.

Lemma index_of_lookup s l i : Qt.index_of s l = Some i → l !! i = Some s.
Proof.
  revert i. induction l as [|x l IH]; intros i; [done |].
  cbn [Qt.index_of]. destruct (String.eqb_spec x s) as [->|_].
  - by intros [= <-].
  - destruct (Qt.index_of s l) as [j|]; [| done]. intros [= <-]. by apply IH.
Qed.

(** The model box shows the stored model once [pre_load_assistant_config]
    has selected it, listed or not. *)
Lemma select_model_text model c :
  Qt.currentText (select_model model c) = model.
Proof.
  unfold select_model, Qt.findText.
  destruct (Qt.index_of model (Qt.items c)) as [i|] eqn:Hindex.
  - unfold Qt.setCurrentIndex. by rewrite (index_of_lookup _ _ _ Hindex).
  - unfold Qt.addItem, Qt.count, Qt.setCurrentIndex.
    destruct (Qt.items c) as [|x items] eqn:Hitems.
    + by destruct (Qt.currentIndex c).
    + cbn [Qt.items]. rewrite (list_lookup_middle (x :: items) [] model);
        [done |]. rewrite length_app. cbn [length]. lia.
Qed.

(** The knowledge-file loop rebuilds the stored dict. *)
Lemma insert_all_lookup items files path :
  NoDup items.*1 →
  insert_all items files !! path
    = match list_to_map (M := gmap string (option string)) items !! path with
      | Some file_id => Some file_id
      | None => files !! path
      end.
Proof.
  revert files. induction items as [|[file_path file_id] items IH];
    intros files Hnodup; [done |].
  rewrite fmap_cons in Hnodup. apply NoDup_cons in Hnodup as [Hfresh Hnodup].
  unfold insert_all. cbn [foldl fst snd]. fold (insert_all items (<[file_path:=file_id]> files)).
  rewrite IH by done. cbn [list_to_map foldr]. fold (list_to_map (M := gmap string (option string)) items).
  destruct (decide (path = file_path)) as [->|Hne].
  - rewrite (not_elem_of_list_to_map_1 (M := gmap string) _ file_path Hfresh).
    by rewrite !lookup_insert_eq.
  - by rewrite !lookup_insert_ne.
Qed.

Lemma insert_all_map_to_list (files : gmap string (option string)) :
  insert_all (map_to_list files) ∅ = files.
Proof.
  apply map_eq. intros path.
  rewrite insert_all_lookup by apply NoDup_fst_map_to_list.
  rewrite list_to_map_to_list, lookup_empty. by destruct (files !! path).
Qed.

(** [pre_load_assistant_config] on a profile the manager knows: whether
    it raises, and the form it leaves. *)
Lemma pre_load_assistant_config_result manager name d config :
  manager !! name = Some config →
  let result := pre_load_assistant_config manager name d in
  let raises :=
    match AssistantConfig.selected_functions config, function_config_manager d with
    | _ :: _, None => true
    | _, _ => false
    end in
  result.2 = (if raises then Some (AttributeError "get_function_configs") else None) ∧
  assistant_config result.1 = Some config ∧
  is_create result.1 = is_create d ∧
  nameEdit result.1 = AssistantConfig.name config ∧
  instructionsEdit result.1 = AssistantConfig.instructions config ∧
  modelComboBox result.1 = select_model (AssistantConfig.model config) (modelComboBox d) ∧
  assistant_id result.1 = AssistantConfig.assistant_id config ∧
  knowledge_files_dict result.1
    = insert_all (map_to_list (AssistantConfig.knowledge_files config))
        (knowledge_files_dict d) ∧
  if raises
  then selected_functions result.1 = selected_functions d ∧
       knowledge_retrieval result.1 = knowledge_retrieval d ∧
       code_interpreter result.1 = code_interpreter d ∧
       outputFolderPathEdit result.1 = outputFolderPathEdit d
  else knowledge_retrieval result.1 = AssistantConfig.knowledge_retrieval config ∧
       knowledgeRetrievalCheckBox result.1
         = AssistantConfig.knowledge_retrieval config ∧
       code_interpreter result.1 = AssistantConfig.code_interpreter config ∧
       outputFolderPathEdit result.1
         = if PyStr.truthy (AssistantConfig.output_folder_path config)
           then AssistantConfig.output_folder_path config
           else outputFolderPathEdit d.
Proof.
  intros Hknown result raises. subst result raises.
  unfold pre_load_assistant_config. cbv zeta.
  change (assistant_config (set_assistant_config ?c _)) with c.
  rewrite Hknown, load_knowledge_files_eq. unfold pre_select_functions.
  read_fields.
  match goal with
  | |- context [pre_select_loop ?funcs ?d1] =>
      pose proof (pre_select_loop_error funcs d1) as Herror;
      pose proof (pre_select_loop_differs funcs d1) as Hdiffers;
      pose proof (pre_select_loop_stops funcs d1) as Hstops;
      read_fields_in Herror; read_fields_in Hstops;
      destruct (pre_select_loop funcs d1) as [d2 e]
  end.
  cbn [fst snd] in Herror, Hdiffers, Hstops. subst e.
  destruct (AssistantConfig.selected_functions config) as [|func funcs];
    destruct (function_config_manager d) as [function_configs|].
  4: { rewrite Hstops by done. cbn [fst snd]. read_fields. by split_and!. }
  all: clear Hstops; cbn [fst snd]; rewrite Hdiffers;
    unfold knowledgeRetrievalCheckBox_setChecked, codeInterpreterCheckBox_setChecked;
    read_fields;
    destruct (Bool.eqb (knowledgeRetrievalCheckBox d)
                (AssistantConfig.knowledge_retrieval config)) eqn:Hbox;
    [apply Bool.eqb_prop in Hbox |];
    read_fields;
    destruct (String.eqb (assistant_type d) "assistant");
    read_fields;
    try destruct (Bool.eqb (codeInterpreterCheckBox d)
                    (AssistantConfig.code_interpreter config));
    destruct (PyStr.truthy (AssistantConfig.output_folder_path config));
    read_fields; by split_and!.
Qed.

(** What [assistant_selection_changed] hands to
    [pre_load_assistant_config]: the form [reset_fields] leaves. *)
Lemma reset_fields_read d :
  let r := set_is_create false (reset_fields d) in
  assistantComboBox (reset_fields d) = assistantComboBox d ∧
  function_config_manager r = function_config_manager d ∧
  knowledge_files_dict r = ∅ ∧
  outputFolderPathEdit r = "" ∧
  selected_functions r = [] ∧
  knowledge_retrieval r = false ∧
  code_interpreter r = false ∧
  is_create r = false ∧
  aiClientComboBox r = aiClientComboBox d ∧
  assistant_type r = assistant_type d ∧
  Qt.items (modelComboBox r) = Qt.items (modelComboBox d) ∧
  assistant_config_json r = assistant_config_json d.
Proof. cbv zeta. rewrite reset_fields_eq. read_fields. split_and!; try done.
  unfold Qt.setCurrentIndex. by case_match.
Qed.

(** X5: loading a stored profile and saving it at once writes the profile
    back: picking a profile the manager knows, whose three required fields
    are filled in and whose instructions are text the instructions box
    keeps as it is set, in a dialog that can look its functions up, raises
    nothing, and [save_configuration] then accepts the dialog with a
    document that repeats the name, the instructions, the model, the
    assistant id, the knowledge files with their ids, the two tool flags
    and the output folder of the stored profile. *)
Theorem load_then_save_round_trip manager d config :
  assistantComboBox d ≠ "New Assistant" →
  assistantComboBox d ≠ "" →
  manager !! assistantComboBox d = Some config →
  AssistantConfig.selected_functions config = []
    ∨ is_Some (function_config_manager d) →
  AssistantConfig.name config ≠ "" →
  AssistantConfig.instructions config ≠ "" →
  Qt.keeps_text (AssistantConfig.instructions config) = true →
  AssistantConfig.model config ≠ "" →
  let loaded := assistant_selection_changed manager d in
  loaded.2 = None ∧
  accepted (save_configuration loaded.1) = true ∧
  ∃ saved,
    assistant_config_json (save_configuration loaded.1) = Some saved ∧
    AssistantConfig.name saved = AssistantConfig.name config ∧
    AssistantConfig.instructions saved = AssistantConfig.instructions config ∧
    AssistantConfig.model saved = AssistantConfig.model config ∧
    AssistantConfig.assistant_id saved = AssistantConfig.assistant_id config ∧
    AssistantConfig.knowledge_files saved = AssistantConfig.knowledge_files config ∧
    AssistantConfig.knowledge_retrieval saved
      = AssistantConfig.knowledge_retrieval config ∧
    AssistantConfig.code_interpreter saved
      = AssistantConfig.code_interpreter config ∧
    AssistantConfig.output_folder_path saved
      = AssistantConfig.output_folder_path config.
Proof.
  intros Hnew%String.eqb_neq Hempty%String.eqb_neq Hknown Hmanager
    Hname Hinstructions _ Hmodel loaded. subst loaded.
  unfold assistant_selection_changed. cbv zeta.
  destruct (reset_fields_read d)
    as (Hbox & Hconfigs & Hfiles & Hfolder & _ & _ & _ & Hcreate & _).
  rewrite Hbox, Hnew, Hempty. cbn [negb].
  destruct (pre_load_assistant_config_result manager (assistantComboBox d)
              (set_is_create false (reset_fields d)) config Hknown)
    as (Herror & _ & Hcreate' & Hname' & Hinstructions' & Hmodel' & Hid
        & Hfiles' & Hrest).
  rewrite Hconfigs in Herror, Hrest.
  assert (match AssistantConfig.selected_functions config,
                function_config_manager d with
          | _ :: _, None => true
          | _, _ => false
          end = false) as Hraises.
  { destruct Hmanager as [-> | [function_configs ->]]; [done |].
    by destruct (AssistantConfig.selected_functions config). }
  rewrite Hraises in Herror, Hrest.
  destruct Hrest as (Hretrieval & _ & Hinterpreter & Hfolder').
  remember (pre_load_assistant_config manager (assistantComboBox d)
              (set_is_create false (reset_fields d))) as result eqn:Hresult.
  clear Hresult. destruct result as [d' e]. cbn [fst snd] in *.
  split; [done |].
  destruct (save_with_required_fields d') as [Hsaved Haccepted].
  { by rewrite Hname'. }
  { by rewrite Hinstructions'. }
  { by rewrite Hmodel', select_model_text. }
  split; [done |]. exists (config_of d'). split; [done |].
  unfold config_of. cbn [AssistantConfig.name AssistantConfig.instructions
    AssistantConfig.model AssistantConfig.assistant_id
    AssistantConfig.knowledge_files AssistantConfig.knowledge_retrieval
    AssistantConfig.code_interpreter AssistantConfig.output_folder_path].
  rewrite Hcreate', Hcreate, Hmodel', select_model_text, Hfiles', Hfiles,
    insert_all_map_to_list, Hfolder', Hfolder.
  split_and!; try done.
  unfold PyStr.truthy.
  by destruct (String.eqb_spec (AssistantConfig.output_folder_path config) "").
Qed.

Lemma load_then_save_round_trip_witness :
  let loaded := assistant_selection_changed Examples.manager Examples.picking in
  loaded.2 = None ∧
  accepted (save_configuration loaded.1) = true ∧
  ∃ saved,
    assistant_config_json (save_configuration loaded.1) = Some saved ∧
    AssistantConfig.name saved = AssistantConfig.name Examples.helper ∧
    AssistantConfig.instructions saved
      = AssistantConfig.instructions Examples.helper ∧
    AssistantConfig.model saved = AssistantConfig.model Examples.helper ∧
    AssistantConfig.assistant_id saved
      = AssistantConfig.assistant_id Examples.helper ∧
    AssistantConfig.knowledge_files saved
      = AssistantConfig.knowledge_files Examples.helper ∧
    AssistantConfig.knowledge_retrieval saved
      = AssistantConfig.knowledge_retrieval Examples.helper ∧
    AssistantConfig.code_interpreter saved
      = AssistantConfig.code_interpreter Examples.helper ∧
    AssistantConfig.output_folder_path saved
      = AssistantConfig.output_folder_path Examples.helper.
Proof.
  apply (load_then_save_round_trip Examples.manager Examples.picking
           Examples.helper); try done.
  right. by eexists.
Defined.

(** X6: a dialog made without a function configuration manager cannot load
    a profile that stores a function: [pre_select_functions] raises
    [AttributeError] on the missing manager, after the name, the model and
    the knowledge files were filled in and before the tool flags and the
    output folder are, which stay as [reset_fields] left them. *)
Theorem load_without_function_manager_stops manager d config :
  assistantComboBox d ≠ "New Assistant" →
  assistantComboBox d ≠ "" →
  manager !! assistantComboBox d = Some config →
  function_config_manager d = None →
  AssistantConfig.selected_functions config ≠ [] →
  let loaded := assistant_selection_changed manager d in
  loaded.2 = Some (AttributeError "get_function_configs") ∧
  nameEdit loaded.1 = AssistantConfig.name config ∧
  Qt.currentText (modelComboBox loaded.1) = AssistantConfig.model config ∧
  knowledge_files_dict loaded.1 = AssistantConfig.knowledge_files config ∧
  selected_functions loaded.1 = [] ∧
  knowledge_retrieval loaded.1 = false ∧
  code_interpreter loaded.1 = false ∧
  outputFolderPathEdit loaded.1 = "".
Proof.
  intros Hnew%String.eqb_neq Hempty%String.eqb_neq Hknown Hnone Hstored loaded.
  subst loaded. unfold assistant_selection_changed. cbv zeta.
  destruct (reset_fields_read d)
    as (Hbox & Hconfigs & Hfiles & Hfolder & Hselected & Hretrieval
        & Hinterpreter & _).
  rewrite Hbox, Hnew, Hempty. cbn [negb].
  destruct (pre_load_assistant_config_result manager (assistantComboBox d)
              (set_is_create false (reset_fields d)) config Hknown)
    as (Herror & _ & _ & Hname' & Hinstructions' & Hmodel' & _ & Hfiles' & Hrest).
  rewrite Hconfigs, Hnone in Herror, Hrest.
  destruct (AssistantConfig.selected_functions config) as [|func funcs]; [done |].
  destruct Hrest as (Hselected' & Hretrieval' & Hinterpreter' & Hfolder').
  rewrite Hmodel', select_model_text, Hfiles', Hfiles, insert_all_map_to_list.
  by split_and!; [done..| congruence | congruence | congruence | congruence].
Qed.

Lemma load_without_function_manager_stops_witness :
  let loaded :=
    assistant_selection_changed Examples.manager
      Examples.picking_without_functions in
  loaded.2 = Some (AttributeError "get_function_configs") ∧
  nameEdit loaded.1 = AssistantConfig.name Examples.helper ∧
  Qt.currentText (modelComboBox loaded.1) = AssistantConfig.model Examples.helper ∧
  knowledge_files_dict loaded.1 = AssistantConfig.knowledge_files Examples.helper ∧
  selected_functions loaded.1 = [] ∧
  knowledge_retrieval loaded.1 = false ∧
  code_interpreter loaded.1 = false ∧
  outputFolderPathEdit loaded.1 = "".
Proof.
  by apply (load_without_function_manager_stops Examples.manager
              Examples.picking_without_functions Examples.helper).
Defined.

(** X7: picking "New Assistant" gives a blank form for a new profile:
    nothing is raised; the document the form stands for has no name, no
    instructions, no knowledge file, no function and both tool flags off,
    the model the box lists first and the default output folder; and the
    id of the profile shown before, which [reset_fields] keeps, does not
    reach that document. *)
Theorem new_assistant_blank_form manager d :
  assistantComboBox d = "New Assistant" →
  let picked := assistant_selection_changed manager d in
  picked.2 = None ∧
  is_create picked.1 = true ∧
  assistant_config picked.1 = None ∧
  assistant_id picked.1 = assistant_id d ∧
  config_of picked.1
    = AssistantConfig.mk "" ""
        (Qt.currentText (Qt.setCurrentIndex 0 (modelComboBox d))) "" ∅ []
        false false (default_output_folder_path d) (aiClientComboBox d)
        (assistant_type d).
Proof.
  intros Hnew picked. subst picked.
  unfold assistant_selection_changed. cbv zeta.
  destruct (reset_fields_read d) as (Hbox & _).
  rewrite Hbox, Hnew. cbn [String.eqb Ascii.eqb Bool.eqb fst snd].
  rewrite reset_fields_eq. unfold config_of. read_fields. by split_and!.
Qed.

Lemma new_assistant_blank_form_witness :
  let picked := assistant_selection_changed Examples.manager Examples.fresh in
  picked.2 = None ∧
  is_create picked.1 = true ∧
  assistant_config picked.1 = None ∧
  assistant_id picked.1 = assistant_id Examples.fresh ∧
  config_of picked.1
    = AssistantConfig.mk "" ""
        (Qt.currentText (Qt.setCurrentIndex 0 (modelComboBox Examples.fresh)))
        "" ∅ [] false false (default_output_folder_path Examples.fresh)
        (aiClientComboBox Examples.fresh) (assistant_type Examples.fresh).
Proof. by apply (new_assistant_blank_form Examples.manager Examples.fresh). Defined.

(** The three invariants of the check boxes speak of the boxes and of
    the selected functions only. *)
Lemma invariants_frame function_configs func_names d d' :
  checkBoxes d' = checkBoxes d →
  selected_functions d' = selected_functions d →
  boxes_follow function_configs d ∧ selection_shows_checked d
    ∧ checked_are func_names d →
  boxes_follow function_configs d' ∧ selection_shows_checked d'
    ∧ checked_are func_names d'.
Proof.
  unfold boxes_follow, selection_shows_checked, checked_are.
  by intros -> ->.
Qed.

(** They hold with nothing selected once every box is unchecked. *)
Lemma unchecked_invariants function_configs d d' :
  boxes_follow function_configs d →
  checkBoxes d' = unchecked (checkBoxes d) →
  selected_functions d' = [] →
  boxes_follow function_configs d' ∧ selection_shows_checked d'
    ∧ checked_are [] d'.
Proof.
  intros Hfollow Hboxes Hselected.
  assert (∀ func_type,
    dict_get func_type (checkBoxes d')
      = fmap (M := list) uncheck <$> dict_get func_type (checkBoxes d)) as Hget.
  { intros func_type. rewrite Hboxes. unfold unchecked.
    apply (dict_get_sections (fmap (M := list) uncheck)). }
  split_and!.
  - intros func_type. destruct (Hfollow func_type) as [Hconfigs Hlabel].
    rewrite Hget.
    destruct (dict_get func_type (checkBoxes d)) as [boxes|]; cbn [fmap option_fmap option_map].
    + split.
      * rewrite <- Hconfigs. cbn [fmap option_fmap option_map]. f_equal.
        rewrite <- list_fmap_compose. by apply list_fmap_ext.
      * intros boxes' checkBox [= <-] (box & -> & Hin)%list_elem_of_fmap.
        apply (Hlabel boxes box eq_refl Hin).
    + by split.
  - intros name. rewrite Hselected. split; [by intros ?%elem_of_nil |].
    intros (func_type & boxes & checkBox & Hboxes' & Hin & Hchecked & _).
    rewrite Hget in Hboxes'.
    destruct (dict_get func_type (checkBoxes d)) as [boxes0|]; [| done].
    injection Hboxes' as <-.
    by apply list_elem_of_fmap in Hin as (box & -> & _).
  - intros func_type boxes checkBox Hboxes' Hin. rewrite Hget in Hboxes'.
    destruct (dict_get func_type (checkBoxes d)) as [boxes0|]; [| done].
    injection Hboxes' as <-.
    apply list_elem_of_fmap in Hin as (box & -> & _).
    split; [done | by intros ?%elem_of_nil].
Qed.

(** [pre_load_assistant_config] keeps the invariants and checks the
    boxes of the stored functions. *)
Lemma pre_load_assistant_config_boxes manager name d config function_configs
    func_names :
  manager !! name = Some config →
  function_config_manager d = Some function_configs →
  boxes_follow function_configs d ∧ selection_shows_checked d
    ∧ checked_are func_names d →
  let loaded := (pre_load_assistant_config manager name d).1 in
  boxes_follow function_configs loaded ∧ selection_shows_checked loaded
    ∧ checked_are
        (func_names ++ names (AssistantConfig.selected_functions config)) loaded.
Proof.
  intros Hknown Hmanager Hinvariants loaded. subst loaded.
  unfold pre_load_assistant_config. cbv zeta.
  change (assistant_config (set_assistant_config ?c _)) with c.
  rewrite Hknown, load_knowledge_files_eq. unfold pre_select_functions.
  read_fields.
  match goal with
  | |- context [pre_select_loop ?funcs ?d1] =>
      destruct (pre_select_loop_invariant function_configs funcs func_names d1)
        as (d2 & -> & Hinvariants');
        [exact Hmanager
        |exact (proj1 Hinvariants)
        |exact (proj1 (proj2 Hinvariants))
        |exact (proj2 (proj2 Hinvariants)) |]
  end.
  cbn [fst snd].
  unfold knowledgeRetrievalCheckBox_setChecked, codeInterpreterCheckBox_setChecked.
  read_fields.
  apply (invariants_frame _ _ d2); [| | done];
    repeat case_match; reflexivity.
Qed.

(** X8: switching profiles leaves no function of the profile shown before
    selected: whichever boxes were checked, once a stored profile was
    picked the checked boxes are those labelled with a function the
    profile stores, the selected names are the names of the checked boxes,
    and the boxes still stand for the configured functions. *)
Theorem switching_profiles_checks_stored_functions manager d config
    function_configs :
  function_config_manager d = Some function_configs →
  boxes_follow function_configs d →
  assistantComboBox d ≠ "New Assistant" →
  assistantComboBox d ≠ "" →
  manager !! assistantComboBox d = Some config →
  let loaded := (assistant_selection_changed manager d).1 in
  boxes_follow function_configs loaded ∧
  selection_shows_checked loaded ∧
  checked_are (names (AssistantConfig.selected_functions config)) loaded.
Proof.
  intros Hmanager Hfollow Hnew%String.eqb_neq Hempty%String.eqb_neq Hknown loaded.
  subst loaded. unfold assistant_selection_changed. cbv zeta.
  destruct (reset_fields_read d) as (Hbox & Hconfigs & _).
  rewrite Hbox, Hnew, Hempty. cbn [negb].
  apply (pre_load_assistant_config_boxes manager (assistantComboBox d)
           (set_is_create false (reset_fields d)) config function_configs []
           Hknown).
  - by rewrite Hconfigs.
  - apply (unchecked_invariants function_configs d); [done |..];
      by rewrite reset_fields_eq.
Qed.

Lemma switching_profiles_checks_stored_functions_witness :
  let loaded :=
    (assistant_selection_changed Examples.manager Examples.with_files).1 in
  boxes_follow Examples.function_configs loaded ∧
  selection_shows_checked loaded ∧
  checked_are (names (AssistantConfig.selected_functions Examples.helper)) loaded.
Proof.
  apply (switching_profiles_checks_stored_functions Examples.manager
           Examples.with_files Examples.helper Examples.function_configs).
  - vm_compute. reflexivity.
  - unfold boxes_follow. intros func_type.
    let boxes := eval vm_compute in (checkBoxes Examples.with_files) in
    assert (checkBoxes Examples.with_files = boxes) as ->
      by (vm_compute; reflexivity).
    unfold Examples.function_configs. cbn [dict_get].
    destruct (String.eqb "system" func_type); [| done].
    split; [done |].
    intros boxes checkBox [= <-] Hin.
    apply list_elem_of_In in Hin. cbn [In] in Hin.
    by destruct Hin as [<- | [<- | []]].
  - apply (bool_decide_unpack _). vm_compute. exact I.
  - apply (bool_decide_unpack _). vm_compute. exact I.
  - vm_compute. reflexivity.
Defined.

End loading_more.

(** * Further properties of the knowledge files *)

Section files_more.
Import AssistantConfigDialog.
Implicit Types (d : t) (files : gmap string (option string)).

(** The loop of [remove_file] on a list that shows keys of the dict, each
    once: the items it leaves and the dict it leaves. *)
Lemma remove_selected_eq items files :
  NoDup (Qt.text <$> items) →
  list_to_set (Qt.text <$> items) ⊆ dom files →
  ∃ files',
    remove_selected items files
      = (filter (λ item, Qt.isSelected item = false) items, files', None) ∧
    ∀ path,
      files' !! path
        = if bool_decide
               (path ∈ Qt.text
                  <$> filter (λ item, Qt.isSelected item = true) items)
          then None else files !! path.
Proof.
  revert files. induction items as [|item items IH]; intros files Hnodup Hkeys.
  - exists files. split; [done |]. intros path.
    by rewrite bool_decide_eq_false_2 by (by intros ?%elem_of_nil).
  - rewrite fmap_cons in Hnodup, Hkeys.
    apply NoDup_cons in Hnodup as [Hfresh Hnodup].
    rewrite list_to_set_cons in Hkeys.
    cbn [remove_selected]. destruct (Qt.isSelected item) eqn:Hselected.
    + destruct (files !! Qt.text item) as [file_id|] eqn:Hfile.
      2: { apply not_elem_of_dom in Hfile. set_solver. }
      destruct (IH (delete (Qt.text item) files) Hnodup)
        as (files' & -> & Hlookup).
      { rewrite dom_delete_L. set_solver. }
      exists files'. split.
      * by rewrite filter_cons_False by (by rewrite Hselected).
      * intros path. rewrite Hlookup, filter_cons_True, fmap_cons by done.
        destruct (decide (path = Qt.text item)) as [->|Hne].
        -- rewrite (bool_decide_eq_true_2 (_ ∈ _ :: _)) by left.
           case_bool_decide; [done |]. by rewrite lookup_delete_eq.
        -- rewrite lookup_delete_ne by done.
           repeat case_bool_decide; try done; set_solver.
    + destruct (IH files Hnodup) as (files' & -> & Hlookup); [set_solver |].
      exists files'. split.
      * by rewrite filter_cons_True by done.
      * intros path. rewrite Hlookup.
        by rewrite (filter_cons_False _ item) by (by rewrite Hselected).
Qed.

Lemma filter_none {A} (P Q : A → Prop) `{∀ x, Decision (P x)}
    `{∀ x, Decision (Q x)} (l : list A) :
  (∀ x, P x ∨ Q x) → filter P l = [] → filter Q l = l.
Proof.
  intros Hor. induction l as [|x l IH]; [done |].
  rewrite !filter_cons. destruct (decide (P x)) as [|Hno]; [done |].
  intros Hnone. destruct (Hor x) as [|Hyes]; [done |].
  rewrite decide_True by done. f_equal. by apply IH.
Qed.

(** X9: [remove_file] takes out the selected files and nothing else: on a
    form whose list shows the keys of the dict, each once, it raises
    nothing, the list shows the files of the items that were not
    selected, in order, and the dict loses the paths of the selected items
    and keeps every other entry with its file id. *)
Theorem remove_file_removes_selected d :
  files_listed d →
  let removed := remove_file d in
  let gone :=
    Qt.text <$> filter (λ item, Qt.isSelected item = true) (knowledgeFileList d) in
  removed.2 = None ∧
  Qt.text <$> knowledgeFileList removed.1
    = Qt.text
        <$> filter (λ item, Qt.isSelected item = false) (knowledgeFileList d) ∧
  ∀ path,
    knowledge_files_dict removed.1 !! path
      = if bool_decide (path ∈ gone) then None
        else knowledge_files_dict d !! path.
Proof.
  intros [Hnodup Hkeys] removed gone. subst removed gone.
  unfold remove_file. cbv zeta.
  destruct (filter (λ item, Qt.isSelected item = true) (knowledgeFileList d))
    as [|item selected_items] eqn:Hselected.
  - cbn [fst snd]. split_and!; [done | |].
    + f_equal. symmetry. eapply filter_none; [| exact Hselected].
      intros item. cbn beta. destruct (Qt.isSelected item); auto.
    + intros path. by rewrite bool_decide_eq_false_2 by (by intros ?%elem_of_nil).
  - destruct (remove_selected_eq (knowledgeFileList d) (knowledge_files_dict d))
      as (files' & -> & Hlookup); [done | by rewrite Hkeys |].
    cbn [fst snd]. read_fields. split_and!; [done | done |].
    intros path. by rewrite Hlookup, Hselected.
Qed.

Lemma remove_file_removes_selected_witness :
  let removed := remove_file Examples.with_files in
  let gone :=
    Qt.text <$> filter (λ item, Qt.isSelected item = true)
                       (knowledgeFileList Examples.with_files) in
  removed.2 = None ∧
  Qt.text <$> knowledgeFileList removed.1
    = Qt.text
        <$> filter (λ item, Qt.isSelected item = false)
                   (knowledgeFileList Examples.with_files) ∧
  ∀ path,
    knowledge_files_dict removed.1 !! path
      = if bool_decide (path ∈ gone) then None
        else knowledge_files_dict Examples.with_files !! path.
Proof.
  apply (remove_file_removes_selected Examples.with_files).
  split.
  - apply (bool_decide_unpack _). vm_compute. exact I.
  - apply (bool_decide_unpack _). vm_compute. exact I.
Defined.

Lemma filter_no {A} (P : A → Prop) `{∀ x, Decision (P x)} (l : list A) :
  (∀ x, x ∈ l → ¬ P x) → filter P l = [].
Proof.
  induction l as [|x l IH]; intros Hno; [done |].
  rewrite filter_cons, decide_False by (apply Hno; apply list_elem_of_here).
  apply IH. intros y Hy. apply Hno. by apply list_elem_of_further.
Qed.

(** A click on a row of the list selects that row alone. *)
Lemma select_item_last filePath items d :
  knowledgeFileList
    (select_item (length items)
       (set_knowledgeFileList (items ++ [Qt.mkListItem filePath false]) d))
    = ((λ item, Qt.mkListItem (Qt.text item) false) <$> items)
        ++ [Qt.mkListItem filePath true].
Proof.
  unfold select_item. read_fields. rewrite imap_app. f_equal.
  - rewrite <- imap_const. apply imap_ext. intros i item Hitem%lookup_lt_Some.
    cbn. f_equal. apply bool_decide_eq_false_2. lia.
  - cbn [imap]. rewrite Nat.add_0_r. by rewrite bool_decide_eq_true_2.
Qed.

(** X10: adding a file and removing it again restores the knowledge
    files: after [add_file] with a new path, a click on the new row and
    [remove_file], nothing was raised, the dict is the one before, file
    ids included, and the list shows the files it showed, in their
    order. *)
Theorem add_then_remove_restores filePath d :
  files_listed d →
  filePath ≠ "" →
  filePath ∉ dom (knowledge_files_dict d) →
  let added := add_file filePath d in
  let removed :=
    remove_file (select_item (length (knowledgeFileList d)) added) in
  files_listed added ∧
  removed.2 = None ∧
  knowledge_files_dict removed.1 = knowledge_files_dict d ∧
  Qt.text <$> knowledgeFileList removed.1 = Qt.text <$> knowledgeFileList d.
Proof.
  intros [Hnodup Hkeys] Hpath%truthy_true Hnew added removed.
  subst added removed. unfold add_file.
  rewrite Hpath, bool_decide_eq_false_2 by done. cbv zeta. read_fields.
  assert (filePath ∉ Qt.text <$> knowledgeFileList d) as Hfresh.
  { intros Hin. apply Hnew. rewrite <- Hkeys. by apply elem_of_list_to_set. }
  assert (files_listed
            (set_knowledgeFileList
               (knowledgeFileList d ++ [Qt.mkListItem filePath false])
               (set_knowledge_files_dict
                  (<[filePath:=None]> (knowledge_files_dict d)) d))) as Hadded.
  { unfold files_listed. read_fields.
    rewrite fmap_app, list_to_set_app_L, dom_insert_L, Hkeys.
    change (Qt.text <$> [Qt.mkListItem filePath false]) with [filePath].
    split; [| clear; set_solver].
    apply NoDup_app. split_and!; [done | | apply NoDup_singleton].
    by intros path Hin ->%list_elem_of_singleton. }
  split; [done |]. clear Hadded.
  set (deselected :=
         (λ item, Qt.mkListItem (Qt.text item) false) <$> knowledgeFileList d).
  assert (Qt.text <$> deselected = Qt.text <$> knowledgeFileList d) as Htexts.
  { subst deselected. rewrite <- list_fmap_compose. by apply list_fmap_ext. }
  assert (filter (λ item, Qt.isSelected item = true) deselected = [])
    as Hnone.
  { apply filter_no. subst deselected.
    by intros item (item' & -> & _)%list_elem_of_fmap. }
  assert (filter (λ item, Qt.isSelected item = false) deselected = deselected)
    as Hall.
  { apply filter_all. subst deselected.
    by intros item (item' & -> & _)%list_elem_of_fmap. }
  unfold remove_file. cbv zeta. rewrite select_item_last. fold deselected.
  assert (knowledge_files_dict
            (select_item (length (knowledgeFileList d))
               (set_knowledgeFileList
                  (knowledgeFileList d ++ [Qt.mkListItem filePath false])
                  (set_knowledge_files_dict
                     (<[filePath:=None]> (knowledge_files_dict d)) d)))
          = <[filePath:=None]> (knowledge_files_dict d)) as -> by done.
  rewrite (filter_app _ deselected), Hnone.
  rewrite filter_cons_True by done. cbn [app filter list_filter].
  destruct (remove_selected_eq (deselected ++ [Qt.mkListItem filePath true])
              (<[filePath:=None]> (knowledge_files_dict d)))
    as (files' & -> & Hlookup).
  { rewrite fmap_app, Htexts. apply NoDup_app.
    split_and!; [done | | apply NoDup_singleton].
    by intros path Hin ->%list_elem_of_singleton. }
  { rewrite fmap_app, Htexts, list_to_set_app_L, dom_insert_L, Hkeys.
    change (Qt.text <$> [Qt.mkListItem filePath true]) with [filePath].
    clear. set_solver. }
  cbn [fst snd]. read_fields. split_and!; [done | |].
  - apply map_eq. intros path. rewrite Hlookup.
    rewrite (filter_app _ deselected), Hnone, filter_cons_True by done.
    cbn [app filter list_filter fmap list_fmap Qt.text].
    case_bool_decide as Hpath'.
    + apply list_elem_of_singleton in Hpath' as ->. symmetry.
      by apply not_elem_of_dom.
    + rewrite lookup_insert_ne; [done |].
      intros <-. apply Hpath'. by apply list_elem_of_singleton.
  - rewrite (filter_app _ deselected), Hall.
    rewrite filter_cons_False by done. cbn [filter list_filter].
    by rewrite app_nil_r.
Qed.

Lemma add_then_remove_restores_witness :
  let d := Examples.with_files in
  let added := add_file "/data/towns.csv" d in
  let removed :=
    remove_file (select_item (length (knowledgeFileList d)) added) in
  files_listed added ∧
  removed.2 = None ∧
  knowledge_files_dict removed.1 = knowledge_files_dict d ∧
  Qt.text <$> knowledgeFileList removed.1 = Qt.text <$> knowledgeFileList d.
Proof.
  apply (add_then_remove_restores "/data/towns.csv" Examples.with_files).
  - split.
    + apply (bool_decide_unpack _). vm_compute. exact I.
    + apply (bool_decide_unpack _). vm_compute. exact I.
  - done.
  - apply (bool_decide_unpack _). vm_compute. exact I.
Defined.

End files_more.

(** * Clicking the function check boxes *)

Section clicking.
Import AssistantConfigDialog.
Implicit Types (d : t) (sections : list (string * list CheckBox)).
Implicit Types (boxes : list CheckBox) (checkBox : CheckBox).

Lemma box_names_cons function_type boxes sections :
  box_names ((function_type, boxes) :: sections)
    = ((λ checkBox, FunctionConfig.name (fc checkBox)) <$> boxes)
        ++ box_names sections.
Proof. reflexivity. Qed.

Lemma dict_get_names function_type sections boxes checkBox :
  dict_get function_type sections = Some boxes → checkBox ∈ boxes →
  FunctionConfig.name (fc checkBox) ∈ box_names sections.
Proof.
  induction sections as [|[k v] sections IH]; [done |].
  cbn [dict_get]. rewrite box_names_cons, elem_of_app.
  destruct (String.eqb k function_type).
  - intros [= ->] Hin. left.
    by apply (list_elem_of_fmap_2 (λ checkBox, FunctionConfig.name (fc checkBox))).
  - intros Hget Hin. right. by apply IH.
Qed.

(** Where no two boxes stand for the same name, the boxes of a section
    have different names, and so have boxes of different sections. *)
Lemma names_in_section function_type sections boxes :
  NoDup (box_names sections) →
  dict_get function_type sections = Some boxes →
  NoDup ((λ checkBox, FunctionConfig.name (fc checkBox)) <$> boxes).
Proof.
  induction sections as [|[k v] sections IH]; [done |].
  rewrite box_names_cons. intros (Hhere & _ & Hrest)%NoDup_app.
  cbn [dict_get]. destruct (String.eqb k function_type).
  - by intros [= ->].
  - by apply IH.
Qed.

Lemma names_across_sections function_type function_type' sections boxes boxes'
    checkBox checkBox' :
  NoDup (box_names sections) →
  function_type ≠ function_type' →
  dict_get function_type sections = Some boxes →
  dict_get function_type' sections = Some boxes' →
  checkBox ∈ boxes → checkBox' ∈ boxes' →
  FunctionConfig.name (fc checkBox) ≠ FunctionConfig.name (fc checkBox').
Proof.
  intros Hnodup Hne. induction sections as [|[k v] sections IH]; [done |].
  rewrite box_names_cons in Hnodup.
  apply NoDup_app in Hnodup as (_ & Hdisjoint & Hrest).
  cbn [dict_get].
  destruct (String.eqb_spec k function_type) as [Hk | Hk];
    destruct (String.eqb_spec k function_type') as [Hk' | Hk'].
  - by subst.
  - intros [= <-] Hget' Hin Hin' Heq.
    apply (Hdisjoint (FunctionConfig.name (fc checkBox))).
    + by apply (list_elem_of_fmap_2 (λ checkBox, FunctionConfig.name (fc checkBox))).
    + rewrite Heq. by eapply dict_get_names.
  - intros Hget [= <-] Hin Hin' Heq.
    apply (Hdisjoint (FunctionConfig.name (fc checkBox'))).
    + by apply (list_elem_of_fmap_2 (λ checkBox, FunctionConfig.name (fc checkBox))).
    + rewrite <- Heq. by eapply dict_get_names.
  - by apply IH.
Qed.

(** A box other than the one in row [row] of its section has another
    name. *)
Lemma other_box_other_name function_type function_type' row sections boxes
    boxes' checkBox checkBox' :
  NoDup (box_names sections) →
  dict_get function_type' sections = Some boxes' →
  boxes' !! row = Some checkBox' →
  dict_get function_type sections = Some boxes →
  checkBox ∈ boxes →
  (function_type = function_type' →
   ∃ j, j ≠ row ∧ boxes' !! j = Some checkBox) →
  FunctionConfig.name (fc checkBox) ≠ FunctionConfig.name (fc checkBox').
Proof.
  intros Hnodup Hget' Hrow Hget Hin Hother.
  destruct (decide (function_type = function_type')) as [-> | Hne].
  - destruct (Hother eq_refl) as (j & Hj & Hlookup). intros Heq. apply Hj.
    apply (NoDup_lookup _ j row (FunctionConfig.name (fc checkBox))
             (names_in_section _ _ _ Hnodup Hget'));
      rewrite list_lookup_fmap.
    + by rewrite Hlookup.
    + rewrite Hrow. cbn. by rewrite Heq.
  - eapply names_across_sections; [done | done | done | done | done |].
    by eapply list_elem_of_lookup_2.
Qed.

Lemma box_names_dict_set function_type sections boxes boxes' :
  dict_get function_type sections = Some boxes →
  (λ checkBox, FunctionConfig.name (fc checkBox)) <$> boxes'
    = (λ checkBox, FunctionConfig.name (fc checkBox)) <$> boxes →
  box_names (dict_set function_type boxes' sections) = box_names sections.
Proof.
  intros Hget Hnames. induction sections as [|[k v] sections IH]; [done |].
  cbn [dict_get dict_set] in *.
  destruct (String.eqb k function_type).
  - injection Hget as ->. by rewrite !box_names_cons, Hnames.
  - by rewrite !box_names_cons, IH.
Qed.

Lemma names_insert boxes row checkBox checkBox' :
  boxes !! row = Some checkBox → fc checkBox' = fc checkBox →
  (λ checkBox, FunctionConfig.name (fc checkBox)) <$> <[row:=checkBox']> boxes
    = (λ checkBox, FunctionConfig.name (fc checkBox)) <$> boxes.
Proof.
  intros Hrow Hfc. rewrite list_fmap_insert. apply list_insert_id.
  by rewrite list_lookup_fmap, Hrow, Hfc.
Qed.

(** The boxes after a click on row [row] of [function_type']: the
    clicked box, and the boxes that were there, but for the one
    clicked. *)
Lemma clicked_boxes function_type function_type' row sections boxes' clicked
    boxes checkBox :
  dict_get function_type' sections = Some boxes' →
  dict_get function_type
    (dict_set function_type' (<[row:=clicked]> boxes') sections) = Some boxes →
  checkBox ∈ boxes →
  checkBox = clicked ∨
  ∃ boxes0,
    dict_get function_type sections = Some boxes0 ∧ checkBox ∈ boxes0 ∧
    (function_type = function_type' →
     ∃ j, j ≠ row ∧ boxes' !! j = Some checkBox).
Proof.
  intros Hget'. destruct (decide (function_type = function_type')) as [-> | Hne].
  - rewrite dict_get_set_eq. intros [= <-] (j & Hj)%list_elem_of_lookup_1.
    destruct (decide (row = j)) as [-> | Hrow].
    + left. apply lookup_lt_Some in Hj as Hlt. rewrite length_insert in Hlt.
      rewrite list_lookup_insert_eq in Hj by done. by injection Hj.
    + right. rewrite list_lookup_insert_ne in Hj by done.
      exists boxes'. split_and!; [done | by eapply list_elem_of_lookup_2 |].
      intros _. exists j. by split.
  - rewrite dict_get_set_ne by done. intros Hget Hin. right.
    exists boxes. by split_and!.
Qed.

Lemma unclicked_boxes function_type function_type' row sections boxes' clicked
    unclicked boxes checkBox :
  dict_get function_type' sections = Some boxes' →
  boxes' !! row = Some unclicked →
  dict_get function_type sections = Some boxes →
  checkBox ∈ boxes →
  checkBox ≠ unclicked →
  ∃ boxes0,
    dict_get function_type
      (dict_set function_type' (<[row:=clicked]> boxes') sections) = Some boxes0
    ∧ checkBox ∈ boxes0.
Proof.
  intros Hget' Hrow Hget Hin Hne.
  destruct (decide (function_type = function_type')) as [-> | Hother].
  - rewrite dict_get_set_eq. eexists. split; [done |].
    rewrite Hget' in Hget. injection Hget as <-.
    apply list_elem_of_lookup_1 in Hin as (j & Hj).
    apply (list_elem_of_lookup_2 _ j). rewrite list_lookup_insert_ne; [done |].
    intros ->. rewrite Hrow in Hj. by injection Hj.
  - rewrite dict_get_set_ne by done. by exists boxes.
Qed.

Lemma clicked_box function_type' row sections boxes' clicked unclicked :
  boxes' !! row = Some unclicked →
  ∃ boxes0,
    dict_get function_type'
      (dict_set function_type' (<[row:=clicked]> boxes') sections) = Some boxes0
    ∧ clicked ∈ boxes0.
Proof.
  intros Hrow%lookup_lt_Some. rewrite dict_get_set_eq. eexists. split; [done |].
  apply (list_elem_of_lookup_2 _ row). by rewrite list_lookup_insert_eq.
Qed.

Lemma names_filter func_name func_name'
    (selected : list FunctionConfig.FullSpec) :
  func_name
    ∈ names (filter (λ f, FunctionConfig.function_name f ≠ func_name') selected)
  ↔ func_name ∈ names selected ∧ func_name ≠ func_name'.
Proof.
  unfold names. rewrite !list_elem_of_fmap. split.
  - intros (spec & -> & [Hne Hin]%list_elem_of_filter). split; [| done].
    by exists spec.
  - intros [(spec & -> & Hin) Hne]. exists spec. split; [done |].
    by apply list_elem_of_filter.
Qed.

(** One click keeps the selection in step with the boxes. *)
Lemma click_checkBox_invariant function_type row d :
  NoDup (box_names (checkBoxes d)) →
  selection_shows_checked d →
  NoDup (names (selected_functions d)) →
  box_names (checkBoxes (click_checkBox function_type row d))
    = box_names (checkBoxes d) ∧
  selection_shows_checked (click_checkBox function_type row d) ∧
  NoDup (names (selected_functions (click_checkBox function_type row d))).
Proof.
  intros Hdistinct Hshows Hnodup. unfold click_checkBox.
  destruct (dict_get function_type (checkBoxes d)) as [boxes|] eqn:Hget;
    [| done].
  destruct (boxes !! row) as [unclicked|] eqn:Hrow; [| done].
  unfold setChecked.
  assert (Bool.eqb (isChecked unclicked) (negb (isChecked unclicked)) = false)
    as -> by (by destruct (isChecked unclicked)).
  set (clicked := mkCheckBox (text unclicked) (negb (isChecked unclicked))
                    (fc unclicked)).
  assert (box_names (dict_set function_type (<[row:=clicked]> boxes)
                       (checkBoxes d)) = box_names (checkBoxes d)) as Hnames.
  { apply (box_names_dict_set _ _ boxes); [done |].
    by apply (names_insert _ _ unclicked). }
  destruct (isChecked unclicked) eqn:Hchecked; cbn [negb Qt.check_state] in *.
  - (* the box was checked: the click unchecks it *)
    unfold handle_function_selection. read_fields.
    split_and!; [done | |].
    + intros func_name. unfold selection_shows_checked in Hshows.
      read_fields. rewrite names_filter, Hshows. split.
      * intros [(func_type & boxes0 & checkBox & Hget0 & Hin & Hon & Hname) Hne].
        destruct (unclicked_boxes func_type function_type row (checkBoxes d)
                    boxes clicked unclicked boxes0 checkBox)
          as (boxes1 & Hget1 & Hin1); [done.. | by intros -> |].
        by exists func_type, boxes1, checkBox.
      * intros (func_type & boxes1 & checkBox & Hget1 & Hin1 & Hon & Hname).
        destruct (clicked_boxes func_type function_type row (checkBoxes d)
                    boxes clicked boxes1 checkBox Hget Hget1 Hin1)
          as [-> | (boxes0 & Hget0 & Hin0 & Hother)]; [done |].
        split; [by exists func_type, boxes0, checkBox |].
        rewrite <- Hname.
        by eapply (other_box_other_name func_type function_type row).
    + apply (sublist_NoDup _ (names (selected_functions d))); [done |].
      unfold names. apply fmap_sublist, sublist_filter.
  - (* the box was not checked: the click checks it *)
    rewrite handle_checked. read_fields.
    assert (FunctionConfig.name (fc unclicked) ∉ names (selected_functions d))
      as Hfresh.
    { intros (func_type & boxes0 & checkBox & Hget0 & Hin & Hon & Hname)%Hshows.
      assert (checkBox ≠ unclicked) as Hne by (intros ->; congruence).
      revert Hname.
      eapply (other_box_other_name func_type function_type row); [done.. |].
      intros ->. rewrite Hget in Hget0. injection Hget0 as <-.
      apply list_elem_of_lookup_1 in Hin as (j & Hj). exists j.
      split; [| done]. intros ->. rewrite Hrow in Hj. by injection Hj. }
    split_and!; [done | |].
    + intros func_name. unfold selection_shows_checked in Hshows.
      read_fields. unfold names. rewrite fmap_app, elem_of_app.
      fold (names (selected_functions d)). rewrite Hshows.
      cbn [fmap list_fmap FunctionConfig.get_full_spec
           FunctionConfig.function_name].
      rewrite list_elem_of_singleton. split.
      * intros [(func_type & boxes0 & checkBox & Hget0 & Hin & Hon & Hname) | ->].
        -- destruct (unclicked_boxes func_type function_type row (checkBoxes d)
                       boxes clicked unclicked boxes0 checkBox)
             as (boxes1 & Hget1 & Hin1); [done.. | intros ->; congruence |].
           by exists func_type, boxes1, checkBox.
        -- destruct (clicked_box function_type row (checkBoxes d) boxes clicked
                       unclicked Hrow) as (boxes1 & Hget1 & Hin1).
           by exists function_type, boxes1, clicked.
      * intros (func_type & boxes1 & checkBox & Hget1 & Hin1 & Hon & Hname).
        destruct (clicked_boxes func_type function_type row (checkBoxes d)
                    boxes clicked boxes1 checkBox Hget Hget1 Hin1)
          as [-> | (boxes0 & Hget0 & Hin0 & Hother)]; [by right |].
        left. by exists func_type, boxes0, checkBox.
    + unfold names. rewrite fmap_app. apply NoDup_app.
      split_and!; [done | | apply NoDup_singleton].
      by intros func_name Hin ->%list_elem_of_singleton.
Qed.

(** X14: where no two check boxes stand for functions of the same name,
    the selection stays in step with the boxes whatever the user clicks:
    after any clicks, on boxes that exist or not, the selected names are
    the names of the checked boxes, and no name is selected twice. *)
Theorem clicks_keep_selection_in_step clicks d :
  NoDup (box_names (checkBoxes d)) →
  selection_shows_checked d →
  NoDup (names (selected_functions d)) →
  selection_shows_checked (click_checkBoxes clicks d) ∧
  NoDup (names (selected_functions (click_checkBoxes clicks d))) ∧
  box_names (checkBoxes (click_checkBoxes clicks d)) = box_names (checkBoxes d).
Proof.
  revert d. induction clicks as [|[function_type row] clicks IH];
    intros d Hdistinct Hshows Hnodup; [done |].
  unfold click_checkBoxes. cbn [foldl fst snd].
  destruct (click_checkBox_invariant function_type row d)
    as (Hnames & Hshows' & Hnodup'); [done.. |].
  destruct (IH (click_checkBox function_type row d))
    as (Hshows'' & Hnodup'' & Hnames''); [by rewrite Hnames | done | done |].
  split_and!; [done | done |]. by rewrite <- Hnames.
Qed.

Lemma clicks_keep_selection_in_step_witness :
  let clicks := [("system", 0); ("system", 1); ("user", 0); ("system", 0)] in
  selection_shows_checked (click_checkBoxes clicks Examples.fresh) ∧
  NoDup (names (selected_functions (click_checkBoxes clicks Examples.fresh))) ∧
  box_names (checkBoxes (click_checkBoxes clicks Examples.fresh))
    = box_names (checkBoxes Examples.fresh).
Proof.
  apply (clicks_keep_selection_in_step
           [("system", 0); ("system", 1); ("user", 0); ("system", 0)]
           Examples.fresh).
  - apply (bool_decide_unpack _). vm_compute. exact I.
  - destruct (new_sections_invariant Examples.function_configs Examples.fresh)
      as (_ & Hshows & _); [vm_compute; reflexivity.. |]. exact Hshows.
  - constructor.
Defined.

End clicking.
